(** * hillmaker.bydatetime: occupancy, arrivals and departures by time bin

    A shallow embedding of [src/hillmaker/bydatetime.py], with
    [get_occstats] of [src/hillmaker/summarize.py] and [export_summaries]
    of [src/src/hillmaker/hills.py].

    Conventions of the embedding
    - bin indices (numpy int64 in the source) are [Z];
    - occupancy credits (Python floats, numpy float32/float64) are exact
      rationals [Q], compared with [==]; rounding is not modelled;
    - a pandas [Timestamp] is its count of nanoseconds since the epoch;
    - a raised Python exception is a value of [PyErr] in the [result] monad;
    - numpy arrays are lists; an array mutated in place is threaded through
      the loop as explicit state;
    - the [results] dict is a [gmap string _];
    - [stops_df] is the list of its rows, in the order of its default index.

    [hmlib.bin_of_span] and [hmlib.stoprec_analysis_rltnshp] are called by the
    source but defined elsewhere: the pipeline takes them as parameters, and
    the definitions of [Module HmlibSpec] follow the written specification. *)

From Stdlib Require Import ZArith QArith Qround Lia Lqa.
From stdpp Require Import base option list strings gmap fin_maps.

Local Open Scope Z_scope.

(** ** Exceptions *)

(** What a numpy call rejected; the message texts are not modelled. *)
Inductive numpy_complaint : Type :=
  | negative_dimensions
  | shapes_not_broadcastable
  | bincount_negative_element
  | column_lengths_differ.

Inductive PyErr : Type :=
  | ValueError (why : numpy_complaint)
  | IndexError
  | TypeError
  | ZeroDivisionError
  | PyException (pos : Z) (occ_inc : list Q).

Inductive result (A : Type) : Type :=
  | Ok (a : A)
  | Raise (e : PyErr).
Arguments Ok {A} a.
Arguments Raise {A} e.

Global Instance result_ret : MRet result := fun _ a => Ok a.
Global Instance result_bind : MBind result := fun _ _ f m =>
  match m with
  | Ok a => f a
  | Raise e => Raise e
  end.

(** [l[i]] on a list or array: [IndexError] out of range. *)
Definition getitem {A} (l : list A) (i : nat) : result A :=
  match l !! i with
  | Some a => Ok a
  | None => Raise IndexError
  end.

(** [for x in xs: body] over a state [S]; the first exception stops it. *)
Fixpoint for_in {A S} (body : A -> S -> result S) (xs : list A) (s : S)
  : result S :=
  match xs with
  | [] => Ok s
  | x :: rest => s' ← body x s; for_in body rest s'
  end.

(** [for i in range(n): body] *)
Definition for_range {S} (n : nat) (body : nat -> S -> result S) (s : S)
  : result S :=
  for_in body (seq 0 n) s.

(** [[f(x) for x in xs]], also a pandas [map]/[apply] over rows. *)
Fixpoint map_result {A B} (f : A -> result B) (xs : list A) : result (list B) :=
  match xs with
  | [] => Ok []
  | x :: rest => y ← f x; ys ← map_result f rest; Ok (y :: ys)
  end.

(** ** Python slicing *)

(** A slice bound [i] for a sequence of length [len]: negative bounds count
    from the end, and every bound is clamped into [0..len]. *)
Definition slice_index (len i : Z) : Z :=
  if i <? 0 then Z.max 0 (len + i) else Z.min i len.

(** [l[start:stop]]; [None] is an omitted bound. *)
Definition py_slice {A} (l : list A) (start stop : option Z) : list A :=
  let len := Z.of_nat (length l) in
  let lo := from_option (slice_index len) 0 start in
  let hi := from_option (slice_index len) len stop in
  take (Z.to_nat (hi - lo)) (drop (Z.to_nat lo) l).

(** ** numpy helpers *)

Definition Qsum (l : list Q) : Q := foldr Qplus 0%Q l.

(** [np.zeros(n)] *)
Definition np_zeros (n : Z) : result (list Q) :=
  if n <? 0 then Raise (ValueError negative_dimensions)
  else Ok (replicate (Z.to_nat n) 0%Q).

(** [occ[lo:hi] += inc].  The slice is a view of [k] cells starting at the
    normalised lower bound.  numpy accepts the in-place addition when [inc]
    has [k] elements, or a single element (broadcast over the view, also over
    an empty one); any other shape raises [ValueError]. *)
Definition slice_iadd (occ : list Q) (lo hi : Z) (inc : list Q)
  : result (list Q) :=
  let len := Z.of_nat (length occ) in
  let a := Z.to_nat (slice_index len lo) in
  let k := Z.to_nat (slice_index len hi - slice_index len lo) in
  let view := take k (drop a occ) in
  let store (vals : list Q) :=
    take a occ ++ zip_with Qplus view vals ++ drop (a + k)%nat occ in
  if decide (length inc = k) then Ok (store inc)
  else match inc with
       | [v] => Ok (store (replicate k v))
       | _ => Raise (ValueError shapes_not_broadcastable)
       end.

(** [np.bincount(x, minlength=n).astype(np.float32)]: negative entries raise;
    the output has [max (max x + 1) n] cells. *)
Definition count_occ_Z (x : list Z) (b : Z) : nat :=
  length (filter (fun v => v = b) x).

Definition np_bincount (x : list Z) (minlength : Z) : result (list Q) :=
  if decide (Exists (fun v => v < 0) x)
  then Raise (ValueError bincount_negative_element)
  else
    let size := Z.to_nat (Z.max (foldr Z.max (-1) x + 1) minlength) in
    Ok ((fun b : nat => inject_Z (Z.of_nat (count_occ_Z x (Z.of_nat b))))
          <$> seq 0 size).

(** [np.column_stack((arr, dep, occ))]: the columns must have one length. *)
Definition np_column_stack (arr dep occ : list Q) : result (list (Q * Q * Q)) :=
  if decide (length arr = length dep /\ length dep = length occ)
  then Ok (zip (zip arr dep) occ)
  else Raise (ValueError column_lengths_differ).

(** ** Timestamps *)

Definition Timestamp := Z.

Definition ns_per_second : Z := 1000000000.
Definition ts_second (t : Timestamp) : Z := (t / ns_per_second) mod 60.
Definition ts_minute (t : Timestamp) : Z := (t / (60 * ns_per_second)) mod 60.

(** ** Edge fractions *)

Definition in_bin_occ_frac (in_ts : Timestamp) (bin_size_minutes edge_bins : Z)
  : result Q :=
  if edge_bins =? 1 then
    if bin_size_minutes =? 0 then Raise ZeroDivisionError
    else Ok (inject_Z (ts_minute in_ts * 60 + ts_second in_ts)
             / inject_Z (bin_size_minutes * 60))%Q
  else Ok 1%Q.

Definition out_bin_occ_frac (out_ts : Timestamp) (bin_size_minutes edge_bins : Z)
  : result Q :=
  if edge_bins =? 1 then
    if bin_size_minutes =? 0 then Raise ZeroDivisionError
    else Ok (inject_Z (bin_size_minutes * 60
                       - (ts_minute out_ts * 60 + ts_second out_ts))
             / inject_Z (bin_size_minutes * 60))%Q
  else Ok 1%Q.

(** ** Increment sequences *)

Definition make_occ_incs (in_bin out_bin : Z) (in_frac out_frac : Q) : list Q :=
  let n_bins := out_bin - in_bin + 1 in
  if 2 <? n_bins then
    [in_frac] ++ replicate (Z.to_nat (n_bins - 2)) 1%Q ++ [out_frac]
  else if n_bins =? 2 then [in_frac] ++ [out_frac]
  else [in_frac].

(** ** Clipping the increment sequences: [update_occ_incs] *)

(** The three arrays the source mutates in place, and the dict it returns. *)
Record clip_state : Type := ClipState {
  in_bins : list Z;
  out_bins : list Z;
  list_of_inc_arrays : list (list Q);
  rectype_counts : gmap string nat
}.

(** [d[k] = d.get(k, 0) + 1] *)
Definition count_up (k : string) (d : gmap string nat) : gmap string nat :=
  <[k := S (default 0%nat (d !! k))]> d.

Definition update_occ_incs_body (rec_types : list string) (num_bins : Z)
    (i : nat) (s : clip_state) : result clip_state :=
  rt ← getitem rec_types i;
  if decide (rt = "inner") then
    Ok (ClipState (in_bins s) (out_bins s) (list_of_inc_arrays s)
          (count_up "inner" (rectype_counts s)))
  else if decide (rt = "left") then
    in_i ← getitem (in_bins s) i;
    let new_in_bin := 0 in
    let bin_shift := -1 * in_i in
    inc_i ← getitem (list_of_inc_arrays s) i;
    let new_inc_array := py_slice inc_i (Some bin_shift) None in
    Ok (ClipState (<[i := new_in_bin]> (in_bins s)) (out_bins s)
          (<[i := new_inc_array]> (list_of_inc_arrays s))
          (count_up "left" (rectype_counts s)))
  else if decide (rt = "right") then
    let new_out_bin := num_bins - 1 in
    out_i ← getitem (out_bins s) i;
    let bin_shift := out_i - (num_bins - 1) in
    inc_i ← getitem (list_of_inc_arrays s) i;
    let new_inc_array := py_slice inc_i None (Some (- bin_shift)) in
    Ok (ClipState (in_bins s) (<[i := new_out_bin]> (out_bins s))
          (<[i := new_inc_array]> (list_of_inc_arrays s))
          (count_up "right" (rectype_counts s)))
  else if decide (rt = "outer") then
    let new_in_bin := 0 in
    let new_out_bin := num_bins - 1 in
    in_i ← getitem (in_bins s) i;
    let entry_bin_shift := -1 * in_i in
    out_i ← getitem (out_bins s) i;
    let exit_bin_shift := out_i - (num_bins - 1) in
    inc_i ← getitem (list_of_inc_arrays s) i;
    let new_inc_array :=
      py_slice inc_i (Some entry_bin_shift) (Some (- exit_bin_shift)) in
    Ok (ClipState (<[i := new_in_bin]> (in_bins s))
          (<[i := new_out_bin]> (out_bins s))
          (<[i := new_inc_array]> (list_of_inc_arrays s))
          (count_up "outer" (rectype_counts s)))
  else if decide (rt = "backwards") then
    Ok (ClipState (in_bins s) (out_bins s) (list_of_inc_arrays s)
          (count_up "backwards" (rectype_counts s)))
  else if decide (rt = "none") then
    Ok (ClipState (in_bins s) (out_bins s) (list_of_inc_arrays s)
          (count_up "none" (rectype_counts s)))
  else
    Ok (ClipState (in_bins s) (out_bins s) (list_of_inc_arrays s)
          (count_up "unknown" (rectype_counts s))).

(** The result carries the mutated arguments next to the returned counts. *)
Definition update_occ_incs (in_bins0 out_bins0 : list Z)
    (list_of_inc_arrays0 : list (list Q)) (rec_types : list string)
    (num_bins : Z) : result clip_state :=
  let num_stop_recs := length in_bins0 in
  for_range num_stop_recs (update_occ_incs_body rec_types num_bins)
    (ClipState in_bins0 out_bins0 list_of_inc_arrays0 ∅).

(** ** Accumulating occupancy: [update_occ] *)

Definition occ_classes : list string := ["inner"; "left"; "right"; "outer"].

(** The [try] block can only end in what [slice_iadd] raises; the [except]
    clause rewraps [IndexError] and [TypeError] and lets the rest through. *)
Definition update_occ_body (entry_bin : list Z) (rec_type : list string)
    (list_of_inc_arrays0 : list (list Q)) (i : nat) (occ : list Q)
  : result (list Q) :=
  rt ← getitem rec_type i;
  if decide (rt ∈ occ_classes) then
    pos ← getitem entry_bin i;
    occ_inc ← getitem list_of_inc_arrays0 i;
    match slice_iadd occ pos (pos + Z.of_nat (length occ_inc)) occ_inc with
    | Raise IndexError | Raise TypeError => Raise (PyException pos occ_inc)
    | r => r
    end
  else Ok occ.

Definition update_occ (occ : list Q) (entry_bin : list Z)
    (rec_type : list string) (list_of_inc_arrays0 : list (list Q))
  : result (list Q) :=
  let num_stop_recs := length entry_bin in
  for_range num_stop_recs
    (update_occ_body entry_bin rec_type list_of_inc_arrays0) occ.

(** ** The stop data *)

(** One row of [stops_df]: the [infield] and [outfield] columns, and the value
    in the category column.  The source's main loop reads one category field
    only ([catfield[0]], its "temporary assumption"), and so does the row. *)
Record StopRec : Type := mkStopRec {
  InTS : Timestamp;
  OutTS : Timestamp;
  Cat : string
}.

(** [Series.unique()]: the distinct values in order of first appearance. *)
Fixpoint unique_from (seen : list string) (l : list string) : list string :=
  match l with
  | [] => []
  | x :: rest =>
      if decide (x ∈ seen) then unique_from seen rest
      else x :: unique_from (x :: seen) rest
  end.

Definition unique (l : list string) : list string := unique_from [] l.

(** One row of the [num_bins x 3] matrix: arrivals, departures, occupancy. *)
Definition oad_row : Type := (Q * Q * Q)%type.

Definition row_add (r1 r2 : oad_row) : oad_row :=
  let '(a1, d1, o1) := r1 in
  let '(a2, d2, o2) := r2 in
  ((a1 + a2)%Q, (d1 + d2)%Q, (o1 + o2)%Q).

Definition arrivals (m : list oad_row) : list Q := (fun r => r.1.1) <$> m.
Definition departures (m : list oad_row) : list Q := (fun r => r.1.2) <$> m.
Definition occupancy (m : list oad_row) : list Q := (fun r => r.2) <$> m.

(** [np.zeros((n, 3))] *)
Definition np_zeros3 (n : Z) : result (list oad_row) :=
  if n <? 0 then Raise (ValueError negative_dimensions)
  else Ok (replicate (Z.to_nat n) (0%Q, 0%Q, 0%Q)).

Definition totals_key : string := "datetime".
Definition total_str : string := "total".

(** ** The engine: [make_bydatetime] *)

Section Engine.

(** The two functions of [hmlib] the source calls. *)
Variable bin_of_span : Timestamp -> Timestamp -> Z -> result Z.
Variable stoprec_analysis_rltnshp :
  Timestamp -> Timestamp -> Timestamp -> Timestamp -> string.

Section Window.

Variables start_analysis end_analysis : Timestamp.
Variable bin_size_minutes : Z.

(** Number of bins in the analysis span. *)
Definition analysis_num_bins : result Z :=
  nb ← bin_of_span end_analysis start_analysis bin_size_minutes;
  Ok (nb + 1).

(** The increment arrays before clipping.  The bins come from the rows of
    [cat_df]; the fractions are read, by position, from the arrays
    computed over [stops_df], always with [edge_bins=1]. *)
Definition raw_inc_arrays (stops_df cat_df : list StopRec)
  : result (list Z * list Z * list (list Q)) :=
  let num_stop_recs := length cat_df in
  entry_bin ← map_result
    (fun x => bin_of_span (InTS x) start_analysis bin_size_minutes) cat_df;
  exit_bin ← map_result
    (fun x => bin_of_span (OutTS x) start_analysis bin_size_minutes) cat_df;
  entry_bin_frac ← map_result
    (fun x => in_bin_occ_frac (InTS x) bin_size_minutes 1) stops_df;
  exit_bin_frac ← map_result
    (fun x => out_bin_occ_frac (OutTS x) bin_size_minutes 1) stops_df;
  list_of_inc_arrays0 ← map_result
    (fun i =>
       e ← getitem entry_bin i;
       x ← getitem exit_bin i;
       fe ← getitem entry_bin_frac i;
       fx ← getitem exit_bin_frac i;
       Ok (make_occ_incs e x fe fx))
    (seq 0 num_stop_recs);
  Ok (entry_bin, exit_bin, list_of_inc_arrays0).

(** The body of the main loop for one category, up to [occ_arr_dep].
    The arrays returned by [update_occ_incs] are the mutated [entry_bin],
    [exit_bin] and [list_of_inc_arrays] that the following lines read. *)
Definition category_arrays (num_bins : Z) (stops_df : list StopRec)
    (cat : string) : result (list oad_row) :=
  let cat_df := filter (fun r => Cat r = cat) stops_df in
  '(entry_bin, exit_bin, list_of_inc_arrays0) ←
    raw_inc_arrays stops_df cat_df;
  let rec_type :=
    (fun x => stoprec_analysis_rltnshp (InTS x) (OutTS x)
                start_analysis end_analysis) <$> cat_df in
  st ← update_occ_incs entry_bin exit_bin list_of_inc_arrays0
         rec_type num_bins;
  occ0 ← np_zeros num_bins;
  occ ← update_occ occ0 (in_bins st) rec_type (list_of_inc_arrays st);
  arr ← np_bincount (in_bins st) num_bins;
  dep ← np_bincount (out_bins st) num_bins;
  np_column_stack arr dep occ.

(** [stops_df] as the main loop sees it, with the category values:
    the dummy column when no category field is given, then the
    exclusions. *)
Definition with_catfield (stops_df : list StopRec)
    (catfield : option string) : list StopRec :=
  match catfield with
  | Some _ => stops_df
  | None => (fun r => mkStopRec (InTS r) (OutTS r) total_str) <$> stops_df
  end.

Definition categories_of (stops_df : list StopRec)
    (cat_to_exclude : option (list string)) : list string :=
  match cat_to_exclude with
  | Some excl => filter (fun c => c ∉ excl) (unique (Cat <$> stops_df))
  | None => unique (Cat <$> stops_df)
  end.

(** The main loop over the categories. *)
Definition category_results (num_bins : Z) (stops_df : list StopRec)
    (categories : list string) : result (gmap string (list oad_row)) :=
  for_in
    (fun cat results =>
       occ_arr_dep ← category_arrays num_bins stops_df cat;
       Ok (<[cat := occ_arr_dep]> results))
    categories ∅.

(** [total_occ_arr_dep += oad_array] over [results.items()]. *)
Definition sum_results (zero : list oad_row)
    (results : gmap string (list oad_row)) : list oad_row :=
  map_fold (fun _ oad_array total => zip_with row_add total oad_array)
    zero results.

(** [totals] and [edge_bins] are parameters of the source that its body
    never reads.  The [verbose] printing and [print(rec_counts)] do not
    reach the returned value and are left out. *)
Definition make_bydatetime (stops_df : list StopRec)
    (catfield : option string) (cat_to_exclude : option (list string))
    (totals edge_bins : Z) : result (gmap string (list oad_row)) :=
  num_bins ← analysis_num_bins;
  let do_totals := bool_decide (is_Some catfield) in
  let stops_df := with_catfield stops_df catfield in
  let categories := categories_of stops_df cat_to_exclude in
  let stops_df := filter (fun r => Cat r ∈ categories) stops_df in
  results ← category_results num_bins stops_df categories;
  if do_totals then
    zero ← np_zeros3 num_bins;
    let total_occ_arr_dep := sum_results zero results in
    Ok (<[totals_key := total_occ_arr_dep]> results)
  else Ok results.

End Window.
End Engine.

(** ** hmlib, as the specification describes it *)

Module HmlibSpec.

(** Modelled from the spec: the arithmetic of [hmlib.bin_of_span], which is
    not among the sources.  Whole bins between [start_span] and [x], rounded
    towards minus infinity. *)
Definition span_bin (x start_span : Timestamp) (bin_size_mins : Z) : Z :=
  (x - start_span) / (bin_size_mins * 60 * ns_per_second).

(** Modelled from the spec: [hmlib.bin_of_span] is not among the sources.
    Section 4.1: the number of whole [bin_size_minutes] intervals between
    the window start and the timestamp, truncating toward negative
    infinity. *)
Definition bin_of_span (x start_span : Timestamp) (bin_size_mins : Z)
  : result Z :=
  if bin_size_mins =? 0 then Raise ZeroDivisionError
  else Ok (span_bin x start_span bin_size_mins).

(** Modelled from the spec: the class table of
    [hmlib.stoprec_analysis_rltnshp], which is not among the sources.
    Section 4.3: the class of a record, decided by comparing
    its raw bins with [0 .. num_bins-1].  The classes are mutually
    exclusive, so a record whose exit precedes its entry is [backwards]
    whatever its bins. *)
Definition rec_class (entry_bin exit_bin num_bins : Z) : string :=
  if exit_bin <? entry_bin then "backwards"
  else if (0 <=? entry_bin) && (exit_bin <=? num_bins - 1) then "inner"
  else if (entry_bin <? 0) && (0 <=? exit_bin) && (exit_bin <=? num_bins - 1)
  then "left"
  else if (0 <=? entry_bin) && (entry_bin <=? num_bins - 1)
          && (num_bins - 1 <? exit_bin)
  then "right"
  else if (entry_bin <? 0) && (num_bins - 1 <? exit_bin) then "outer"
  else "none".

(** Modelled from the spec: [hmlib.stoprec_analysis_rltnshp] with the
    arguments of its call in the source; the bins the table compares are
    those of a given bin size. *)
Definition stoprec_analysis_rltnshp (bin_size_mins : Z)
    (in_ts out_ts start_analysis end_analysis : Timestamp) : string :=
  rec_class (span_bin in_ts start_analysis bin_size_mins)
    (span_bin out_ts start_analysis bin_size_mins)
    (span_bin end_analysis start_analysis bin_size_mins + 1).

(** The engine with these two functions. *)
Definition make_bydatetime (start_analysis end_analysis : Timestamp)
    (bin_size_minutes : Z) :=
  make_bydatetime bin_of_span (stoprec_analysis_rltnshp bin_size_minutes)
    start_analysis end_analysis bin_size_minutes.

End HmlibSpec.

(** Timestamps of 1970-01-01, for the examples. *)
Definition at_time (h m s : Z) : Timestamp :=
  ((h * 60 + m) * 60 + s) * ns_per_second.

(** ** What the clipping loop does to one record *)

(** Record [j] as the three arrays hold it. *)
Definition rec_at (s : clip_state) (j : nat) : option (Z * Z * list Q) :=
  e ← in_bins s !! j;
  x ← out_bins s !! j;
  inc ← list_of_inc_arrays s !! j;
  Some (e, x, inc).

(** The branch of [update_occ_incs_body] taken for class [rt], as a function
    of the record's bins and increment sequence. *)
Definition clip_record (rt : string) (num_bins : Z) (r : Z * Z * list Q)
  : Z * Z * list Q :=
  let '(e, x, inc) := r in
  if decide (rt = "inner") then (e, x, inc)
  else if decide (rt = "left") then
    (0, x, py_slice inc (Some (-1 * e)) None)
  else if decide (rt = "right") then
    (e, num_bins - 1, py_slice inc None (Some (- (x - (num_bins - 1)))))
  else if decide (rt = "outer") then
    (0, num_bins - 1,
     py_slice inc (Some (-1 * e)) (Some (- (x - (num_bins - 1)))))
  else (e, x, inc).

(** The three arrays have [n] entries each. *)
Definition arrays_of_length (n : nat) (s : clip_state) : Prop :=
  length (in_bins s) = n /\ length (out_bins s) = n
  /\ length (list_of_inc_arrays s) = n.

(** What record [i] adds to the total occupancy: the sum of its increment
    sequence if its class is accumulated, else nothing. *)
Definition record_mass (rec_type : list string) (incs : list (list Q))
    (i : nat) : Q :=
  match rec_type !! i, incs !! i with
  | Some rt, Some inc => if decide (rt ∈ occ_classes) then Qsum inc else 0%Q
  | _, _ => 0%Q
  end.

(** The sum over the matrices [ms] of the entries of column [col] at bin
    [b]; an entry that a matrix lacks counts as 0. *)
Definition column_sum (col : list oad_row -> list Q)
    (ms : list (string * list oad_row)) (b : nat) : Q :=
  Qsum ((fun km => default 0%Q (col km.2 !! b)) <$> ms).

(** ** What [update_occ_incs] counts *)

(** The class tags [update_occ_incs] has a branch for. *)
Definition known_classes : list string :=
  ["inner"; "left"; "right"; "outer"; "backwards"; "none"].

(** The key of [rectype_counts] a record tagged [rt] is counted under: the
    final [else] counts every other tag under ['unknown']. *)
Definition count_key (rt : string) : string :=
  if decide (rt ∈ known_classes) then rt else "unknown".

(** How many of the tags are counted under key [k]. *)
Definition tally (k : string) (rec_types : list string) : nat :=
  length (filter (fun rt => count_key rt = k) rec_types).

(** [sum(d.values())] *)
Definition sum_values (d : gmap string nat) : nat :=
  map_fold (fun _ c acc => (c + acc)%nat) 0%nat d.

(** ** What [update_occ] adds to one bin *)

(** The credit that the increment array [inc], written from bin [pos] on,
    gives to bin [b]. *)
Definition credit_at (pos : Z) (inc : list Q) (b : nat) : Q :=
  if decide (pos <= Z.of_nat b)
  then default 0%Q (inc !! Z.to_nat (Z.of_nat b - pos))
  else 0%Q.

(** The credit of record [i] to bin [b]: that of its increment array if its
    class is accumulated, else nothing. *)
Definition record_credit (entry_bin : list Z) (rec_type : list string)
    (incs : list (list Q)) (i b : nat) : Q :=
  match rec_type !! i, entry_bin !! i, incs !! i with
  | Some rt, Some pos, Some inc =>
      if decide (rt ∈ occ_classes) then credit_at pos inc b else 0%Q
  | _, _, _ => 0%Q
  end.

(** Every accumulated record writes inside an array of [len] bins. *)
Definition writes_in_range (len : nat) (entry_bin : list Z)
    (rec_type : list string) (incs : list (list Q)) : Prop :=
  forall i rt pos inc,
    rec_type !! i = Some rt -> rt ∈ occ_classes ->
    entry_bin !! i = Some pos -> incs !! i = Some inc ->
    0 <= pos /\ pos + Z.of_nat (length inc) <= Z.of_nat len.

(** The credit to bin [b] of a record given as entry bin, class tag and
    increment array. *)
Definition credit_of (r : Z * string * list Q) (b : nat) : Q :=
  let '(pos, rt, inc) := r in
  if decide (rt ∈ occ_classes) then credit_at pos inc b else 0%Q.

(** ** summarize.py: the statistics of one group *)

Module Summarize.

(** A pandas group as [get_occstats] uses it: the values its methods
    return.  The statistics themselves are computed by pandas and are not
    modelled. *)
Record Group (Stat : Type) : Type := {
  count : Stat;
  mean : Stat;
  min : Stat;
  max : Stat;
  std : Stat;
  quantile : Q -> Stat
}.
Arguments count {Stat} _.
Arguments mean {Stat} _.
Arguments min {Stat} _.
Arguments max {Stat} _.
Arguments std {Stat} _.
Arguments quantile {Stat} _ _.

(** A dict display [{k1: v1, k2: v2, ...}]: the items are stored from left
    to right, so a repeated key keeps its last value. *)
Definition dict_display {V} (items : list (string * V)) : gmap string V :=
  foldl (fun d kv => <[kv.1 := kv.2]> d) ∅ items.

(** The items of the dict display of [get_occstats], in its order. *)
Definition occstats_items {Stat} (group : Group Stat) (stub : string)
  : list (string * Stat) :=
  [(stub +:+ "count", count group); (stub +:+ "mean", mean group);
   (stub +:+ "min", min group);
   (stub +:+ "max", max group); ("stdev", std group);
   (stub +:+ "p50", quantile group 0.5%Q);
   (stub +:+ "p55", quantile group 0.55%Q);
   (stub +:+ "p60", quantile group 0.6%Q);
   (stub +:+ "p65", quantile group 0.65%Q);
   (stub +:+ "p70", quantile group 0.7%Q);
   (stub +:+ "p75", quantile group 0.75%Q);
   (stub +:+ "p80", quantile group 0.8%Q);
   (stub +:+ "p85", quantile group 0.85%Q);
   (stub +:+ "p90", quantile group 0.9%Q);
   (stub +:+ "p95", quantile group 0.95%Q);
   (stub +:+ "p975", quantile group 0.975%Q);
   (stub +:+ "p99", quantile group 0.99%Q)].

Definition get_occstats {Stat} (group : Group Stat) (stub : string)
  : gmap string Stat :=
  dict_display (occstats_items group stub).

End Summarize.

(** The last [n] characters of a string. *)
Definition ending (n : nat) (s : string) : list Ascii.ascii :=
  let l := String.list_ascii_of_string s in
  drop (length l - n) l.

(** The columns of [get_occstats]: the name written in the source, and
    whether [stub] is put in front of it. *)
Definition occstats_columns : list (bool * string) :=
  [(true, "count"); (true, "mean"); (true, "min"); (true, "max");
   (false, "stdev"); (true, "p50"); (true, "p55"); (true, "p60");
   (true, "p65"); (true, "p70"); (true, "p75"); (true, "p80");
   (true, "p85"); (true, "p90"); (true, "p95"); (true, "p975");
   (true, "p99")].

Definition column_key (stub : string) (c : bool * string) : string :=
  if c.1 then stub +:+ c.2 else c.2.

(** ** hills.py: exporting the summaries *)

Module Hills.

(** What the export functions do to the file system: [Path.mkdir] and
    [DataFrame.to_csv] calls.  A path is kept as the arguments of
    [Path(export_path, file)]; [float_format] is the same constant in every
    call and is left out. *)
Inductive fs_call (DF : Type) : Type :=
  | Mkdir (export_path : string)
  | ToCsv (export_path file : string) (df : DF) (index : bool).
Arguments Mkdir {DF} _.
Arguments ToCsv {DF} _ _ _ _.

(** The calls made, in order, ended by the return or by a [KeyError]. *)
Inductive trace (DF : Type) : Type :=
  | Return
  | Call (c : fs_call DF) (rest : trace DF)
  | RaiseKeyError (key : string).
Arguments Return {DF}.
Arguments Call {DF} _ _.
Arguments RaiseKeyError {DF} _.

(** [t1; t2] *)
Fixpoint then_ {DF} (t1 t2 : trace DF) : trace DF :=
  match t1 with
  | Return => t2
  | Call c rest => Call c (then_ rest t2)
  | RaiseKeyError key => RaiseKeyError key
  end.

(** [for x in xs: body] *)
Definition for_each {A DF} (xs : list A) (body : A -> trace DF) : trace DF :=
  foldr (fun x rest => then_ (body x) rest) Return xs.

Section Exporting.

Variable DF : Type.
(** [df.index.names[0]] *)
Variable index_name0 : DF -> option string.

(** A dict that is iterated is the list of its items in insertion order;
    a dict that is only indexed is a [gmap]. *)
Definition export_summaries
    (summary_all_dfs : gmap string (list (string * gmap string DF)))
    (scenario_name export_path temporal_key : string) : trace DF :=
  match summary_all_dfs !! temporal_key with
  | None => RaiseKeyError temporal_key
  | Some summary_dfs =>
      for_each summary_dfs (fun '(d, df_dict) =>
        for_each ["occupancy"; "arrivals"; "departures"] (fun metric =>
          match df_dict !! metric with
          | None => RaiseKeyError metric
          | Some df =>
              let file_summary_csv := (scenario_name +:+ "_") +:+ metric in
              let file_summary_csv :=
                if (0 <? String.length d)%nat
                then ((file_summary_csv +:+ "_") +:+ d) +:+ ".csv"
                else file_summary_csv +:+ ".csv" in
              let catfield0 := index_name0 df in
              if bool_decide (temporal_key = "nonstationary"
                              \/ is_Some catfield0)
              then Call (Mkdir export_path)
                     (Call (ToCsv export_path file_summary_csv df true)
                        Return)
              else Call (Mkdir export_path)
                     (Call (ToCsv export_path file_summary_csv df false)
                        Return)
          end))
  end.

End Exporting.

(** The names of the files a trace writes, in order. *)
Fixpoint files_written {DF} (t : trace DF) : list string :=
  match t with
  | Return | RaiseKeyError _ => []
  | Call (Mkdir _) rest => files_written rest
  | Call (ToCsv _ file _ _) rest => file :: files_written rest
  end.

(** Whether a trace ends in a return. *)
Fixpoint returns {DF} (t : trace DF) : bool :=
  match t with
  | Return => true
  | Call _ rest => returns rest
  | RaiseKeyError _ => false
  end.

End Hills.

(** The file name [export_summaries] builds for a metric and the key [d]. *)
Definition summary_file (scenario_name metric d : string) : string :=
  let file_summary_csv := (scenario_name +:+ "_") +:+ metric in
  if (0 <? String.length d)%nat
  then ((file_summary_csv +:+ "_") +:+ d) +:+ ".csv"
  else file_summary_csv +:+ ".csv".

Definition summary_metrics : list string :=
  ["occupancy"; "arrivals"; "departures"].

(** * Properties *)

(** ** The result monad and the loops *)

Lemma bind_Ok_inv {A B} (m : result A) (f : A -> result B) (b : B) :
  m ≫= f = Ok b -> exists a, m = Ok a /\ f a = Ok b.
Proof. destruct m as [a|e]; simpl; [eauto | discriminate]. Qed.

Lemma getitem_Ok {A} (l : list A) (i : nat) (a : A) :
  getitem l i = Ok a <-> l !! i = Some a.
Proof.
  unfold getitem. destruct (l !! i); split; intros H; congruence.
Qed.

Lemma getitem_lt {A} (l : list A) (i : nat) :
  (i < length l)%nat -> exists a, getitem l i = Ok a /\ l !! i = Some a.
Proof.
  intros Hi. destruct (lookup_lt_is_Some_2 l i Hi) as [a Ha].
  exists a. split; [by apply getitem_Ok | done].
Qed.

Tactic Notation "inv_bind" hyp(H) :=
  let a := fresh "a" in
  let Ha := fresh "Ha" in
  apply bind_Ok_inv in H; destruct H as (a & Ha & H).

Tactic Notation "inv_bind" hyp(H) "as" ident(a) ident(Ha) :=
  apply bind_Ok_inv in H; destruct H as (a & Ha & H).

(** A loop invariant that every iteration keeps holds at the end. *)
Lemma for_in_invariant {A S} (P : S -> Prop) (body : A -> S -> result S)
    (xs : list A) (s s' : S) :
  (forall x t t', x ∈ xs -> P t -> body x t = Ok t' -> P t') ->
  P s -> for_in body xs s = Ok s' -> P s'.
Proof.
  revert s. induction xs as [|x xs IH]; intros s Hbody Hs Hrun; simpl in Hrun.
  - by injection Hrun as <-.
  - inv_bind Hrun. eapply IH; [| |exact Hrun].
    + intros y t t' Hy. apply Hbody. by right.
    + eapply Hbody; [by left | exact Hs | exact Ha].
Qed.

(** A loop whose body cannot fail under an invariant cannot fail. *)
Lemma for_in_total {A S} (P : S -> Prop) (body : A -> S -> result S)
    (xs : list A) (s : S) :
  (forall x t, x ∈ xs -> P t -> exists t', body x t = Ok t' /\ P t') ->
  P s -> exists s', for_in body xs s = Ok s'.
Proof.
  revert s. induction xs as [|x xs IH]; intros s Hbody Hs; simpl.
  - eauto.
  - destruct (Hbody x s) as (t' & -> & Ht'); [by left | done |]. simpl.
    apply IH; [|done]. intros y t Hy. apply Hbody. by right.
Qed.

Lemma map_result_length {A B} (f : A -> result B) (xs : list A) (ys : list B) :
  map_result f xs = Ok ys -> length ys = length xs.
Proof.
  revert ys. induction xs as [|x xs IH]; intros ys H; simpl in H.
  - by injection H as <-.
  - inv_bind H. inv_bind H. injection H as <-. simpl. f_equal. by apply IH.
Qed.

Lemma map_result_lookup {A B} (f : A -> result B) (xs : list A) (ys : list B)
    (i : nat) (x : A) :
  map_result f xs = Ok ys -> xs !! i = Some x ->
  exists y, f x = Ok y /\ ys !! i = Some y.
Proof.
  revert ys i. induction xs as [|x0 xs IH]; intros ys i H Hx; [done|].
  simpl in H. inv_bind H. inv_bind H. injection H as <-.
  destruct i as [|i]; simpl in *.
  - injection Hx as <-. eauto.
  - eapply IH; eauto.
Qed.

Lemma map_result_lookup_inv {A B} (f : A -> result B) (xs : list A)
    (ys : list B) (i : nat) (y : B) :
  map_result f xs = Ok ys -> ys !! i = Some y ->
  exists x, xs !! i = Some x /\ f x = Ok y.
Proof.
  intros H Hy.
  destruct (lookup_lt_is_Some_2 xs i) as [x Hx].
  { rewrite <- (map_result_length _ _ _ H). by eapply lookup_lt_Some. }
  destruct (map_result_lookup _ _ _ _ _ H Hx) as (y' & Hf & Hy').
  exists x. split; [done|]. congruence.
Qed.

(** ** Slices *)

Lemma slice_index_bounds (len i : Z) :
  0 <= len -> 0 <= slice_index len i <= len.
Proof. unfold slice_index. destruct (i <? 0) eqn:E; lia. Qed.

Lemma py_slice_length {A} (l : list A) (start stop : option Z) :
  Z.of_nat (length (py_slice l start stop)) =
  Z.max 0 (from_option (slice_index (Z.of_nat (length l)))
             (Z.of_nat (length l)) stop
           - from_option (slice_index (Z.of_nat (length l))) 0 start).
Proof.
  unfold py_slice. rewrite length_take, length_drop.
  pose proof (Nat2Z.is_nonneg (length l)) as Hlen.
  assert (0 <= from_option (slice_index (Z.of_nat (length l))) 0 start
          <= Z.of_nat (length l)) as Hlo.
  { destruct start; simpl; [by apply slice_index_bounds | lia]. }
  assert (0 <= from_option (slice_index (Z.of_nat (length l)))
                 (Z.of_nat (length l)) stop
          <= Z.of_nat (length l)) as Hhi.
  { destruct stop; simpl; [by apply slice_index_bounds | lia]. }
  lia.
Qed.

(** [l[a:]] drops [a] elements, [l[:-b]] drops the last [b], for bounds
    within the sequence; [l[:-0]] is [l[:0]] and keeps nothing. *)
Lemma py_slice_from_length {A} (l : list A) (a : Z) :
  0 <= a <= Z.of_nat (length l) ->
  Z.of_nat (length (py_slice l (Some a) None)) = Z.of_nat (length l) - a.
Proof.
  intros Ha. rewrite py_slice_length. simpl. unfold slice_index.
  destruct (a <? 0) eqn:E; lia.
Qed.

Lemma py_slice_upto_neg_length {A} (l : list A) (b : Z) :
  0 < b <= Z.of_nat (length l) ->
  Z.of_nat (length (py_slice l None (Some (- b)))) = Z.of_nat (length l) - b.
Proof.
  intros Hb. rewrite py_slice_length. simpl. unfold slice_index.
  destruct (- b <? 0) eqn:E; lia.
Qed.

Lemma py_slice_between_length {A} (l : list A) (a b : Z) :
  0 <= a -> 0 < b -> a + b <= Z.of_nat (length l) ->
  Z.of_nat (length (py_slice l (Some a) (Some (- b)))) =
  Z.of_nat (length l) - a - b.
Proof.
  intros Ha Hb Hab. rewrite py_slice_length. simpl. unfold slice_index.
  destruct (a <? 0) eqn:E1; destruct (- b <? 0) eqn:E2; lia.
Qed.

Lemma py_slice_upto_neg_zero {A} (l : list A) :
  py_slice l None (Some (- 0)) = [].
Proof.
  unfold py_slice. simpl. unfold slice_index. simpl.
  replace (Z.to_nat _) with 0%nat by lia. done.
Qed.

(** Slicing at both ends is the left rule followed by the right rule. *)
Lemma py_slice_between_compose {A} (l : list A) (a b : Z) :
  0 <= a -> 0 < b ->
  py_slice l (Some a) (Some (- b)) =
  py_slice (py_slice l (Some a) None) None (Some (- b)).
Proof.
  intros Ha Hb.
  assert (Z.of_nat (length (py_slice l (Some a) None)) =
          Z.of_nat (length l) - Z.min a (Z.of_nat (length l))) as Hlen.
  { rewrite py_slice_length. simpl. unfold slice_index.
    destruct (a <? 0) eqn:E; lia. }
  assert (py_slice l (Some a) None =
          drop (Z.to_nat (Z.min a (Z.of_nat (length l)))) l) as Hdrop.
  { unfold py_slice. simpl. unfold slice_index.
    destruct (a <? 0) eqn:E; [lia|]. apply take_ge. rewrite length_drop. lia. }
  remember (py_slice l (Some a) None) as m eqn:Hm.
  unfold py_slice. rewrite Hlen. simpl. rewrite drop_0, Hdrop.
  unfold slice_index.
  destruct (a <? 0) eqn:E1; [lia|]. destruct (- b <? 0) eqn:E2; [|lia].
  f_equal. lia.
Qed.

(** ** Increment sequences *)

Lemma make_occ_incs_length (in_bin out_bin : Z) (in_frac out_frac : Q) :
  Z.of_nat (length (make_occ_incs in_bin out_bin in_frac out_frac)) =
  Z.max 1 (out_bin - in_bin + 1).
Proof.
  unfold make_occ_incs.
  destruct (2 <? out_bin - in_bin + 1) eqn:E1.
  - simpl. rewrite length_app, length_replicate. simpl. lia.
  - destruct (out_bin - in_bin + 1 =? 2) eqn:E2; simpl; lia.
Qed.

(** ** The clipping loop *)

Lemma rec_at_unchanged (s s' : clip_state) (j : nat) :
  in_bins s' !! j = in_bins s !! j ->
  out_bins s' !! j = out_bins s !! j ->
  list_of_inc_arrays s' !! j = list_of_inc_arrays s !! j ->
  rec_at s' j = rec_at s j.
Proof. unfold rec_at. by intros -> -> ->. Qed.

(** One iteration rewrites record [i] by [clip_record] and nothing else. *)
Lemma update_occ_incs_body_at (rec_types : list string) (num_bins : Z)
    (i : nat) (s s' : clip_state) (rt : string) :
  update_occ_incs_body rec_types num_bins i s = Ok s' ->
  rec_types !! i = Some rt ->
  rec_at s' i = clip_record rt num_bins <$> rec_at s i.
Proof.
  intros H Hrt. unfold update_occ_incs_body in H.
  apply getitem_Ok in Hrt. rewrite Hrt in H. simpl in H.
  unfold clip_record.
  repeat case_decide;
    try (injection H as <-; unfold rec_at; simpl;
         by repeat (destruct (_ !! i); simpl)).
  - inv_bind H. inv_bind H. injection H as <-.
    apply getitem_Ok in Ha, Ha0. unfold rec_at; simpl. rewrite Ha, Ha0.
    rewrite !list_lookup_insert_eq by (by eapply lookup_lt_Some).
    simpl. by destruct (out_bins s !! i).
  - inv_bind H. inv_bind H. injection H as <-.
    apply getitem_Ok in Ha, Ha0. unfold rec_at; simpl. rewrite Ha, Ha0.
    rewrite !list_lookup_insert_eq by (by eapply lookup_lt_Some).
    simpl. by destruct (in_bins s !! i).
  - inv_bind H. inv_bind H. inv_bind H. injection H as <-.
    apply getitem_Ok in Ha, Ha0, Ha1. unfold rec_at; simpl.
    rewrite Ha, Ha0, Ha1.
    by rewrite !list_lookup_insert_eq by (by eapply lookup_lt_Some).
Qed.

Lemma update_occ_incs_body_other (rec_types : list string) (num_bins : Z)
    (i j : nat) (s s' : clip_state) :
  update_occ_incs_body rec_types num_bins i s = Ok s' ->
  i <> j -> rec_at s' j = rec_at s j.
Proof.
  intros H Hij. unfold update_occ_incs_body in H.
  inv_bind H.
  repeat case_decide; repeat inv_bind H; injection H as <-;
    apply rec_at_unchanged; simpl;
    by rewrite ?list_lookup_insert_ne by done.
Qed.

Lemma update_occ_incs_body_total (rec_types : list string) (num_bins : Z)
    (n i : nat) (s : clip_state) :
  length rec_types = n -> (i < n)%nat -> arrays_of_length n s ->
  exists s', update_occ_incs_body rec_types num_bins i s = Ok s'
             /\ arrays_of_length n s'.
Proof.
  intros Hrt Hi (Hin & Hout & Hinc). unfold update_occ_incs_body.
  destruct (getitem_lt rec_types i) as (rt & -> & _); [lia|].
  destruct (getitem_lt (in_bins s) i) as (e & -> & _); [lia|].
  destruct (getitem_lt (out_bins s) i) as (x & -> & _); [lia|].
  destruct (getitem_lt (list_of_inc_arrays s) i) as (inc & -> & _); [lia|].
  simpl. unfold arrays_of_length.
  repeat case_decide; eexists; (split; [reflexivity|]); simpl;
    by rewrite ?length_insert.
Qed.

Lemma update_occ_incs_loop (rec_types : list string) (num_bins : Z)
    (idx : list nat) (s s' : clip_state) (j : nat) (rt : string) :
  NoDup idx ->
  for_in (update_occ_incs_body rec_types num_bins) idx s = Ok s' ->
  rec_types !! j = Some rt ->
  rec_at s' j =
  if decide (j ∈ idx) then clip_record rt num_bins <$> rec_at s j
  else rec_at s j.
Proof.
  intros Hnd. revert s. induction Hnd as [|i idx Hi Hnd IH]; intros s H Hrt.
  - simpl in H. injection H as <-. by rewrite decide_False by set_solver.
  - simpl in H. inv_bind H. rewrite (IH _ H Hrt).
    destruct (decide (j = i)) as [->|Hji].
    + rewrite decide_False by done. rewrite decide_True by set_solver.
      by eapply update_occ_incs_body_at.
    + rewrite (update_occ_incs_body_other _ _ _ _ _ _ Ha) by done.
      destruct (decide (j ∈ idx)) as [Hj|Hj].
      * rewrite decide_True; [done | by right].
      * rewrite decide_False; [done|].
        intros [?|?]%elem_of_cons; [done | by apply Hj].
Qed.

(** With arrays of one length the loop ends, and it leaves every record
    clipped by the rule of its class. *)
Lemma update_occ_incs_spec (in_bins0 out_bins0 : list Z)
    (incs0 : list (list Q)) (rec_types : list string) (num_bins : Z) :
  length out_bins0 = length in_bins0 ->
  length incs0 = length in_bins0 ->
  length rec_types = length in_bins0 ->
  exists st,
    update_occ_incs in_bins0 out_bins0 incs0 rec_types num_bins = Ok st
    /\ arrays_of_length (length in_bins0) st
    /\ forall j e x inc rt,
         in_bins0 !! j = Some e -> out_bins0 !! j = Some x ->
         incs0 !! j = Some inc -> rec_types !! j = Some rt ->
         rec_at st j = Some (clip_record rt num_bins (e, x, inc)).
Proof.
  intros Hout Hinc Hrt. unfold update_occ_incs, for_range.
  set (n := length in_bins0). set (s0 := ClipState in_bins0 out_bins0 incs0 ∅).
  assert (arrays_of_length n s0) as Hs0 by done.
  destruct (for_in_total (arrays_of_length n)
              (update_occ_incs_body rec_types num_bins) (seq 0 n) s0)
    as [st Hst]; [|done|].
  { intros i t Hi%elem_of_seq Ht.
    eapply update_occ_incs_body_total; [done | lia | done]. }
  exists st. split; [done|]. split.
  - eapply (for_in_invariant (arrays_of_length n)); [|exact Hs0|exact Hst].
    intros i t t' Hi%elem_of_seq Ht Hbody.
    destruct (update_occ_incs_body_total rec_types num_bins n i t)
      as (t'' & Heq & Ht''); [done | lia | done |]. congruence.
  - intros j e x inc rt He Hx Hi Hr.
    rewrite (update_occ_incs_loop _ _ _ _ _ j rt (NoDup_seq 0 n) Hst Hr).
    rewrite decide_True.
    + unfold rec_at, s0. simpl. by rewrite He, Hx, Hi.
    + apply elem_of_seq. apply lookup_lt_Some in He. lia.
Qed.

Lemma rec_at_Some (s : clip_state) (j : nat) (e x : Z) (inc : list Q) :
  rec_at s j = Some (e, x, inc) <->
  in_bins s !! j = Some e /\ out_bins s !! j = Some x
  /\ list_of_inc_arrays s !! j = Some inc.
Proof.
  unfold rec_at. split.
  - destruct (in_bins s !! j), (out_bins s !! j),
      (list_of_inc_arrays s !! j); simpl; intros H; by simplify_eq.
  - by intros (-> & -> & ->).
Qed.

(** ** Record classes *)

Module ClassFacts.
Import HmlibSpec.

Ltac class_cases H :=
  unfold rec_class in H;
  repeat match type of H with
    | context [?a <? ?b] => destruct (Z.ltb_spec a b)
    | context [?a <=? ?b] => destruct (Z.leb_spec a b)
    end; simpl in H; try discriminate H; try lia.

Lemma inner_bins (e x n : Z) :
  rec_class e x n = "inner" -> 0 <= e /\ e <= x /\ x <= n - 1.
Proof. intros H. class_cases H. Qed.

Lemma left_bins (e x n : Z) :
  rec_class e x n = "left" -> e < 0 /\ 0 <= x /\ x <= n - 1.
Proof. intros H. class_cases H. Qed.

Lemma right_bins (e x n : Z) :
  rec_class e x n = "right" -> 0 <= e /\ e <= n - 1 /\ n - 1 < x.
Proof. intros H. class_cases H. Qed.

Lemma outer_bins (e x n : Z) :
  rec_class e x n = "outer" -> e < 0 /\ n - 1 < x.
Proof. intros H. class_cases H. Qed.

(** The classifier only answers with the six classes of the table. *)
Lemma rec_class_cases (e x n : Z) :
  rec_class e x n ∈ ["backwards"; "inner"; "left"; "right"; "outer"; "none"].
Proof.
  unfold rec_class.
  repeat match goal with
    | |- context [?a <? ?b] => destruct (a <? b)
    | |- context [?a <=? ?b] => destruct (a <=? b)
    end; simpl; set_solver.
Qed.

End ClassFacts.

(** C7. Clipping is length-consistent.  Let [update_occ_incs] run on arrays
    of one length whose record [i] has raw bins [e] and [x], the raw
    increment sequence [make_occ_incs e x fe fx], and the class of these bins
    in the window.  The loop ends, and afterwards: for class [left] the
    sequence is shorter by [-e] and the entry bin is 0 (exit bin untouched);
    for class [right] it is shorter by [x - (num_bins - 1)] and the exit bin
    is [num_bins - 1] (entry bin untouched); for class [outer] both ends are
    dropped at once, which is the left rule followed by the right rule, both
    bins are reset, and the length is the raw length less both drops in a
    window that has bins. *)
Theorem clipping_length_consistent (in_bins0 out_bins0 : list Z)
    (incs0 : list (list Q)) (rec_types : list string) (num_bins : Z)
    (i : nat) (e x : Z) (fe fx : Q) :
  let raw := make_occ_incs e x fe fx in
  let cls := HmlibSpec.rec_class e x num_bins in
  length out_bins0 = length in_bins0 ->
  length incs0 = length in_bins0 ->
  length rec_types = length in_bins0 ->
  in_bins0 !! i = Some e -> out_bins0 !! i = Some x ->
  incs0 !! i = Some raw -> rec_types !! i = Some cls ->
  exists st e' x' clipped,
    update_occ_incs in_bins0 out_bins0 incs0 rec_types num_bins = Ok st /\
    in_bins st !! i = Some e' /\ out_bins st !! i = Some x' /\
    list_of_inc_arrays st !! i = Some clipped /\
    (cls = "left" ->
       Z.of_nat (length clipped) = Z.of_nat (length raw) - (- e)
       /\ e' = 0 /\ x' = x) /\
    (cls = "right" ->
       Z.of_nat (length clipped)
       = Z.of_nat (length raw) - (x - (num_bins - 1))
       /\ x' = num_bins - 1 /\ e' = e) /\
    (cls = "outer" ->
       clipped = py_slice (py_slice raw (Some (- e)) None)
                   None (Some (- (x - (num_bins - 1))))
       /\ e' = 0 /\ x' = num_bins - 1
       /\ (0 <= num_bins ->
           Z.of_nat (length clipped)
           = Z.of_nat (length raw) - (- e) - (x - (num_bins - 1)))).
Proof.
  intros raw cls Hout Hinc Hrt He Hx Hraw Hcls.
  destruct (update_occ_incs_spec in_bins0 out_bins0 incs0 rec_types num_bins)
    as (st & Hst & _ & Hat); [done..|].
  specialize (Hat i e x raw cls He Hx Hraw Hcls).
  pose proof (make_occ_incs_length e x fe fx) as Hlen. fold raw in Hlen.
  destruct (clip_record cls num_bins (e, x, raw)) as [[e' x'] clipped] eqn:Hclip.
  apply rec_at_Some in Hat as (He' & Hx' & Hc').
  exists st, e', x', clipped.
  split; [done|]. split; [done|]. split; [done|]. split; [done|].
  unfold clip_record in Hclip.
  split; [|split]; intros Hc; rewrite Hc in Hclip; simpl in Hclip;
    injection Hclip as <- <- <-.
  - apply ClassFacts.left_bins in Hc.
    split; [|done]. rewrite py_slice_from_length; lia.
  - apply ClassFacts.right_bins in Hc.
    split; [|done]. rewrite py_slice_upto_neg_length; lia.
  - apply ClassFacts.outer_bins in Hc.
    replace (-1 * e) with (- e) by lia.
    split; [|split; [done|split; [done|]]].
    + apply py_slice_between_compose; lia.
    + intros Hn. rewrite py_slice_between_length; lia.
Qed.

(** Three records in a window of four bins: one left, one right, one outer. *)
Lemma clipping_length_consistent_witness :
  let in_bins0 := [-1; 2; -2] in
  let out_bins0 := [1; 5; 6] in
  let incs0 := [make_occ_incs (-1) 1 (1 # 2) (3 # 4);
                make_occ_incs 2 5 (1 # 2) (3 # 4);
                make_occ_incs (-2) 6 (1 # 2) (3 # 4)] in
  let rec_types := ["left"; "right"; "outer"] in
  (exists st clipped,
     update_occ_incs in_bins0 out_bins0 incs0 rec_types 4 = Ok st /\
     list_of_inc_arrays st !! 0%nat = Some clipped /\
     Z.of_nat (length clipped) = 3 - 1 /\ in_bins st !! 0%nat = Some 0) /\
  (exists st clipped,
     update_occ_incs in_bins0 out_bins0 incs0 rec_types 4 = Ok st /\
     list_of_inc_arrays st !! 1%nat = Some clipped /\
     Z.of_nat (length clipped) = 4 - 2 /\ out_bins st !! 1%nat = Some 3) /\
  (exists st clipped,
     update_occ_incs in_bins0 out_bins0 incs0 rec_types 4 = Ok st /\
     list_of_inc_arrays st !! 2%nat = Some clipped /\
     Z.of_nat (length clipped) = 9 - 2 - 3 /\ in_bins st !! 2%nat = Some 0
     /\ out_bins st !! 2%nat = Some 3).
Proof.
  intros in_bins0 out_bins0 incs0 rec_types. split; [|split].
  - destruct (clipping_length_consistent in_bins0 out_bins0 incs0 rec_types 4
                0 (-1) 1 (1 # 2) (3 # 4)
                eq_refl eq_refl eq_refl eq_refl eq_refl eq_refl eq_refl)
      as (st & e' & x' & clipped & Hst & He' & Hx' & Hc & Hleft & _ & _).
    destruct (Hleft eq_refl) as (Hlen & -> & ->).
    exists st, clipped. repeat split; assumption.
  - destruct (clipping_length_consistent in_bins0 out_bins0 incs0 rec_types 4
                1 2 5 (1 # 2) (3 # 4)
                eq_refl eq_refl eq_refl eq_refl eq_refl eq_refl eq_refl)
      as (st & e' & x' & clipped & Hst & He' & Hx' & Hc & _ & Hright & _).
    destruct (Hright eq_refl) as (Hlen & -> & ->).
    exists st, clipped. repeat split; assumption.
  - destruct (clipping_length_consistent in_bins0 out_bins0 incs0 rec_types 4
                2 (-2) 6 (1 # 2) (3 # 4)
                eq_refl eq_refl eq_refl eq_refl eq_refl eq_refl eq_refl)
      as (st & e' & x' & clipped & Hst & He' & Hx' & Hc & _ & _ & Houter).
    destruct (Houter eq_refl) as (_ & -> & -> & Hlen).
    exists st, clipped. repeat split; try assumption.
    apply Hlen. lia.
Defined.

(** The slip the class table keeps out of reach: were a record tagged
    [right] while its exit bin is the last bin of the window, the shift
    would be 0 and [[:-0]] would keep nothing. *)
Lemma right_rule_zero_shift (e : Z) (inc : list Q) (num_bins : Z) :
  clip_record "right" num_bins (e, num_bins - 1, inc) = (e, num_bins - 1, []).
Proof.
  unfold clip_record. simpl. do 2 f_equal.
  replace (num_bins - 1 - (num_bins - 1)) with 0 by lia.
  apply py_slice_upto_neg_zero.
Qed.

(** ** Accumulation *)

Lemma Qsum_app (l1 l2 : list Q) : Qsum (l1 ++ l2) == Qsum l1 + Qsum l2.
Proof.
  induction l1 as [|q l1 IH]; simpl.
  - ring.
  - unfold Qsum in *. simpl. rewrite IH. ring.
Qed.

Lemma Qsum_zip_with_plus (l1 l2 : list Q) :
  length l1 = length l2 ->
  Qsum (zip_with Qplus l1 l2) == Qsum l1 + Qsum l2.
Proof.
  revert l2. induction l1 as [|q1 l1 IH]; intros [|q2 l2] Hlen;
    simpl in *; try discriminate.
  - ring.
  - unfold Qsum in *. simpl. rewrite IH by congruence. ring.
Qed.

Lemma slice_iadd_length (occ : list Q) (lo hi : Z) (inc occ' : list Q) :
  slice_iadd occ lo hi inc = Ok occ' -> length occ' = length occ.
Proof.
  unfold slice_iadd.
  pose proof (slice_index_bounds (Z.of_nat (length occ)) lo ltac:(lia)) as Hlo.
  pose proof (slice_index_bounds (Z.of_nat (length occ)) hi ltac:(lia)) as Hhi.
  set (a := Z.to_nat (slice_index (Z.of_nat (length occ)) lo)).
  set (k := Z.to_nat (slice_index (Z.of_nat (length occ)) hi
                      - slice_index (Z.of_nat (length occ)) lo)).
  assert (forall vals, length vals = k ->
            length (take a occ ++ zip_with Qplus (take k (drop a occ)) vals
                    ++ drop (a + k) occ) = length occ) as Hstore.
  { intros vals Hvals.
    rewrite !length_app, length_zip_with, !length_take, !length_drop. lia. }
  case_decide as Hk.
  - intros [= <-]. by apply Hstore.
  - destruct inc as [|v [|]]; try discriminate.
    intros [= <-]. apply Hstore. by rewrite length_replicate.
Qed.

(** A write that stays inside the array adds every element of [inc]. *)
Lemma slice_iadd_in_range (occ inc : list Q) (pos : Z) :
  0 <= pos -> pos + Z.of_nat (length inc) <= Z.of_nat (length occ) ->
  exists occ',
    slice_iadd occ pos (pos + Z.of_nat (length inc)) inc = Ok occ'
    /\ Qsum occ' == Qsum occ + Qsum inc.
Proof.
  intros Hpos Hend. unfold slice_iadd, slice_index.
  destruct (pos <? 0) eqn:E1; [lia|].
  destruct (pos + Z.of_nat (length inc) <? 0) eqn:E2; [lia|].
  rewrite !Z.min_l by lia.
  replace (Z.to_nat (pos + Z.of_nat (length inc) - pos)) with (length inc)
    by lia.
  rewrite decide_True by done.
  eexists. split; [reflexivity|].
  set (a := Z.to_nat pos). set (k := length inc).
  rewrite !Qsum_app, Qsum_zip_with_plus
    by (rewrite length_take, length_drop; lia).
  rewrite <- (take_drop a occ) at 4.
  rewrite <- (take_drop k (drop a occ)) at 2.
  rewrite !Qsum_app, drop_drop. ring.
Qed.

(** The clipped sequence of a record that contributes to occupancy fits the
    array: it starts at a bin of the window and ends in the window. *)
Lemma clipped_write_in_range (cls : string) (num_bins e x : Z) (fe fx : Q)
    (e' x' : Z) (clipped : list Q) :
  0 <= num_bins ->
  cls = HmlibSpec.rec_class e x num_bins ->
  cls ∈ occ_classes ->
  clip_record cls num_bins (e, x, make_occ_incs e x fe fx)
  = (e', x', clipped) ->
  0 <= e' /\ e' + Z.of_nat (length clipped) <= num_bins.
Proof.
  intros Hn Hcls Hocc Hclip.
  pose proof (make_occ_incs_length e x fe fx) as Hlen.
  unfold clip_record in Hclip. unfold occ_classes in Hocc.
  apply elem_of_cons in Hocc as [Hc|Hocc];
    [|apply elem_of_cons in Hocc as [Hc|Hocc];
      [|apply elem_of_cons in Hocc as [Hc|Hocc];
        [|apply list_elem_of_singleton in Hocc as Hc]]];
    rewrite Hc in Hclip, Hcls; simpl in Hclip; injection Hclip as <- <- <-;
    symmetry in Hcls.
  - apply ClassFacts.inner_bins in Hcls. lia.
  - apply ClassFacts.left_bins in Hcls.
    rewrite py_slice_from_length; lia.
  - apply ClassFacts.right_bins in Hcls.
    rewrite py_slice_upto_neg_length; lia.
  - apply ClassFacts.outer_bins in Hcls.
    rewrite py_slice_between_length; lia.
Qed.

(** One iteration of [update_occ] on the clipped arrays: it ends normally
    and adds the mass of the record. *)
Lemma update_occ_body_mass (st : clip_state) (rec_types : list string)
    (i : nat) (e x : Z) (fe fx : Q) (occ : list Q) :
  let num_bins := Z.of_nat (length occ) in
  let cls := HmlibSpec.rec_class e x num_bins in
  rec_types !! i = Some cls ->
  rec_at st i
  = Some (clip_record cls num_bins (e, x, make_occ_incs e x fe fx)) ->
  exists occ',
    update_occ_body (in_bins st) rec_types (list_of_inc_arrays st) i occ
    = Ok occ'
    /\ length occ' = length occ
    /\ (Qsum occ' == Qsum occ + record_mass rec_types (list_of_inc_arrays st) i)%Q
    /\ (cls ∉ occ_classes -> occ' = occ).
Proof.
  intros num_bins cls Hcls Hat.
  destruct (clip_record cls num_bins (e, x, make_occ_incs e x fe fx))
    as [[e' x'] clipped] eqn:Hclip.
  apply rec_at_Some in Hat as (He' & Hx' & Hc').
  unfold update_occ_body, record_mass. rewrite Hcls, Hc'.
  apply getitem_Ok in Hcls as ->. simpl.
  apply getitem_Ok in He' as ->. apply getitem_Ok in Hc' as ->. simpl.
  destruct (decide (cls ∈ occ_classes)) as [Hocc|Hocc].
  - destruct (clipped_write_in_range cls num_bins e x fe fx e' x' clipped)
      as [H0 H1]; [unfold num_bins; lia | done..|].
    destruct (slice_iadd_in_range occ clipped e' H0 H1)
      as (occ' & Hadd & Hsum).
    exists occ'. rewrite Hadd. split; [done|].
    split; [by eapply slice_iadd_length|]. split; [done|]. done.
  - exists occ. split; [done|]. split; [done|]. split; [|done].
    rewrite Qplus_0_r. reflexivity.
Qed.



(** The whole accumulation of a category whose records carry the class of
    their bins: [update_occ] returns, and the total of the occupancy array
    has grown by the mass of every record. *)
Lemma update_occ_total_mass (occ : list Q) (in_bins0 out_bins0 : list Z)
    (incs0 : list (list Q)) (rec_types : list string) :
  let num_bins := Z.of_nat (length occ) in
  length out_bins0 = length in_bins0 ->
  length incs0 = length in_bins0 ->
  length rec_types = length in_bins0 ->
  (forall i e x inc rt,
     in_bins0 !! i = Some e -> out_bins0 !! i = Some x ->
     incs0 !! i = Some inc -> rec_types !! i = Some rt ->
     rt = HmlibSpec.rec_class e x num_bins
     /\ exists fe fx, inc = make_occ_incs e x fe fx) ->
  exists st occ',
    update_occ_incs in_bins0 out_bins0 incs0 rec_types num_bins = Ok st
    /\ update_occ occ (in_bins st) rec_types (list_of_inc_arrays st) = Ok occ'
    /\ length occ' = length occ
    /\ (Qsum occ' ==
        Qsum occ
        + Qsum (record_mass rec_types (list_of_inc_arrays st)
                  <$> seq 0 (length in_bins0)))%Q.
Proof.
  intros num_bins Hout Hinc Hrt Hrec.
  destruct (update_occ_incs_spec in_bins0 out_bins0 incs0 rec_types num_bins)
    as (st & Hst & (Hlen & _ & _) & Hat); [done..|].
  exists st. unfold update_occ, for_range. rewrite Hlen.
  assert (forall idx t,
            Forall (fun i => (i < length in_bins0)%nat) idx ->
            length t = length occ ->
            exists t',
              for_in (update_occ_body (in_bins st) rec_types
                        (list_of_inc_arrays st)) idx t = Ok t'
              /\ length t' = length occ
              /\ (Qsum t' ==
                  Qsum t
                  + Qsum (record_mass rec_types (list_of_inc_arrays st)
                            <$> idx))%Q) as Hloop.
  { induction idx as [|i idx IH]; intros t Hidx Ht.
    - exists t. split; [done|]. split; [done|].
      change (Qsum (_ <$> [])) with 0%Q. by rewrite Qplus_0_r.
    - apply Forall_cons in Hidx as [Hi Hidx].
      destruct (lookup_lt_is_Some_2 in_bins0 i Hi) as [e He].
      destruct (lookup_lt_is_Some_2 out_bins0 i) as [x Hx]; [lia|].
      destruct (lookup_lt_is_Some_2 incs0 i) as [inc Hi0]; [lia|].
      destruct (lookup_lt_is_Some_2 rec_types i) as [rt Hr]; [lia|].
      destruct (Hrec i e x inc rt He Hx Hi0 Hr) as (-> & fe & fx & ->).
      specialize (Hat i e x _ _ He Hx Hi0 Hr).
      destruct (update_occ_body_mass st rec_types i e x fe fx t)
        as (t1 & Hbody & Hlen1 & Hsum1 & _).
      { by rewrite Ht. }
      { by rewrite Ht. }
      destruct (IH t1 Hidx) as (t' & Hrun & Hlen' & Hsum'); [congruence|].
      exists t'. simpl. rewrite Hbody. simpl. split; [done|]. split; [done|].
      rewrite Hsum', Hsum1. symmetry. apply Qplus_assoc. }
  destruct (Hloop (seq 0 (length in_bins0)) occ) as (occ' & Hrun & Hl & Hs).
  - apply Forall_forall. intros i Hi%elem_of_seq. lia.
  - done.
  - exists occ'. by repeat split.
Qed.

Lemma update_occ_body_length (entry_bin : list Z) (rec_type : list string)
    (incs : list (list Q)) (i : nat) (occ occ' : list Q) :
  update_occ_body entry_bin rec_type incs i occ = Ok occ' ->
  length occ' = length occ.
Proof.
  unfold update_occ_body. intros H. inv_bind H.
  case_decide; [|by injection H as <-].
  inv_bind H. inv_bind H.
  destruct (slice_iadd occ a0 (a0 + Z.of_nat (length a1)) a1) as [r|err] eqn:E.
  - injection H as <-. by eapply slice_iadd_length.
  - by destruct err.
Qed.

Lemma update_occ_length (occ : list Q) (entry_bin : list Z)
    (rec_type : list string) (incs : list (list Q)) (occ' : list Q) :
  update_occ occ entry_bin rec_type incs = Ok occ' ->
  length occ' = length occ.
Proof.
  unfold update_occ, for_range.
  apply (for_in_invariant (fun t => length t = length occ)); [|done].
  intros i t t' _ Ht Hbody.
  rewrite <- Ht. by eapply update_occ_body_length.
Qed.

(** ** The numpy helpers *)

Lemma np_zeros_Ok (n : Z) (z : list Q) :
  np_zeros n = Ok z -> 0 <= n /\ z = replicate (Z.to_nat n) 0%Q.
Proof.
  unfold np_zeros. destruct (Z.ltb_spec n 0); [done|].
  intros [= <-]. done.
Qed.

Lemma np_zeros3_Ok (n : Z) (z : list oad_row) :
  np_zeros3 n = Ok z -> 0 <= n /\ z = replicate (Z.to_nat n) (0%Q, 0%Q, 0%Q).
Proof.
  unfold np_zeros3. destruct (Z.ltb_spec n 0); [done|].
  intros [= <-]. done.
Qed.

Lemma columns_of_zip (arr dep occ : list Q) :
  length arr = length dep -> length dep = length occ ->
  arrivals (zip (zip arr dep) occ) = arr
  /\ departures (zip (zip arr dep) occ) = dep
  /\ occupancy (zip (zip arr dep) occ) = occ.
Proof.
  revert dep occ. unfold arrivals, departures, occupancy.
  induction arr as [|a arr IH]; intros [|d dep] [|o occ] H1 H2;
    try discriminate; [done|].
  destruct (IH dep occ) as (E1 & E2 & E3); [simpl in *; congruence..|].
  split; [|split]; simpl; f_equal; assumption.
Qed.

Lemma np_column_stack_Ok (arr dep occ : list Q) (m : list oad_row) :
  np_column_stack arr dep occ = Ok m ->
  arrivals m = arr /\ departures m = dep /\ occupancy m = occ
  /\ length m = length occ.
Proof.
  unfold np_column_stack. case_decide as Hlen; [|done].
  destruct Hlen as [Had Hdo]. intros [= <-].
  destruct (columns_of_zip arr dep occ Had Hdo) as (Ha & Hd & Ho).
  repeat split; try done. rewrite !length_zip_with. lia.
Qed.

Lemma column_lengths (m : list oad_row) :
  length (arrivals m) = length m /\ length (departures m) = length m
  /\ length (occupancy m) = length m.
Proof. unfold arrivals, departures, occupancy. by rewrite !length_fmap. Qed.

(** ** Categories *)

Lemma unique_from_subset (seen l : list string) (x : string) :
  x ∈ unique_from seen l -> x ∈ l.
Proof.
  revert seen. induction l as [|y l IH]; intros seen; simpl; [done|].
  case_decide.
  - intros Hx. right. by eapply IH.
  - intros [->|Hx]%elem_of_cons; [by left|]. right. by eapply IH.
Qed.

Lemma categories_of_subset (stops_df : list StopRec)
    (cat_to_exclude : option (list string)) (c : string) :
  c ∈ categories_of stops_df cat_to_exclude -> c ∈ Cat <$> stops_df.
Proof.
  unfold categories_of, unique. destruct cat_to_exclude as [excl|].
  - intros [_ Hc]%list_elem_of_filter. by eapply unique_from_subset.
  - apply unique_from_subset.
Qed.

(** Without a category field the only category is the dummy one. *)
Lemma categories_without_catfield (stops_df : list StopRec)
    (cat_to_exclude : option (list string)) (c : string) :
  c ∈ categories_of (with_catfield stops_df None) cat_to_exclude ->
  c = total_str.
Proof.
  intros Hc%categories_of_subset. simpl in Hc.
  rewrite <- list_fmap_compose in Hc.
  apply list_elem_of_fmap in Hc as (r & -> & _). done.
Qed.

Lemma unique_from_complete (seen l : list string) (x : string) :
  x ∈ l -> x ∉ seen -> x ∈ unique_from seen l.
Proof.
  revert seen. induction l as [|y l IH]; intros seen Hx Hs; simpl.
  - by apply elem_of_nil in Hx.
  - apply elem_of_cons in Hx as [->|Hx].
    + rewrite decide_False by done. by left.
    + case_decide; [by apply IH|].
      destruct (decide (x = y)) as [->|Hne]; [by left|].
      right. apply IH; [done|]. by intros [?|?]%elem_of_cons.
Qed.


Lemma unique_from_fresh (seen l : list string) (x : string) :
  x ∈ unique_from seen l -> x ∉ seen.
Proof.
  revert seen. induction l as [|y l IH]; intros seen; simpl.
  - by intros ?%elem_of_nil.
  - case_decide as Hy; [by apply IH|].
    intros [->|Hx]%elem_of_cons; [done|].
    apply IH in Hx. intros Hs. apply Hx. by right.
Qed.

Lemma unique_from_NoDup (seen l : list string) : NoDup (unique_from seen l).
Proof.
  revert seen. induction l as [|y l IH]; intros seen; simpl.
  - constructor.
  - case_decide; [by apply IH|]. constructor; [|by apply IH].
    intros Hy%unique_from_fresh. apply Hy. by left.
Qed.

Lemma categories_of_NoDup (stops_df : list StopRec)
    (cat_to_exclude : option (list string)) :
  NoDup (categories_of stops_df cat_to_exclude).
Proof.
  unfold categories_of, unique. destruct cat_to_exclude.
  - apply NoDup_filter, unique_from_NoDup.
  - apply unique_from_NoDup.
Qed.



(** ** The engine *)

Section EngineFacts.

Variable bin_of_span : Timestamp -> Timestamp -> Z -> result Z.
Variable stoprec_analysis_rltnshp :
  Timestamp -> Timestamp -> Timestamp -> Timestamp -> string.
Variables start_analysis end_analysis : Timestamp.
Variable bin_size_minutes : Z.

Local Abbreviation cat_arrays :=
  (category_arrays bin_of_span stoprec_analysis_rltnshp
     start_analysis end_analysis bin_size_minutes).
Local Abbreviation cat_results :=
  (category_results bin_of_span stoprec_analysis_rltnshp
     start_analysis end_analysis bin_size_minutes).
Local Abbreviation raw_incs :=
  (raw_inc_arrays bin_of_span start_analysis bin_size_minutes).
Local Abbreviation run_engine :=
  (make_bydatetime bin_of_span stoprec_analysis_rltnshp
     start_analysis end_analysis bin_size_minutes).


(** The stages of one pass of the main loop. *)
Lemma category_arrays_inv (num_bins : Z) (stops_df : list StopRec)
    (cat : string) (oad : list oad_row) :
  cat_arrays num_bins stops_df cat = Ok oad ->
  let cat_df := filter (fun r => Cat r = cat) stops_df in
  let rec_type :=
    (fun x => stoprec_analysis_rltnshp (InTS x) (OutTS x)
                start_analysis end_analysis) <$> cat_df in
  exists entry_bin exit_bin incs st,
    raw_incs stops_df cat_df = Ok (entry_bin, exit_bin, incs)
    /\ update_occ_incs entry_bin exit_bin incs rec_type num_bins = Ok st
    /\ update_occ (replicate (Z.to_nat num_bins) 0%Q) (in_bins st) rec_type
         (list_of_inc_arrays st) = Ok (occupancy oad)
    /\ np_bincount (in_bins st) num_bins = Ok (arrivals oad)
    /\ np_bincount (out_bins st) num_bins = Ok (departures oad)
    /\ 0 <= num_bins
    /\ length oad = Z.to_nat num_bins.
Proof.
  intros H cat_df rec_type. unfold category_arrays in H.
  fold cat_df in H. inv_bind H. destruct a as [[entry_bin exit_bin] incs].
  fold rec_type in H. inv_bind H. inv_bind H. inv_bind H. inv_bind H.
  inv_bind H. rename a into st, a0 into occ0, a1 into occ, a2 into arr,
    a3 into dep.
  apply np_zeros_Ok in Ha1 as [Hnb ->].
  apply np_column_stack_Ok in H as (-> & -> & -> & Hlen).
  exists entry_bin, exit_bin, incs, st. repeat split; try done.
  rewrite Hlen. apply update_occ_length in Ha2.
  by rewrite Ha2, length_replicate.
Qed.

(** The main loop stores, for every category, what its pass computed, and
    touches no other key. *)
Lemma for_in_categories (num_bins : Z) (stops_df : list StopRec)
    (categories : list string) (m0 results : gmap string (list oad_row)) :
  for_in
    (fun cat results =>
       occ_arr_dep ← cat_arrays num_bins stops_df cat;
       Ok (<[cat := occ_arr_dep]> results))
    categories m0 = Ok results ->
  forall cat,
    (cat ∈ categories ->
     exists oad, cat_arrays num_bins stops_df cat = Ok oad
                 /\ results !! cat = Some oad)
    /\ (cat ∉ categories -> results !! cat = m0 !! cat).
Proof.
  revert m0. induction categories as [|c cats IH]; intros m0 H cat.
  - simpl in H. injection H as <-. split; [by intros ?%elem_of_nil|done].
  - simpl in H. inv_bind H. inv_bind Ha. injection Ha as <-.
    destruct (IH _ H cat) as [IHin IHout]. split.
    + intros Hcat. destruct (decide (cat ∈ cats)) as [Hc|Hc]; [by apply IHin|].
      apply elem_of_cons in Hcat as [->|?]; [|done].
      exists a0. split; [done|]. rewrite IHout by done.
      apply lookup_insert_eq.
    + intros Hcat. apply not_elem_of_cons in Hcat as [Hne Hc].
      rewrite IHout by done. by apply lookup_insert_ne.
Qed.

Lemma category_results_lookup (num_bins : Z) (stops_df : list StopRec)
    (categories : list string) (results : gmap string (list oad_row))
    (cat : string) :
  cat_results num_bins stops_df categories = Ok results ->
  (cat ∈ categories ->
   exists oad, cat_arrays num_bins stops_df cat = Ok oad
               /\ results !! cat = Some oad)
  /\ (cat ∉ categories -> results !! cat = None).
Proof.
  intros H. destruct (for_in_categories _ _ _ _ _ H cat) as [Hin Hout].
  split; [done|]. intros Hc. by rewrite Hout.
Qed.

(** Every stored matrix has [num_bins] rows. *)
Lemma category_results_rows (num_bins : Z) (stops_df : list StopRec)
    (categories : list string) (results : gmap string (list oad_row))
    (key : string) (m : list oad_row) :
  cat_results num_bins stops_df categories = Ok results ->
  results !! key = Some m ->
  0 <= num_bins /\ length m = Z.to_nat num_bins.
Proof.
  intros H Hm.
  destruct (category_results_lookup _ _ _ _ key H) as [Hin Hout].
  destruct (decide (key ∈ categories)) as [Hk|Hk].
  - destruct (Hin Hk) as (oad & Hoad & Hl).
    assert (m = oad) as -> by congruence.
    apply category_arrays_inv in Hoad. simpl in Hoad.
    destruct Hoad as (? & ? & ? & ? & _ & _ & _ & _ & _ & ? & ?). done.
  - rewrite Hout in Hm by done. done.
Qed.

(** The totals matrix keeps the shape of its summands. *)
Lemma sum_results_rows (n : nat) (zero : list oad_row)
    (results : gmap string (list oad_row)) :
  length zero = n ->
  (forall key m, results !! key = Some m -> length m = n) ->
  length (sum_results zero results) = n.
Proof.
  intros Hz. unfold sum_results.
  induction results as [|k m results Hk Hfold IH] using map_first_key_ind.
  - intros _. by rewrite map_fold_empty.
  - intros Hall. rewrite map_fold_insert_first_key by done.
    rewrite length_zip_with, IH.
    + rewrite (Hall k m) by apply lookup_insert_eq. lia.
    + intros key m' Hm'. apply (Hall key).
      rewrite lookup_insert_ne; [done|]. intros <-. congruence.
Qed.

(** What a normal return of the engine is made of. *)
Lemma make_bydatetime_inv (stops_df : list StopRec)
    (catfield : option string) (cat_to_exclude : option (list string))
    (totals edge_bins : Z) (results : gmap string (list oad_row)) :
  run_engine stops_df catfield cat_to_exclude totals edge_bins = Ok results ->
  let df := with_catfield stops_df catfield in
  let categories := categories_of df cat_to_exclude in
  let df' := filter (fun r => Cat r ∈ categories) df in
  exists num_bins percat,
    analysis_num_bins bin_of_span start_analysis end_analysis
      bin_size_minutes = Ok num_bins
    /\ cat_results num_bins df' categories = Ok percat
    /\ (is_Some catfield -> 0 <= num_bins)
    /\ results =
       if bool_decide (is_Some catfield)
       then <[totals_key :=
               sum_results (replicate (Z.to_nat num_bins) (0%Q, 0%Q, 0%Q))
                 percat]> percat
       else percat.
Proof.
  intros H df categories df'. unfold make_bydatetime in H.
  inv_bind H. rename a into num_bins.
  fold df categories df' in H. inv_bind H. rename a into percat.
  exists num_bins, percat. split; [done|]. split; [done|].
  case_bool_decide as Hcf.
  - inv_bind H. apply np_zeros3_Ok in Ha1 as [Hnb ->].
    injection H as <-. done.
  - injection H as <-. done.
Qed.

(** Every category has its entry in a returned mapping, and every matrix of
    the mapping has [num_bins]
    rows, the totals matrix included. *)
Lemma make_bydatetime_rows (stops_df : list StopRec)
    (catfield : option string) (cat_to_exclude : option (list string))
    (totals edge_bins : Z) (results : gmap string (list oad_row)) :
  run_engine stops_df catfield cat_to_exclude totals edge_bins = Ok results ->
  exists num_bins,
    analysis_num_bins bin_of_span start_analysis end_analysis
      bin_size_minutes = Ok num_bins
    /\ (forall cat,
          cat ∈ categories_of (with_catfield stops_df catfield)
                  cat_to_exclude ->
          is_Some (results !! cat))
    /\ forall key m, results !! key = Some m ->
         0 <= num_bins
         /\ length (arrivals m) = Z.to_nat num_bins
         /\ length (departures m) = Z.to_nat num_bins
         /\ length (occupancy m) = Z.to_nat num_bins.
Proof.
  intros H. apply make_bydatetime_inv in H. simpl in H.
  destruct H as (num_bins & percat & Hnb & Hpc & Hpos & ->).
  exists num_bins. split; [done|]. split.
  { intros cat Hcat.
    destruct (category_results_lookup _ _ _ _ cat Hpc) as [Hin _].
    destruct (Hin Hcat) as (oad & _ & Hoad).
    case_bool_decide; [|by eexists].
    apply lookup_insert_is_Some. destruct (decide (totals_key = cat));
      [by left | right; split; [done | by eexists]]. }
  intros key m Hm.
  destruct (column_lengths m) as (-> & -> & ->).
  assert (forall k m', percat !! k = Some m' ->
            0 <= num_bins /\ length m' = Z.to_nat num_bins) as Hrows.
  { intros k m'. by eapply category_results_rows. }
  case_bool_decide as Hcf; [|by destruct (Hrows key m Hm)].
  destruct (decide (key = totals_key)) as [->|Hne].
  - rewrite lookup_insert_eq in Hm. injection Hm as <-.
    split; [by apply Hpos|].
    rewrite (sum_results_rows (Z.to_nat num_bins));
      [done | by rewrite length_replicate |].
    intros k m' Hm'. by destruct (Hrows k m' Hm').
  - rewrite lookup_insert_ne in Hm by done. by destruct (Hrows key m Hm).
Qed.

(** The totals matrix is, bin by bin and column by column, the sum of
    the matrices it is folded from. *)
Lemma foldr_row_add_lookup (n : nat) (ms : list (string * list oad_row))
    (b : nat) :
  (b < n)%nat ->
  Forall (fun km => length km.2 = n) ms ->
  exists ta td to,
    foldr (uncurry (fun (_ : string) oad_array total =>
                      zip_with row_add total oad_array))
      (replicate n (0%Q, 0%Q, 0%Q)) ms !! b = Some (ta, td, to)
    /\ ta == column_sum arrivals ms b
    /\ td == column_sum departures ms b
    /\ to == column_sum occupancy ms b.
Proof.
  intros Hb. induction 1 as [|[k m] ms Hm Hms IH]; simpl.
  - exists 0%Q, 0%Q, 0%Q. rewrite lookup_replicate_2 by done.
    by unfold column_sum.
  - set (total := foldr _ _ ms) in *.
    destruct IH as (ta & td & to & Hlook & Ha & Hd & Ho).
    simpl in Hm.
    destruct (lookup_lt_is_Some_2 m b) as [[[ra rd] ro] Hr]; [lia|].
    exists (ta + ra)%Q, (td + rd)%Q, (to + ro)%Q.
    unfold oad_row in *.
    rewrite lookup_zip_with, Hlook. simpl. rewrite Hr. simpl.
    split; [done|]. unfold column_sum, arrivals, departures, occupancy in *.
    simpl. rewrite !list_lookup_fmap, Hr. simpl.
    unfold Qsum in *. rewrite Ha, Hd, Ho. repeat split; apply Qplus_comm.
Qed.

Lemma sum_results_lookup (n : nat) (percat : gmap string (list oad_row))
    (b : nat) :
  (b < n)%nat ->
  (forall key m, percat !! key = Some m -> length m = n) ->
  exists ta td to,
    sum_results (replicate n (0%Q, 0%Q, 0%Q)) percat !! b
    = Some (ta, td, to)
    /\ ta == column_sum arrivals (map_to_list percat) b
    /\ td == column_sum departures (map_to_list percat) b
    /\ to == column_sum occupancy (map_to_list percat) b.
Proof.
  intros Hb Hall. unfold sum_results. rewrite map_fold_foldr.
  destruct (foldr_row_add_lookup n (map_to_list percat) b Hb)
    as (ta & td & to & Hlook & Hsum).
  - apply Forall_forall. intros [k m] Hkm%elem_of_map_to_list. simpl.
    by eapply Hall.
  - by exists ta, td, to.
Qed.

End EngineFacts.

(** C5. The number of bins and the shape of the result.  With the
    [bin_of_span] of the specification and a bin size other than 0,
    [num_bins] is the floor of the window length over the bin length, plus
    one.  Whatever [hmlib] computes, a mapping returned by [make_bydatetime]
    has an entry for every category and holds, under every key (the totals
    key included), three arrays of exactly [num_bins] entries. *)
Theorem num_bins_and_array_lengths :
  (forall (start_analysis end_analysis : Timestamp) (bin_size_minutes : Z),
     bin_size_minutes <> 0 ->
     analysis_num_bins HmlibSpec.bin_of_span start_analysis end_analysis
       bin_size_minutes
     = Ok (Qfloor (inject_Z (end_analysis - start_analysis)
                   / inject_Z (bin_size_minutes * 60 * ns_per_second)) + 1))
  /\
  (forall bin_of_span stoprec_analysis_rltnshp
          (start_analysis end_analysis : Timestamp) (bin_size_minutes : Z)
          (stops_df : list StopRec) (catfield : option string)
          (cat_to_exclude : option (list string)) (totals edge_bins : Z)
          (results : gmap string (list oad_row)),
     make_bydatetime bin_of_span stoprec_analysis_rltnshp start_analysis
       end_analysis bin_size_minutes stops_df catfield cat_to_exclude
       totals edge_bins = Ok results ->
     exists num_bins,
       analysis_num_bins bin_of_span start_analysis end_analysis
         bin_size_minutes = Ok num_bins
       /\ (forall cat,
             cat ∈ categories_of (with_catfield stops_df catfield)
                     cat_to_exclude ->
             is_Some (results !! cat))
       /\ forall key m, results !! key = Some m ->
            0 <= num_bins
            /\ length (arrivals m) = Z.to_nat num_bins
            /\ length (departures m) = Z.to_nat num_bins
            /\ length (occupancy m) = Z.to_nat num_bins).
Proof.
  split.
  - intros start_analysis end_analysis bin_size_minutes Hbin.
    unfold analysis_num_bins, HmlibSpec.bin_of_span, HmlibSpec.span_bin.
    destruct (Z.eqb_spec bin_size_minutes 0) as [|_]; [done|]. simpl.
    by rewrite Zdiv_Qdiv.
  - intros. by eapply make_bydatetime_rows.
Qed.

(** One stay from 00:30 to 01:15 in the window 00:00 .. 03:00 with hourly
    bins: four bins, and four entries in every array. *)
Lemma num_bins_and_array_lengths_witness :
  analysis_num_bins HmlibSpec.bin_of_span (at_time 0 0 0) (at_time 3 0 0) 60
  = Ok 4
  /\ exists results,
       HmlibSpec.make_bydatetime (at_time 0 0 0) (at_time 3 0 0) 60
         [mkStopRec (at_time 0 30 0) (at_time 1 15 0) "A"]
         (Some "PatientType") None 1 1 = Ok results
       /\ forall key m, results !! key = Some m ->
            length (arrivals m) = 4%nat /\ length (departures m) = 4%nat
            /\ length (occupancy m) = 4%nat.
Proof.
  split.
  - rewrite (proj1 num_bins_and_array_lengths) by discriminate. reflexivity.
  - destruct (HmlibSpec.make_bydatetime (at_time 0 0 0) (at_time 3 0 0) 60
                [mkStopRec (at_time 0 30 0) (at_time 1 15 0) "A"]
                (Some "PatientType") None 1 1) as [results|err] eqn:Hrun;
      [|vm_compute in Hrun; discriminate Hrun].
    exists results. split; [reflexivity|].
    intros key m Hm.
    unfold HmlibSpec.make_bydatetime in Hrun.
    destruct (proj2 num_bins_and_array_lengths _ _ _ _ _ _ _ _ _ _ _ Hrun)
      as (num_bins & Hnb & _ & Hrows).
    injection Hnb as <-. destruct (Hrows key m Hm) as (_ & Ha & Hd & Ho).
    repeat split; assumption.
Defined.

(** C8, as the code has it.  A mapping returned by [make_bydatetime] is the
    mapping of the per-category matrices, one per category, and:
    with a category field, the matrix stored under the fixed key
    ["datetime"] is, for every bin and column, the sum of the per-category
    matrices, and it is one additional entry, leaving every category's own
    entry as computed, as long as no category value is ["datetime"];
    without a category field nothing is stored under that key. *)
Theorem totals_entry bin_of_span stoprec_analysis_rltnshp
    (start_analysis end_analysis : Timestamp) (bin_size_minutes : Z)
    (stops_df : list StopRec) (catfield : option string)
    (cat_to_exclude : option (list string)) (totals edge_bins : Z)
    (results : gmap string (list oad_row)) :
  make_bydatetime bin_of_span stoprec_analysis_rltnshp start_analysis
    end_analysis bin_size_minutes stops_df catfield cat_to_exclude
    totals edge_bins = Ok results ->
  let df := with_catfield stops_df catfield in
  let categories := categories_of df cat_to_exclude in
  let df' := filter (fun r => Cat r ∈ categories) df in
  exists num_bins percat,
    analysis_num_bins bin_of_span start_analysis end_analysis
      bin_size_minutes = Ok num_bins
    /\ category_results bin_of_span stoprec_analysis_rltnshp start_analysis
         end_analysis bin_size_minutes num_bins df' categories = Ok percat
    /\ (forall cat, cat ∈ categories <-> is_Some (percat !! cat))
    /\ (is_Some catfield ->
        exists total,
          results = <[totals_key := total]> percat
          /\ (forall b, (b < Z.to_nat num_bins)%nat ->
               exists ta td to,
                 total !! b = Some (ta, td, to)
                 /\ ta == column_sum arrivals (map_to_list percat) b
                 /\ td == column_sum departures (map_to_list percat) b
                 /\ to == column_sum occupancy (map_to_list percat) b)
          /\ (totals_key ∉ categories ->
              size results = S (size percat)
              /\ forall cat, cat ∈ categories ->
                   results !! cat = percat !! cat))
    /\ (catfield = None ->
        results = percat /\ results !! totals_key = None).
Proof.
  intros H df categories df'.
  apply make_bydatetime_inv in H. simpl in H.
  destruct H as (num_bins & percat & Hnb & Hpc & Hpos & ->).
  fold df categories df' in Hpc.
  exists num_bins, percat. split; [done|]. split; [done|].
  assert (forall cat, cat ∈ categories <-> is_Some (percat !! cat)) as Hkeys.
  { intros cat.
    destruct (category_results_lookup _ _ _ _ _ _ _ _ _ cat Hpc)
      as [Hin Hout].
    split.
    - intros Hc. destruct (Hin Hc) as (oad & _ & ->). by eexists.
    - intros Hsome. destruct (decide (cat ∈ categories)) as [|Hn]; [done|].
      rewrite (Hout Hn) in Hsome. by destruct Hsome. }
  split; [done|]. split.
  - intros Hcf. rewrite bool_decide_eq_true_2 by done.
    eexists. split; [reflexivity|]. split.
    + intros b Hb. apply sum_results_lookup; [done|].
      intros key m Hm. by eapply category_results_rows.
    + intros Hfresh.
      assert (percat !! totals_key = None) as Hnone.
      { destruct (percat !! totals_key) eqn:E; [|done].
        destruct Hfresh. apply Hkeys. by eexists. }
      split; [by apply map_size_insert_None|].
      intros cat Hcat. apply lookup_insert_ne. by intros <-.
  - intros ->. rewrite bool_decide_eq_false_2 by (by intros [? ?]).
    split; [done|].
    destruct (percat !! totals_key) eqn:E; [|done].
    assert (totals_key ∈ categories) as Hin by (apply Hkeys; by eexists).
    by apply categories_without_catfield in Hin.
Qed.

(** Two categories with one hourly stay each; and the same data without a
    category field. *)
Lemma totals_entry_witness :
  let stops_df := [mkStopRec (at_time 0 30 0) (at_time 1 15 0) "A";
                   mkStopRec (at_time 0 30 0) (at_time 1 15 0) "B"] in
  (exists results percat total,
     HmlibSpec.make_bydatetime (at_time 0 0 0) (at_time 3 0 0) 60 stops_df
       (Some "PatientType") None 1 1 = Ok results
     /\ results = <[totals_key := total]> percat
     /\ size results = S (size percat))
  /\ (exists results,
       HmlibSpec.make_bydatetime (at_time 0 0 0) (at_time 3 0 0) 60 stops_df
         None None 1 1 = Ok results
       /\ results !! totals_key = None).
Proof.
  intros stops_df. split.
  - destruct (HmlibSpec.make_bydatetime (at_time 0 0 0) (at_time 3 0 0) 60
                stops_df (Some "PatientType") None 1 1)
      as [results|err] eqn:Hrun; [|vm_compute in Hrun; discriminate Hrun].
    unfold HmlibSpec.make_bydatetime in Hrun.
    destruct (totals_entry _ _ _ _ _ _ _ _ _ _ _ Hrun)
      as (num_bins & percat & _ & _ & _ & Htot & _).
    destruct (Htot (ex_intro _ _ eq_refl)) as (total & Hres & _ & Hfresh).
    exists results, percat, total.
    split; [reflexivity|]. split; [exact Hres|].
    apply Hfresh. apply (bool_decide_unpack _). vm_compute. exact I.
  - destruct (HmlibSpec.make_bydatetime (at_time 0 0 0) (at_time 3 0 0) 60
                stops_df None None 1 1)
      as [results|err] eqn:Hrun; [|vm_compute in Hrun; discriminate Hrun].
    unfold HmlibSpec.make_bydatetime in Hrun.
    destruct (totals_entry _ _ _ _ _ _ _ _ _ _ _ Hrun)
      as (num_bins & percat & _ & _ & _ & _ & Hnone).
    exists results. split; [reflexivity|]. apply (Hnone eq_refl).
Defined.

(** As the specification words it, the property fails when a category value
    is ["datetime"]: the totals matrix takes that category's place, and the
    mapping has as many entries as there are categories. *)
Lemma totals_key_collision :
  let stops_df := [mkStopRec (at_time 0 30 0) (at_time 1 15 0) "datetime";
                   mkStopRec (at_time 1 30 0) (at_time 2 15 0) "B"] in
  let categories := categories_of stops_df None in
  exists results own,
    HmlibSpec.make_bydatetime (at_time 0 0 0) (at_time 3 0 0) 60 stops_df
      (Some "PatientType") None 1 1 = Ok results
    /\ totals_key ∈ categories
    /\ size results = length categories
    /\ category_arrays HmlibSpec.bin_of_span
         (HmlibSpec.stoprec_analysis_rltnshp 60) (at_time 0 0 0)
         (at_time 3 0 0) 60 4 stops_df "datetime" = Ok own
    /\ results !! "datetime" <> Some own.
Proof.
  intros stops_df categories.
  eexists. eexists. split; [vm_compute; reflexivity|].
  split; [by apply (bool_decide_unpack _)|].
  split; [by vm_compute|].
  split; [vm_compute; reflexivity|].
  vm_compute. discriminate.
Qed.



(** ** Counting arrivals and departures *)

Lemma foldr_max_ge (x : list Z) (v : Z) :
  v ∈ x -> v <= foldr Z.max (-1) x.
Proof.
  induction x as [|w x IH]; [by intros ?%elem_of_nil|].
  intros [->|Hv]%elem_of_cons; simpl; [lia|].
  specialize (IH Hv). lia.
Qed.

(** When [np.bincount] returns, no value is negative, every value has its
    cell, and cell [b] holds the number of occurrences of [b]. *)
Lemma np_bincount_Ok (x : list Z) (minlength : Z) (arr : list Q) :
  np_bincount x minlength = Ok arr ->
  Forall (fun v => 0 <= v < Z.of_nat (length arr)) x
  /\ Z.of_nat (length arr) >= minlength
  /\ forall b : nat,
       (b < length arr)%nat ->
       arr !! b = Some (inject_Z (Z.of_nat (count_occ_Z x (Z.of_nat b)))).
Proof.
  unfold np_bincount. case_decide as Hneg; [done|]. intros [= <-].
  rewrite length_fmap, length_seq. split; [|split].
  - apply Forall_forall. intros v Hv. split.
    + destruct (decide (0 <= v)) as [|Hlt]; [done|].
      destruct Hneg. apply Exists_exists. exists v. split; [done|lia].
    + apply foldr_max_ge in Hv. lia.
  - lia.
  - intros b Hb. rewrite list_lookup_fmap, lookup_seq_lt by done. done.
Qed.

Lemma np_bincount_negative (x : list Z) (minlength v : Z) :
  v ∈ x -> v < 0 ->
  np_bincount x minlength
  = Raise (ValueError bincount_negative_element).
Proof.
  intros Hv Hneg. unfold np_bincount. rewrite decide_True; [done|].
  apply Exists_exists. by exists v.
Qed.

Lemma Qsum_inject {A} (f : A -> nat) (l : list A) :
  (Qsum ((fun a => inject_Z (Z.of_nat (f a))) <$> l)
   == inject_Z (Z.of_nat (sum_list_with f l)))%Q.
Proof.
  induction l as [|a l IH]; simpl; [reflexivity|].
  unfold Qsum in *. simpl. rewrite IH.
  rewrite Nat2Z.inj_add, inject_Z_plus. reflexivity.
Qed.

(** Each value below [n] is counted in exactly one of the [n] cells. *)
Lemma sum_count_occ (x : list Z) (n : nat) :
  Forall (fun v => 0 <= v < Z.of_nat n) x ->
  sum_list_with (fun b : nat => count_occ_Z x (Z.of_nat b)) (seq 0 n)
  = length x.
Proof.
  induction 1 as [|v x Hv Hx IH].
  - induction (seq 0 n) as [|b l IHl]; [done|]. simpl. exact IHl.
  - simpl. rewrite <- IH. clear IH Hx.
    assert (forall m : nat,
              sum_list_with (fun b : nat => count_occ_Z (v :: x) (Z.of_nat b))
                (seq 0 m)
              = ((if decide (v < Z.of_nat m)%Z then 1 else 0)
                 + sum_list_with (fun b : nat => count_occ_Z x (Z.of_nat b))
                     (seq 0 m))%nat) as Hm.
    { induction m as [|m IHm]; [by rewrite decide_False by lia|].
      rewrite seq_S, !sum_list_with_app, IHm. simpl.
      unfold count_occ_Z. rewrite filter_cons.
      repeat case_decide; simpl; lia. }
    rewrite Hm. rewrite decide_True by lia. done.
Qed.

Lemma np_bincount_total (x : list Z) (minlength : Z) (arr : list Q) :
  np_bincount x minlength = Ok arr ->
  (Qsum arr == inject_Z (Z.of_nat (length x)))%Q.
Proof.
  intros H. destruct (np_bincount_Ok _ _ _ H) as (Hrange & _ & _).
  revert H Hrange. unfold np_bincount. case_decide; [done|]. intros [= <-].
  rewrite length_fmap, length_seq. intros Hrange.
  rewrite <- (sum_count_occ x _ Hrange).
  apply Qsum_inject.
Qed.

(** When a pass of the main loop returns, every clipped bin of the category
    lies in the window, cell [b] of the arrivals (departures) column is the
    number of records whose clipped entry (exit) bin is [b], and each column
    adds up to the number of records of the category. *)
Lemma counts_on_return bin_of_span stoprec_analysis_rltnshp
    (start_analysis end_analysis : Timestamp) (bin_size_minutes : Z)
    (num_bins : Z) (stops_df : list StopRec) (cat : string)
    (oad : list oad_row) :
  category_arrays bin_of_span stoprec_analysis_rltnshp start_analysis
    end_analysis bin_size_minutes num_bins stops_df cat = Ok oad ->
  let cat_df := filter (fun r => Cat r = cat) stops_df in
  let rec_type :=
    (fun x => stoprec_analysis_rltnshp (InTS x) (OutTS x)
                start_analysis end_analysis) <$> cat_df in
  exists entry_bin exit_bin incs st,
    raw_inc_arrays bin_of_span start_analysis bin_size_minutes stops_df cat_df
    = Ok (entry_bin, exit_bin, incs)
    /\ update_occ_incs entry_bin exit_bin incs rec_type num_bins = Ok st
    /\ Forall (fun v => 0 <= v <= num_bins - 1) (in_bins st)
    /\ Forall (fun v => 0 <= v <= num_bins - 1) (out_bins st)
    /\ (forall b : nat,
         (b < Z.to_nat num_bins)%nat ->
         arrivals oad !! b
         = Some (inject_Z (Z.of_nat (count_occ_Z (in_bins st) (Z.of_nat b))))
         /\ departures oad !! b
            = Some (inject_Z
                      (Z.of_nat (count_occ_Z (out_bins st) (Z.of_nat b)))))
    /\ (Qsum (arrivals oad) == inject_Z (Z.of_nat (length (in_bins st))))%Q
    /\ (Qsum (departures oad) == inject_Z (Z.of_nat (length (out_bins st))))%Q.
Proof.
  intros H cat_df rec_type. apply category_arrays_inv in H.
  destruct H as (entry_bin & exit_bin & incs & st & Hraw & Hst & _ & Harr
                 & Hdep & Hnb & Hlen).
  exists entry_bin, exit_bin, incs, st. split; [done|]. split; [done|].
  destruct (column_lengths oad) as (Hla & Hld & _).
  destruct (np_bincount_Ok _ _ _ Harr) as (Hra & _ & Hca).
  destruct (np_bincount_Ok _ _ _ Hdep) as (Hrd & _ & Hcd).
  rewrite Hla, Hlen in Hra, Hca. rewrite Hld, Hlen in Hrd, Hcd.
  split; [|split; [|split; [|split]]].
  - eapply Forall_impl; [exact Hra|]. simpl. intros v ?. lia.
  - eapply Forall_impl; [exact Hrd|]. simpl. intros v ?. lia.
  - intros b Hb. split; [by apply Hca | by apply Hcd].
  - by eapply np_bincount_total.
  - by eapply np_bincount_total.
Qed.

(** C3 at the failing inputs, window 01:00 .. 04:00 with hourly bins.  A stay
    that ends before the window, or begins after it, has class [none] and
    keeps its raw bins, as the last part shows for any record so tagged.
    [np.bincount] rejects the negative bin; the bin past the window makes the
    arrivals column longer than [num_bins], and [np.column_stack] rejects
    that.  Either way the engine raises and returns no arrays. *)
Theorem counts_of_record_outside_window :
  let start_analysis := at_time 1 0 0 in
  let end_analysis := at_time 4 0 0 in
  let before := mkStopRec (at_time 0 15 0) (at_time 0 30 0) "A" in
  let after := mkStopRec (at_time 5 15 0) (at_time 5 30 0) "A" in
  HmlibSpec.stoprec_analysis_rltnshp 60 (InTS before) (OutTS before)
    start_analysis end_analysis = "none"
  /\ HmlibSpec.make_bydatetime start_analysis end_analysis 60 [before]
       (Some "PatientType") None 1 1
     = Raise (ValueError bincount_negative_element)
  /\ HmlibSpec.stoprec_analysis_rltnshp 60 (InTS after) (OutTS after)
       start_analysis end_analysis = "none"
  /\ HmlibSpec.make_bydatetime start_analysis end_analysis 60 [after]
       (Some "PatientType") None 1 1
     = Raise (ValueError column_lengths_differ)
  /\ exists st,
       update_occ_incs [-1] [-1] [[1 # 4]%Q] ["none"] 4 = Ok st
       /\ in_bins st = [-1] /\ out_bins st = [-1]
       /\ np_bincount (in_bins st) 4
          = Raise (ValueError bincount_negative_element).
Proof.
  split; [reflexivity|]. split; [vm_compute; reflexivity|].
  split; [reflexivity|]. split; [vm_compute; reflexivity|].
  eexists. split; [reflexivity|]. split; [reflexivity|].
  split; reflexivity.
Qed.

(** ** Edge fractions *)

Lemma seconds_into_hour (ts : Timestamp) :
  ts_minute ts * 60 + ts_second ts = (ts / ns_per_second) mod 3600.
Proof.
  unfold ts_minute, ts_second.
  rewrite (Z.mul_comm 60 ns_per_second), <- Z.div_div by done.
  change 3600 with (60 * 60). rewrite Z.rem_mul_r by done. lia.
Qed.

(** With hourly bins the source's formula is the one of the specification:
    whole seconds into the bin over the bin length; the entry fraction stays
    below 1, the exit fraction is 1 on the full hour. *)
Lemma in_bin_occ_frac_hourly (in_ts : Timestamp) :
  exists q,
    in_bin_occ_frac in_ts 60 1 = Ok q
    /\ (q == inject_Z ((in_ts / ns_per_second) mod 3600) / inject_Z 3600)%Q
    /\ (0 <= q)%Q /\ (q < 1)%Q.
Proof.
  eexists. split; [reflexivity|]. rewrite seconds_into_hour.
  pose proof (Z.mod_pos_bound (in_ts / ns_per_second) 3600 eq_refl) as Hb.
  split; [reflexivity|].
  unfold Qdiv, Qle, Qlt, Qmult, Qinv, inject_Z. simpl. lia.
Qed.

Lemma out_bin_occ_frac_hourly (out_ts : Timestamp) :
  exists q,
    out_bin_occ_frac out_ts 60 1 = Ok q
    /\ (q == inject_Z (3600 - (out_ts / ns_per_second) mod 3600)
             / inject_Z 3600)%Q
    /\ (0 < q)%Q /\ (q <= 1)%Q
    /\ ((q == 1)%Q <-> (out_ts / ns_per_second) mod 3600 = 0).
Proof.
  eexists. split; [reflexivity|]. rewrite seconds_into_hour.
  pose proof (Z.mod_pos_bound (out_ts / ns_per_second) 3600 eq_refl) as Hb.
  split; [reflexivity|].
  unfold Qdiv, Qle, Qlt, Qeq, Qmult, Qinv, inject_Z. simpl. lia.
Qed.

(** C2 at the failing input: bins of 30 minutes and a timestamp at 00:45:00.
    The stay is 900 seconds into its bin of 1800 seconds, so both fractions
    should be 1/2; the source divides the seconds since the full hour, 2700,
    by the bin length and answers 3/2 on entry and -1/2 on exit, both
    outside [0, 1]. *)
Theorem edge_fraction_half_hour_bins :
  let ts := at_time 0 45 0 in
  (ts / ns_per_second) mod (30 * 60) = 900
  /\ exists fe fx,
       in_bin_occ_frac ts 30 1 = Ok fe /\ out_bin_occ_frac ts 30 1 = Ok fx
       /\ (fe == 3 # 2)%Q /\ (fx == - (1 # 2))%Q
       /\ ~ (fe == 900 # 1800)%Q /\ ~ (fx == (1800 - 900) # 1800)%Q
       /\ ~ (fe <= 1)%Q /\ ~ (0 <= fx)%Q.
Proof.
  split; [reflexivity|].
  eexists. eexists. split; [reflexivity|]. split; [reflexivity|].
  repeat split; vm_compute; congruence.
Qed.

(** ** Exceptions of the accumulation *)

Lemma for_in_Raise {A S} (body : A -> S -> result S) (xs : list A) (s : S)
    (e : PyErr) :
  for_in body xs s = Raise e -> exists x t, x ∈ xs /\ body x t = Raise e.
Proof.
  revert s. induction xs as [|x xs IH]; intros s H; simpl in H; [done|].
  destruct (body x s) as [s'|e'] eqn:Hbody; simpl in H.
  - destruct (IH _ H) as (y & t & Hy & Ht). exists y, t. split; [by right|done].
  - injection H as ->. exists x, s. split; [by left|done].
Qed.

Lemma slice_iadd_Raise (occ : list Q) (lo hi : Z) (inc : list Q) (e : PyErr) :
  slice_iadd occ lo hi inc = Raise e -> exists why, e = ValueError why.
Proof.
  unfold slice_iadd. case_decide; [done|].
  destruct inc as [|v [|]]; intros Hr; try discriminate;
    injection Hr as <-; by eexists.
Qed.

(** The [except] clause never fires: what the body raises is the bare
    [IndexError] of a short argument array or numpy's [ValueError]. *)
Lemma update_occ_body_Raise (entry_bin : list Z) (rec_type : list string)
    (incs : list (list Q)) (i : nat) (occ : list Q) (e : PyErr) :
  update_occ_body entry_bin rec_type incs i occ = Raise e ->
  e = IndexError \/ exists why, e = ValueError why.
Proof.
  unfold update_occ_body, getitem.
  destruct (rec_type !! i) as [rt|]; simpl; [|intros [= <-]; by left].
  case_decide; [|done].
  destruct (entry_bin !! i) as [pos|]; simpl; [|intros [= <-]; by left].
  destruct (incs !! i) as [occ_inc|]; simpl; [|intros [= <-]; by left].
  destruct (slice_iadd occ pos (pos + Z.of_nat (length occ_inc)) occ_inc)
    as [r|err] eqn:E; [done|].
  destruct (slice_iadd_Raise _ _ _ _ _ E) as [why ->].
  intros [= <-]. right. by eexists.
Qed.

(** C4 at the failing inputs, on an array of four bins and records tagged
    [inner].  A single increment at position 5 is dropped without a trace;
    at position -2 it lands in bin 2, counted from the end; two increments at
    position 3 raise numpy's [ValueError], which the [except] clause does not
    catch.  In no case at all does [update_occ] raise the exception that
    names the position and the increments. *)
Theorem out_of_range_write_unreported :
  let occ := replicate 4 0%Q in
  update_occ occ [5] ["inner"] [[1 # 2]%Q] = Ok occ
  /\ update_occ occ [-2] ["inner"] [[1 # 2]%Q] = Ok [0; 0; 1 # 2; 0]%Q
  /\ update_occ occ [3] ["inner"] [[1 # 2; 3 # 4]%Q]
     = Raise (ValueError shapes_not_broadcastable)
  /\ forall occ entry_bin rec_type incs pos occ_inc,
       update_occ occ entry_bin rec_type incs
       <> Raise (PyException pos occ_inc).
Proof.
  split; [reflexivity|]. split; [reflexivity|]. split; [reflexivity|].
  intros occ entry_bin rec_type incs pos occ_inc H.
  apply for_in_Raise in H as (i & t & _ & H).
  apply update_occ_body_Raise in H as [H|[why H]]; discriminate.
Qed.

(** ** The edge policy *)

(** C6 at the failing input.  The two fraction functions answer 1 for
    [edge_bins = 2], but [make_bydatetime] calls them with the literal
    [edge_bins=1]: its own [edge_bins] argument changes nothing, and a stay
    from 00:30 to 01:15 analysed with [edge_bins = 2] is still credited 1/2
    and 3/4 instead of 1 and 1. *)
Theorem whole_bin_policy_not_applied :
  (forall ts bin_size_minutes,
     in_bin_occ_frac ts bin_size_minutes 2 = Ok 1%Q
     /\ out_bin_occ_frac ts bin_size_minutes 2 = Ok 1%Q)
  /\ (forall bin_of_span stoprec_analysis_rltnshp start_analysis end_analysis
             bin_size_minutes stops_df catfield cat_to_exclude totals
             edge_bins,
        make_bydatetime bin_of_span stoprec_analysis_rltnshp start_analysis
          end_analysis bin_size_minutes stops_df catfield cat_to_exclude
          totals edge_bins
        = make_bydatetime bin_of_span stoprec_analysis_rltnshp start_analysis
            end_analysis bin_size_minutes stops_df catfield cat_to_exclude
            totals 1)
  /\ exists results m,
       HmlibSpec.make_bydatetime (at_time 0 0 0) (at_time 3 0 0) 60
         [mkStopRec (at_time 0 30 0) (at_time 1 15 0) "A"]
         (Some "PatientType") None 1 2 = Ok results
       /\ results !! "A" = Some m
       /\ Qred <$> occupancy m = [1 # 2; 3 # 4; 0; 0]%Q.
Proof.
  split; [done|]. split; [done|].
  eexists. eexists. split; [vm_compute; reflexivity|].
  split; vm_compute; reflexivity.
Qed.

(** ** Determinism *)



(** ** Increment sequences and edge fractions, in general *)

Lemma Qsum_replicate_one (n : nat) :
  (Qsum (replicate n 1%Q) == inject_Z (Z.of_nat n))%Q.
Proof.
  induction n as [|n IH]; [reflexivity|].
  rewrite Nat2Z.inj_succ. unfold Z.succ. rewrite inject_Z_plus.
  simpl. unfold Qsum in *. simpl. rewrite IH. apply Qplus_comm.
Qed.

(** The increment sequence of a stay covering [n_bins >= 2] bins has one
    credit per bin: the entry fraction first, the exit fraction last and
    whole bins between them.  A stay within one bin, and also a stay whose
    exit bin precedes its entry bin, gets the entry fraction alone: the exit
    fraction is not used. *)
Theorem make_occ_incs_shape (in_bin out_bin : Z) (in_frac out_frac : Q) :
  let incs := make_occ_incs in_bin out_bin in_frac out_frac in
  let n_bins := out_bin - in_bin + 1 in
  (n_bins <= 1 -> incs = [in_frac])
  /\ (2 <= n_bins ->
      Z.of_nat (length incs) = n_bins
      /\ incs !! 0%nat = Some in_frac
      /\ incs !! Z.to_nat (n_bins - 1) = Some out_frac
      /\ (forall k : nat, (0 < k < Z.to_nat (n_bins - 1))%nat ->
            incs !! k = Some 1%Q)
      /\ (Qsum incs == in_frac + out_frac + inject_Z (n_bins - 2))%Q).
Proof.
  intros incs n_bins. subst incs. unfold make_occ_incs. fold n_bins.
  split.
  - intros Hn. rewrite (proj2 (Z.ltb_ge 2 n_bins)) by lia.
    by rewrite (proj2 (Z.eqb_neq n_bins 2)) by lia.
  - intros Hn. destruct (2 <? n_bins) eqn:E.
    + apply Z.ltb_lt in E.
      assert (Z.to_nat (n_bins - 1) = S (Z.to_nat (n_bins - 2))) as -> by lia.
      split; [|split; [done|split; [|split]]].
      * simpl. rewrite length_app, length_replicate. simpl. lia.
      * simpl. rewrite lookup_app_r by (rewrite length_replicate; lia).
        rewrite length_replicate, Nat.sub_diag. done.
      * intros [|k] Hk; [lia|]. simpl.
        rewrite lookup_app_l by (rewrite length_replicate; lia).
        apply lookup_replicate_2. lia.
      * simpl. change (Qsum (in_frac :: ?l)) with (in_frac + Qsum l)%Q.
        rewrite Qsum_app, Qsum_replicate_one, Z2Nat.id by lia.
        unfold Qsum. simpl. ring.
    + apply Z.ltb_ge in E. assert (n_bins = 2) as Heq by lia.
      rewrite Heq. simpl. repeat split; try done.
      * intros k Hk. change (Z.to_nat 1) with 1%nat in Hk. lia.
      * unfold Qsum. simpl. change (inject_Z (2 - 2)) with 0%Q. ring.
Qed.

Lemma make_occ_incs_shape_witness :
  make_occ_incs 5 3 (1 # 4) (3 # 4) = [1 # 4]%Q
  /\ Z.of_nat (length (make_occ_incs 2 5 (1 # 4) (3 # 4))) = 4
  /\ (Qsum (make_occ_incs 2 5 (1 # 4) (3 # 4)) == (1 # 4) + (3 # 4) + 2)%Q.
Proof.
  split.
  - apply (make_occ_incs_shape 5 3 (1 # 4) (3 # 4)). lia.
  - destruct (make_occ_incs_shape 2 5 (1 # 4) (3 # 4)) as [_ H].
    destruct H as (Hlen & _ & _ & _ & Hsum); [lia|].
    split; [exact Hlen | exact Hsum].
Defined.

(** The two fractions of one timestamp are complementary: a stay that ends
    at an instant and a stay that begins at it share the bin of that
    instant without gap or overlap, the two fractions adding up to 1.  With
    [edge_bins = 1] a bin size of 0 makes both raise [ZeroDivisionError];
    with any other [edge_bins] both return 1, whatever the bin size. *)
Theorem edge_fractions_complementary (ts : Timestamp)
    (bin_size_minutes edge_bins : Z) :
  (edge_bins = 1 -> bin_size_minutes <> 0 ->
   exists fe fx,
     in_bin_occ_frac ts bin_size_minutes edge_bins = Ok fe
     /\ out_bin_occ_frac ts bin_size_minutes edge_bins = Ok fx
     /\ (fe + fx == 1)%Q)
  /\ (edge_bins = 1 -> bin_size_minutes = 0 ->
      in_bin_occ_frac ts bin_size_minutes edge_bins = Raise ZeroDivisionError
      /\ out_bin_occ_frac ts bin_size_minutes edge_bins
         = Raise ZeroDivisionError)
  /\ (edge_bins <> 1 ->
      in_bin_occ_frac ts bin_size_minutes edge_bins = Ok 1%Q
      /\ out_bin_occ_frac ts bin_size_minutes edge_bins = Ok 1%Q).
Proof.
  unfold in_bin_occ_frac, out_bin_occ_frac. split; [|split].
  - intros -> Hb. rewrite Z.eqb_refl, (proj2 (Z.eqb_neq _ _) Hb).
    eexists. eexists. split; [reflexivity|]. split; [reflexivity|].
    set (s := ts_minute ts * 60 + ts_second ts).
    unfold Zminus. rewrite inject_Z_plus, inject_Z_opp.
    field. intros H0. unfold Qeq in H0. simpl in H0. lia.
  - intros -> ->. done.
  - intros He. by rewrite (proj2 (Z.eqb_neq _ _) He).
Qed.

Lemma edge_fractions_complementary_witness :
  (exists fe fx,
     in_bin_occ_frac (at_time 7 45 30) 15 1 = Ok fe
     /\ out_bin_occ_frac (at_time 7 45 30) 15 1 = Ok fx
     /\ (fe + fx == 1)%Q)
  /\ in_bin_occ_frac (at_time 7 45 30) 0 1 = Raise ZeroDivisionError
  /\ in_bin_occ_frac (at_time 7 45 30) 0 2 = Ok 1%Q.
Proof.
  pose proof (edge_fractions_complementary (at_time 7 45 30) 15 1) as H15.
  pose proof (edge_fractions_complementary (at_time 7 45 30) 0 1) as H0.
  pose proof (edge_fractions_complementary (at_time 7 45 30) 0 2) as H2.
  split; [apply H15; [reflexivity | lia]|].
  split; [apply H0; reflexivity | apply H2; lia].
Defined.

(** For a positive bin size, both fractions lie in the unit interval at every
    timestamp exactly when the bin is at least an hour long: the functions
    measure the time since the full hour, not since the start of the bin. *)
Theorem edge_fractions_in_unit_interval (bin_size_minutes : Z) :
  0 < bin_size_minutes ->
  (60 <= bin_size_minutes <->
   forall ts : Timestamp, exists fe fx,
     in_bin_occ_frac ts bin_size_minutes 1 = Ok fe
     /\ out_bin_occ_frac ts bin_size_minutes 1 = Ok fx
     /\ (0 <= fe)%Q /\ (fe < 1)%Q /\ (0 < fx)%Q /\ (fx <= 1)%Q).
Proof.
  intros Hpos.
  assert (forall ts,
    in_bin_occ_frac ts bin_size_minutes 1
    = Ok (inject_Z ((ts / ns_per_second) mod 3600)
          / inject_Z (bin_size_minutes * 60))%Q
    /\ out_bin_occ_frac ts bin_size_minutes 1
       = Ok (inject_Z (bin_size_minutes * 60 - (ts / ns_per_second) mod 3600)
             / inject_Z (bin_size_minutes * 60))%Q) as Hval.
  { intros ts. unfold in_bin_occ_frac, out_bin_occ_frac. simpl.
    rewrite (proj2 (Z.eqb_neq bin_size_minutes 0)) by lia.
    by rewrite seconds_into_hour. }
  split.
  - intros Hb ts. destruct (Hval ts) as [-> ->].
    eexists. eexists. split; [reflexivity|]. split; [reflexivity|].
    pose proof (Z.mod_pos_bound (ts / ns_per_second) 3600 eq_refl) as Hs.
    set (s := (ts / ns_per_second) mod 3600) in *.
    assert (0 < inject_Z (bin_size_minutes * 60))%Q as Hd.
    { rewrite <- (Zlt_Qlt 0). lia. }
    repeat split.
    + apply Qle_shift_div_l; [done|]. rewrite Qmult_0_l, <- (Zle_Qle 0). lia.
    + apply Qlt_shift_div_r; [done|]. rewrite Qmult_1_l, <- Zlt_Qlt. lia.
    + apply Qlt_shift_div_l; [done|]. rewrite Qmult_0_l, <- (Zlt_Qlt 0). lia.
    + apply Qle_shift_div_r; [done|]. rewrite Qmult_1_l, <- Zle_Qle. lia.
  - intros H. destruct (H (at_time 0 59 59)) as (fe & fx & Hfe & _ & _ & Hlt & _).
    destruct (Hval (at_time 0 59 59)) as [Hin _]. rewrite Hin in Hfe.
    injection Hfe as <-.
    change ((at_time 0 59 59 / ns_per_second) mod 3600) with 3599 in Hlt.
    assert (0 < inject_Z (bin_size_minutes * 60))%Q as Hd.
    { rewrite <- (Zlt_Qlt 0). lia. }
    apply (Qmult_lt_r _ _ _ Hd) in Hlt.
    unfold Qdiv in Hlt. rewrite <- Qmult_assoc, (Qmult_comm (/ _)) in Hlt.
    rewrite Qmult_inv_r, Qmult_1_r, Qmult_1_l in Hlt.
    + rewrite <- Zlt_Qlt in Hlt. lia.
    + intros H0. rewrite H0 in Hd. by apply Qlt_irrefl in Hd.
Qed.

Lemma edge_fractions_in_unit_interval_witness :
  60 <= 120 <->
  forall ts : Timestamp, exists fe fx,
    in_bin_occ_frac ts 120 1 = Ok fe
    /\ out_bin_occ_frac ts 120 1 = Ok fx
    /\ (0 <= fe)%Q /\ (fe < 1)%Q /\ (0 < fx)%Q /\ (fx <= 1)%Q.
Proof. apply (edge_fractions_in_unit_interval 120). lia. Defined.

(** ** The counts of [update_occ_incs] *)

(** Induction over [for i in range(n)]. *)
Lemma for_range_ind {S} (P : nat -> S -> Prop) (body : nat -> S -> result S)
    (n : nat) (s s' : S) :
  P 0%nat s ->
  (forall i t t', (i < n)%nat -> P i t -> body i t = Ok t' -> P (Datatypes.S i) t') ->
  for_range n body s = Ok s' -> P n s'.
Proof.
  unfold for_range. intros H0 Hstep.
  assert (forall m a t,
            (a + m = n)%nat -> P a t -> for_in body (seq a m) t = Ok s' ->
            P n s') as Hgen.
  { induction m as [|m IH]; intros a t Ham Ht Hrun; simpl in Hrun.
    - injection Hrun as <-. by replace n with a by lia.
    - inv_bind Hrun as t' Ht'.
      apply (IH (Datatypes.S a) t'); [lia| |done].
      apply (Hstep a t); [lia|done|done]. }
  apply (Hgen n 0%nat s); [lia|done].
Qed.

Lemma for_in_Ok_each {A S} (body : A -> S -> result S) (xs : list A)
    (s s' : S) (x : A) :
  for_in body xs s = Ok s' -> x ∈ xs -> exists t t', body x t = Ok t'.
Proof.
  revert s. induction xs as [|y xs IH]; intros s H Hx; [by apply elem_of_nil in Hx|].
  simpl in H. inv_bind H as t Ht.
  apply elem_of_cons in Hx as [->|Hx]; [by exists s, t | by eapply IH].
Qed.

Lemma count_key_known (rt : string) :
  rt ∈ known_classes -> count_key rt = rt.
Proof. intros H. unfold count_key. by rewrite decide_True. Qed.

Lemma update_occ_incs_body_counts (rec_types : list string) (num_bins : Z)
    (i : nat) (s s' : clip_state) (rt : string) :
  update_occ_incs_body rec_types num_bins i s = Ok s' ->
  rec_types !! i = Some rt ->
  rectype_counts s' = count_up (count_key rt) (rectype_counts s).
Proof.
  intros H Hrt. unfold update_occ_incs_body in H.
  apply getitem_Ok in Hrt. rewrite Hrt in H. simpl in H.
  repeat case_decide; repeat inv_bind H; injection H as <-; simpl; subst;
    try (by rewrite count_key_known by (by apply (bool_decide_unpack _))).
  unfold count_key. rewrite decide_False; [done|].
  unfold known_classes. rewrite !elem_of_cons, elem_of_nil. tauto.
Qed.

Lemma sum_values_count_up (k : string) (d : gmap string nat) :
  sum_values (count_up k d) = Datatypes.S (sum_values d).
Proof.
  unfold sum_values, count_up.
  assert (forall (m : gmap string nat) (j1 j2 : string) (z1 z2 y : nat),
            j1 <> j2 -> m !! j1 = Some z1 -> m !! j2 = Some z2 ->
            (z1 + (z2 + y) = z2 + (z1 + y))%nat) as Hcomm by (intros; lia).
  destruct (d !! k) as [c|] eqn:Hk; simpl.
  - rewrite <- (insert_delete_eq d).
    rewrite map_fold_insert_L; [|by apply Hcomm|by apply lookup_delete_eq].
    rewrite <- (insert_delete_id d k c) at 2 by done.
    rewrite map_fold_insert_L; [|by apply Hcomm|by apply lookup_delete_eq].
    lia.
  - rewrite map_fold_insert_L; [lia|by apply Hcomm|done].
Qed.

Lemma tally_snoc (k : string) (l : list string) (rt : string) :
  tally k (l ++ [rt])
  = (tally k l + if decide (count_key rt = k) then 1 else 0)%nat.
Proof.
  unfold tally. rewrite filter_app, length_app. f_equal.
  rewrite filter_cons, filter_nil. by case_decide.
Qed.

(** The dict [update_occ_incs] returns: a class is a key exactly when some
    record carries it, its value is the number of those records, every tag
    without a branch of its own is counted under ['unknown'], and the values
    add up to the number of records. *)
Theorem rectype_counts_tally (in_bins0 out_bins0 : list Z)
    (incs0 : list (list Q)) (rec_types : list string) (num_bins : Z)
    (st : clip_state) :
  update_occ_incs in_bins0 out_bins0 incs0 rec_types num_bins = Ok st ->
  let seen := take (length in_bins0) rec_types in
  length seen = length in_bins0
  /\ (forall k,
        rectype_counts st !! k
        = if decide (tally k seen = 0%nat) then None else Some (tally k seen))
  /\ sum_values (rectype_counts st) = length in_bins0.
Proof.
  unfold update_occ_incs. intros Hrun.
  pose (P := fun (i : nat) (s : clip_state) =>
    length (take i rec_types) = i
    /\ (forall k,
          rectype_counts s !! k
          = if decide (tally k (take i rec_types) = 0%nat) then None
            else Some (tally k (take i rec_types)))
    /\ sum_values (rectype_counts s) = i).
  apply (for_range_ind P) in Hrun; [exact Hrun| |].
  - split; [by rewrite take_0|]. split; [|done].
    intros k. rewrite take_0. simpl. by rewrite lookup_empty.
  - intros i t t' Hi (Hlen & Hk & Hsum) Hbody.
    assert (exists rt, rec_types !! i = Some rt) as [rt Hrt].
    { unfold update_occ_incs_body in Hbody. inv_bind Hbody as rt Hrt.
      exists rt. by apply getitem_Ok. }
    unfold P.
    rewrite (update_occ_incs_body_counts _ _ _ _ _ _ Hbody Hrt).
    rewrite (take_S_r _ _ _ Hrt).
    split; [rewrite length_app, Hlen; simpl; lia|]. split.
    + intros k. rewrite tally_snoc. unfold count_up.
      destruct (decide (count_key rt = k)) as [<-|Hne].
      * rewrite lookup_insert_eq, Hk.
        destruct (decide (tally _ _ = 0%nat)) as [E|E]; simpl;
          (rewrite decide_False by lia); f_equal; lia.
      * rewrite lookup_insert_ne by done. rewrite Hk, Nat.add_0_r. done.
    + rewrite sum_values_count_up. lia.
Qed.

Lemma rectype_counts_tally_witness :
  exists st,
    update_occ_incs [0; -1; 2; 7] [1; 1; 5; 8] [[1]; [1; 1; 1]; [1]; [1]]%Q
      ["inner"; "left"; "inner"; "weird"] 4 = Ok st
    /\ rectype_counts st !! "inner" = Some 2%nat
    /\ rectype_counts st !! "unknown" = Some 1%nat
    /\ rectype_counts st !! "right" = None
    /\ sum_values (rectype_counts st) = 4%nat.
Proof.
  eexists. split; [reflexivity|].
  destruct (rectype_counts_tally [0; -1; 2; 7] [1; 1; 5; 8]
              [[1]; [1; 1; 1]; [1]; [1]]%Q
              ["inner"; "left"; "inner"; "weird"] 4 _ eq_refl)
    as (_ & Hk & Hsum).
  split; [exact (Hk "inner")|]. split; [exact (Hk "unknown")|].
  split; [exact (Hk "right") | exact Hsum].
Defined.

(** ** What the clipping keeps and what it raises *)

(** A slice is a contiguous segment of its sequence. *)
Lemma py_slice_segment {A} (l : list A) (start stop : option Z) :
  exists pre post, l = pre ++ py_slice l start stop ++ post.
Proof.
  unfold py_slice.
  match goal with
  | |- context [take ?k (drop ?a l)] =>
      exists (take a l), (drop k (drop a l))
  end.
  by rewrite !take_drop.
Qed.

(** [l[a:0]] and [l[a:-0]] are empty. *)
Lemma py_slice_upto_zero {A} (l : list A) (start : option Z) :
  py_slice l start (Some 0) = [].
Proof.
  unfold py_slice. simpl.
  assert (0 <= from_option (slice_index (Z.of_nat (length l))) 0 start) as Hlo.
  { destruct start as [a|]; simpl; [|lia].
    apply slice_index_bounds. lia. }
  unfold slice_index at 1. simpl.
  replace (Z.to_nat _) with 0%nat by lia. done.
Qed.

Lemma clip_record_segment (rt : string) (num_bins e x : Z) (inc : list Q)
    (e' x' : Z) (inc' : list Q) :
  clip_record rt num_bins (e, x, inc) = (e', x', inc') ->
  (exists pre post, inc = pre ++ inc' ++ post)
  /\ (e' = e \/ e' = 0) /\ (x' = x \/ x' = num_bins - 1)
  /\ (rt ∉ ["left"; "right"; "outer"] -> e' = e /\ x' = x /\ inc' = inc)
  /\ (rt = "left" -> e' = 0 /\ x' = x)
  /\ (rt = "right" -> e' = e /\ x' = num_bins - 1)
  /\ (rt = "outer" -> e' = 0 /\ x' = num_bins - 1).
Proof.
  unfold clip_record. intros H.
  repeat case_decide; injection H as <- <- <-; subst;
    (split; [first [apply py_slice_segment | by exists [], []; rewrite app_nil_r]|]);
    (split; [tauto|]); (split; [tauto|]);
    repeat split; try done;
    try (exfalso;
         match goal with
         | Hn : _ ∉ _ |- _ => apply Hn; apply (bool_decide_unpack _); exact I
         end).
Qed.

Lemma update_occ_incs_body_Raise (rec_types : list string) (num_bins : Z)
    (i : nat) (s : clip_state) (e : PyErr) :
  update_occ_incs_body rec_types num_bins i s = Raise e -> e = IndexError.
Proof.
  unfold update_occ_incs_body, getitem.
  destruct (rec_types !! i) as [rt|]; simpl; [|by intros [= <-]].
  destruct (in_bins s !! i) as [ei|]; destruct (out_bins s !! i) as [xi|];
    destruct (list_of_inc_arrays s !! i) as [inci|]; simpl;
    repeat case_decide; simpl; intros Hraise; by inversion Hraise.
Qed.

(** [update_occ_incs] trims and never invents: with argument arrays of one
    length it returns, the arrays keep their lengths, each increment
    sequence it leaves is a contiguous segment of the one it was given, an
    entry bin is kept or set to 0 and an exit bin kept or set to
    [num_bins - 1]; only records tagged [left], [right] or [outer] change at
    all, [left] keeping the exit bin and [right] the entry bin. *)
Theorem update_occ_incs_only_trims (in_bins0 out_bins0 : list Z)
    (incs0 : list (list Q)) (rec_types : list string) (num_bins : Z) :
  length out_bins0 = length in_bins0 ->
  length incs0 = length in_bins0 ->
  length rec_types = length in_bins0 ->
  exists st,
    update_occ_incs in_bins0 out_bins0 incs0 rec_types num_bins = Ok st
    /\ length (in_bins st) = length in_bins0
    /\ length (out_bins st) = length in_bins0
    /\ length (list_of_inc_arrays st) = length in_bins0
    /\ forall j e x inc rt,
         in_bins0 !! j = Some e -> out_bins0 !! j = Some x ->
         incs0 !! j = Some inc -> rec_types !! j = Some rt ->
         exists e' x' inc',
           in_bins st !! j = Some e' /\ out_bins st !! j = Some x'
           /\ list_of_inc_arrays st !! j = Some inc'
           /\ (exists pre post, inc = pre ++ inc' ++ post)
           /\ (e' = e \/ e' = 0) /\ (x' = x \/ x' = num_bins - 1)
           /\ (rt ∉ ["left"; "right"; "outer"] ->
               e' = e /\ x' = x /\ inc' = inc)
           /\ (rt = "left" -> e' = 0 /\ x' = x)
           /\ (rt = "right" -> e' = e /\ x' = num_bins - 1)
           /\ (rt = "outer" -> e' = 0 /\ x' = num_bins - 1).
Proof.
  intros Hout Hinc Hrt.
  destruct (update_occ_incs_spec in_bins0 out_bins0 incs0 rec_types num_bins
              Hout Hinc Hrt) as (st & Hst & (Hl1 & Hl2 & Hl3) & Hrec).
  exists st. split; [done|]. split; [done|]. split; [done|]. split; [done|].
  intros j e x inc rt He Hx Hi Hr.
  specialize (Hrec j e x inc rt He Hx Hi Hr).
  destruct (clip_record rt num_bins (e, x, inc)) as [[e' x'] inc'] eqn:Hclip.
  apply rec_at_Some in Hrec as (He' & Hx' & Hi').
  exists e', x', inc'. split; [done|]. split; [done|]. split; [done|].
  by eapply clip_record_segment.
Qed.

Lemma update_occ_incs_only_trims_witness :
  exists st,
    update_occ_incs [-2; 1] [1; 2] [[1 # 2; 1; 1; 3 # 4]; [1 # 4; 1 # 3]]%Q
      ["left"; "inner"] 4 = Ok st
    /\ length (list_of_inc_arrays st) = 2%nat
    /\ exists e' x' inc',
         in_bins st !! 0%nat = Some e' /\ out_bins st !! 0%nat = Some x'
         /\ list_of_inc_arrays st !! 0%nat = Some inc'
         /\ (exists pre post, [1 # 2; 1; 1; 3 # 4]%Q = pre ++ inc' ++ post)
         /\ e' = 0 /\ x' = 1.
Proof.
  destruct (update_occ_incs_only_trims [-2; 1] [1; 2]
              [[1 # 2; 1; 1; 3 # 4]; [1 # 4; 1 # 3]]%Q ["left"; "inner"] 4
              eq_refl eq_refl eq_refl)
    as (st & Hst & _ & _ & Hlen & Hrec).
  exists st. split; [exact Hst|]. split; [exact Hlen|].
  destruct (Hrec 0%nat (-2) 1 [1 # 2; 1; 1; 3 # 4]%Q "left"
              eq_refl eq_refl eq_refl eq_refl)
    as (e' & x' & inc' & He & Hx & Hi & Hseg & _ & _ & _ & Hleft & _).
  exists e', x', inc'.
  split; [exact He|]. split; [exact Hx|]. split; [exact Hi|].
  split; [exact Hseg|]. exact (Hleft eq_refl).
Defined.

(** The only exception [update_occ_incs] raises is the [IndexError] of an
    argument array that is too short, and it does raise it whenever
    [rec_types] has fewer entries than [in_bins]. *)
Theorem update_occ_incs_raises_IndexError (in_bins0 out_bins0 : list Z)
    (incs0 : list (list Q)) (rec_types : list string) (num_bins : Z) :
  (forall e,
     update_occ_incs in_bins0 out_bins0 incs0 rec_types num_bins = Raise e ->
     e = IndexError)
  /\ ((length rec_types < length in_bins0)%nat ->
      update_occ_incs in_bins0 out_bins0 incs0 rec_types num_bins
      = Raise IndexError).
Proof.
  assert (forall e,
    update_occ_incs in_bins0 out_bins0 incs0 rec_types num_bins = Raise e ->
    e = IndexError) as Honly.
  { intros e H. apply for_in_Raise in H as (i & t & _ & H).
    by eapply update_occ_incs_body_Raise. }
  split; [exact Honly|]. intros Hshort.
  destruct (update_occ_incs in_bins0 out_bins0 incs0 rec_types num_bins)
    as [st|e] eqn:Hrun; [|by rewrite (Honly e eq_refl)].
  exfalso. unfold update_occ_incs, for_range in Hrun.
  destruct (for_in_Ok_each _ _ _ _ (length rec_types) Hrun) as (t & t' & Hb).
  { apply elem_of_seq. lia. }
  unfold update_occ_incs_body in Hb. inv_bind Hb as rt Hrt.
  apply getitem_Ok, lookup_lt_Some in Hrt. lia.
Qed.

Lemma update_occ_incs_raises_IndexError_witness :
  update_occ_incs [0; 1] [1; 2] [[1]; [1]]%Q ["inner"] 4 = Raise IndexError.
Proof.
  apply (update_occ_incs_raises_IndexError [0; 1] [1; 2] [[1]; [1]]%Q
           ["inner"] 4).
  simpl. lia.
Defined.

(** ** A clipping shift of zero *)

Lemma slice_iadd_empty (occ : list Q) (pos : Z) :
  slice_iadd occ pos (pos + Z.of_nat (length (@nil Q))) [] = Ok occ.
Proof.
  unfold slice_iadd. simpl. rewrite Z.add_0_r, Z.sub_diag. simpl.
  by rewrite Nat.add_0_r, take_drop.
Qed.

(** A record tagged [right] or [outer] whose exit bin is already the last
    bin of the window has a shift of 0, and [[:-0]] keeps nothing: its
    increment sequence becomes empty, and [update_occ] then adds nothing to
    any bin for it. *)
Theorem zero_shift_drops_record (in_bins0 out_bins0 : list Z)
    (incs0 : list (list Q)) (rec_types : list string) (num_bins : Z)
    (i : nat) (rt : string) :
  length out_bins0 = length in_bins0 ->
  length incs0 = length in_bins0 ->
  length rec_types = length in_bins0 ->
  rec_types !! i = Some rt -> rt = "right" \/ rt = "outer" ->
  out_bins0 !! i = Some (num_bins - 1) ->
  exists st,
    update_occ_incs in_bins0 out_bins0 incs0 rec_types num_bins = Ok st
    /\ list_of_inc_arrays st !! i = Some []
    /\ forall occ,
         update_occ_body (in_bins st) rec_types (list_of_inc_arrays st) i occ
         = Ok occ.
Proof.
  intros Hout Hinc Hrt Hr Hcls Hx.
  destruct (update_occ_incs_spec in_bins0 out_bins0 incs0 rec_types num_bins
              Hout Hinc Hrt) as (st & Hst & _ & Hrec).
  destruct (lookup_lt_is_Some_2 in_bins0 i) as [e He].
  { apply lookup_lt_Some in Hx. lia. }
  destruct (lookup_lt_is_Some_2 incs0 i) as [inc Hi].
  { apply lookup_lt_Some in Hx. lia. }
  specialize (Hrec i e (num_bins - 1) inc rt He Hx Hi Hr).
  assert (exists e', rec_at st i = Some (e', num_bins - 1, [])) as [e' Hat].
  { rewrite Hrec. unfold clip_record.
    replace (- (num_bins - 1 - (num_bins - 1))) with 0 by lia.
    destruct Hcls as [-> | ->]; simpl; rewrite py_slice_upto_zero;
      by eexists. }
  apply rec_at_Some in Hat as (He' & _ & Hi').
  exists st. split; [done|]. split; [done|].
  intros occ. unfold update_occ_body.
  apply getitem_Ok in Hr, He', Hi'. rewrite Hr. simpl.
  rewrite decide_True
    by (destruct Hcls as [-> | ->]; by apply (bool_decide_unpack _)).
  rewrite He', Hi'. simpl. by rewrite slice_iadd_empty.
Qed.

Lemma zero_shift_drops_record_witness :
  exists st,
    update_occ_incs [2] [3] [[1 # 2; 3 # 4]]%Q ["right"] 4 = Ok st
    /\ list_of_inc_arrays st !! 0%nat = Some []
    /\ forall occ,
         update_occ_body (in_bins st) ["right"] (list_of_inc_arrays st) 0 occ
         = Ok occ.
Proof.
  apply (zero_shift_drops_record [2] [3] [[1 # 2; 3 # 4]]%Q ["right"] 4
           0%nat "right"); try reflexivity.
  by left.
Defined.

(** ** Occupancy bin by bin *)

Lemma slice_iadd_credit (occ inc : list Q) (pos : Z) :
  0 <= pos -> pos + Z.of_nat (length inc) <= Z.of_nat (length occ) ->
  exists occ',
    slice_iadd occ pos (pos + Z.of_nat (length inc)) inc = Ok occ'
    /\ forall b,
         (default 0 (occ' !! b)
          == default 0 (occ !! b) + credit_at pos inc b)%Q.
Proof.
  intros Hpos Hend. unfold slice_iadd, slice_index.
  destruct (pos <? 0) eqn:E1; [lia|].
  destruct (pos + Z.of_nat (length inc) <? 0) eqn:E2; [lia|].
  rewrite !Z.min_l by lia.
  replace (Z.to_nat (pos + Z.of_nat (length inc) - pos)) with (length inc)
    by lia.
  rewrite decide_True by done.
  eexists. split; [reflexivity|].
  intros b. unfold credit_at.
  set (a := Z.to_nat pos). set (k := length inc).
  destruct (decide (b < a)%nat) as [Hlt|Hge].
  - rewrite lookup_app_l by (rewrite length_take; lia).
    rewrite lookup_take_lt by done.
    rewrite decide_False by lia. by rewrite Qplus_0_r.
  - rewrite decide_True by lia.
    replace (Z.to_nat (Z.of_nat b - pos)) with (b - a)%nat by lia.
    rewrite lookup_app_r by (rewrite length_take; lia).
    rewrite length_take, Nat.min_l by lia.
    assert (length (zip_with Qplus (take k (drop a occ)) inc) = k) as Hz.
    { rewrite length_zip_with, length_take, length_drop. lia. }
    destruct (decide (b - a < k)%nat) as [Hin|Hout].
    + rewrite lookup_app_l by (rewrite Hz; lia).
      rewrite lookup_zip_with, lookup_take_lt, lookup_drop by done.
      replace (a + (b - a))%nat with b by lia.
      destruct (lookup_lt_is_Some_2 occ b) as [v ->]; [lia|].
      destruct (lookup_lt_is_Some_2 inc (b - a)) as [w ->]; [done|].
      simpl. reflexivity.
    + rewrite lookup_app_r by (rewrite Hz; lia).
      rewrite Hz, lookup_drop.
      replace (a + k + (b - a - k))%nat with b by lia.
      rewrite (lookup_ge_None_2 inc) by lia. simpl. by rewrite Qplus_0_r.
Qed.

Lemma update_occ_body_credit (entry_bin : list Z) (rec_type : list string)
    (incs : list (list Q)) (i : nat) (occ : list Q) :
  (i < length entry_bin)%nat ->
  length rec_type = length entry_bin -> length incs = length entry_bin ->
  writes_in_range (length occ) entry_bin rec_type incs ->
  exists occ',
    update_occ_body entry_bin rec_type incs i occ = Ok occ'
    /\ forall b,
         (default 0 (occ' !! b)
          == default 0 (occ !! b)
             + record_credit entry_bin rec_type incs i b)%Q.
Proof.
  intros Hi Hr Hinc Hrange. unfold update_occ_body, record_credit.
  destruct (getitem_lt rec_type i) as (rt & -> & Hrt); [lia|].
  destruct (getitem_lt entry_bin i) as (pos & -> & Hp); [lia|].
  destruct (getitem_lt incs i) as (inc & -> & Hi0); [lia|].
  rewrite Hrt, Hp, Hi0. simpl. case_decide as Hcls.
  - destruct (Hrange i rt pos inc Hrt Hcls Hp Hi0) as [H0 Hend].
    destruct (slice_iadd_credit occ inc pos H0 Hend) as (occ' & -> & Hb).
    by exists occ'.
  - exists occ. split; [done|]. intros b. by rewrite Qplus_0_r.
Qed.

Lemma update_occ_credits_loop (entry_bin : list Z) (rec_type : list string)
    (incs : list (list Q)) (len : nat) (idx : list nat) (occ : list Q) :
  length rec_type = length entry_bin -> length incs = length entry_bin ->
  writes_in_range len entry_bin rec_type incs ->
  Forall (fun i => (i < length entry_bin)%nat) idx ->
  length occ = len ->
  exists occ',
    for_in (update_occ_body entry_bin rec_type incs) idx occ = Ok occ'
    /\ length occ' = len
    /\ forall b,
         (default 0 (occ' !! b)
          == default 0 (occ !! b)
             + Qsum ((fun i => record_credit entry_bin rec_type incs i b)
                       <$> idx))%Q.
Proof.
  intros Hr Hinc Hrange Hidx. revert occ.
  induction Hidx as [|i idx Hi Hidx IH]; intros occ Hlen.
  - exists occ. split; [done|]. split; [done|]. intros b.
    change (Qsum (_ <$> [])) with 0%Q. by rewrite Qplus_0_r.
  - destruct (update_occ_body_credit entry_bin rec_type incs i occ)
      as (occ1 & Hbody & Hb1); [done|done|done|by rewrite Hlen|].
    destruct (IH occ1) as (occ' & Hrun & Hlen' & Hb').
    { rewrite <- Hlen. by eapply update_occ_body_length. }
    exists occ'. simpl. rewrite Hbody. simpl. split; [done|]. split; [done|].
    intros b. rewrite Hb', Hb1. symmetry. apply Qplus_assoc.
Qed.

(** Occupancy bin by bin.  When the argument arrays have one length and
    every accumulated record writes inside the array, [update_occ] returns,
    keeps the length of [occ], and has added to every bin the credits of the
    records that cover it: the element of a record's increment array at
    offset [b - entry_bin[i]], for the four accumulated classes only. *)
Theorem update_occ_bin_by_bin (occ : list Q) (entry_bin : list Z)
    (rec_type : list string) (incs : list (list Q)) :
  length rec_type = length entry_bin -> length incs = length entry_bin ->
  writes_in_range (length occ) entry_bin rec_type incs ->
  exists occ',
    update_occ occ entry_bin rec_type incs = Ok occ'
    /\ length occ' = length occ
    /\ forall b,
         (default 0 (occ' !! b)
          == default 0 (occ !! b)
             + Qsum ((fun i => record_credit entry_bin rec_type incs i b)
                       <$> seq 0 (length entry_bin)))%Q.
Proof.
  intros Hr Hinc Hrange. unfold update_occ, for_range.
  apply update_occ_credits_loop; try done.
  apply Forall_forall. intros i Hi%elem_of_seq. lia.
Qed.

Lemma update_occ_bin_by_bin_witness :
  exists occ',
    update_occ [1 # 4; 0; 0; 0]%Q [0; 1; 7] ["inner"; "left"; "none"]
      [[1 # 2; 3 # 4]; [1; 1 # 3]; [1]]%Q = Ok occ'
    /\ length occ' = 4%nat
    /\ (default 0 (occ' !! 1%nat) == 0 + ((3 # 4) + (1 + (0 + 0))))%Q.
Proof.
  destruct (update_occ_bin_by_bin [1 # 4; 0; 0; 0]%Q [0; 1; 7]
              ["inner"; "left"; "none"] [[1 # 2; 3 # 4]; [1; 1 # 3]; [1]]%Q
              eq_refl eq_refl)
    as (occ' & Hrun & Hlen & Hb).
  - intros [|[|[|i]]] rt pos inc Hrt Hcls Hp Hi; simpl in *;
      try discriminate.
    + injection Hp as <-. injection Hi as <-. simpl. lia.
    + injection Hp as <-. injection Hi as <-. simpl. lia.
    + injection Hrt as <-. exfalso. revert Hcls.
      apply (bool_decide_unpack (_ ∉ occ_classes)). exact I.
  - exists occ'. split; [exact Hrun|]. split; [exact Hlen|]. exact (Hb 1%nat).
Defined.

(** ** Batches and order of the records *)

Lemma for_in_app {A S} (body : A -> S -> result S) (xs ys : list A) (s : S) :
  for_in body (xs ++ ys) s = s' ← for_in body xs s; for_in body ys s'.
Proof.
  revert s. induction xs as [|x xs IH]; intros s; simpl; [done|].
  destruct (body x s) as [t|e]; simpl; [apply IH | done].
Qed.

Lemma for_in_ext {A S} (f g : A -> S -> result S) (xs : list A) (s : S) :
  (forall x t, x ∈ xs -> f x t = g x t) -> for_in f xs s = for_in g xs s.
Proof.
  revert s. induction xs as [|x xs IH]; intros s Hfg; simpl; [done|].
  rewrite Hfg by (by left). destruct (g x s) as [t|e]; simpl; [|done].
  apply IH. intros y u Hy. apply Hfg. by right.
Qed.

Lemma for_in_fmap {A B S} (h : A -> B) (body : B -> S -> result S)
    (xs : list A) (s : S) :
  for_in body (h <$> xs) s = for_in (fun x => body (h x)) xs s.
Proof.
  revert s. induction xs as [|x xs IH]; intros s; simpl; [done|].
  destruct (body (h x) s) as [t|e]; simpl; [apply IH | done].
Qed.

(** Records can be processed in batches: [update_occ] on concatenated
    argument arrays does what two calls in sequence do, the second on the
    array the first has updated, and it ends in the same exception when one
    of them raises. *)
Theorem update_occ_app (occ : list Q) (entry_bin1 entry_bin2 : list Z)
    (rec_type1 rec_type2 : list string) (incs1 incs2 : list (list Q)) :
  length rec_type1 = length entry_bin1 ->
  length incs1 = length entry_bin1 ->
  update_occ occ (entry_bin1 ++ entry_bin2) (rec_type1 ++ rec_type2)
    (incs1 ++ incs2)
  = occ1 ← update_occ occ entry_bin1 rec_type1 incs1;
    update_occ occ1 entry_bin2 rec_type2 incs2.
Proof.
  intros Hr Hi. unfold update_occ, for_range.
  rewrite length_app, seq_app, for_in_app. simpl.
  rewrite (for_in_ext _ (update_occ_body entry_bin1 rec_type1 incs1)).
  2:{ intros i t Hin%elem_of_seq. unfold update_occ_body, getitem.
      by rewrite !lookup_app_l by lia. }
  destruct (for_in _ (seq 0 (length entry_bin1)) occ) as [occ1|e]; simpl;
    [|done].
  replace (seq (length entry_bin1) (length entry_bin2))
    with ((fun j => length entry_bin1 + j)%nat <$> seq 0 (length entry_bin2))
    by (rewrite fmap_add_seq; f_equal; lia).
  rewrite for_in_fmap. apply for_in_ext.
  intros j t _. unfold update_occ_body, getitem.
  rewrite !lookup_app_r by lia.
  rewrite Hr, Hi. by replace (length entry_bin1 + j - length entry_bin1)%nat
    with j by lia.
Qed.

Lemma update_occ_app_witness :
  update_occ [0; 0; 0]%Q ([0] ++ [1; 2]) (["inner"] ++ ["inner"; "inner"])
    ([[1 # 2; 1 # 3]] ++ [[1 # 4]; [1; 1]])%Q
  = occ1 ← update_occ [0; 0; 0]%Q [0] ["inner"] [[1 # 2; 1 # 3]]%Q;
    update_occ occ1 [1; 2] ["inner"; "inner"] [[1 # 4]; [1; 1]]%Q.
Proof.
  apply (update_occ_app [0; 0; 0]%Q [0] [1; 2] ["inner"] ["inner"; "inner"]
           [[1 # 2; 1 # 3]]%Q [[1 # 4]; [1; 1]]%Q); reflexivity.
Defined.

Lemma Qsum_Permutation (l l' : list Q) : l ≡ₚ l' -> (Qsum l == Qsum l')%Q.
Proof.
  induction 1 as [|x l l' _ IH|x y l|l l' l'' _ IH1 _ IH2].
  - reflexivity.
  - unfold Qsum in *. simpl. by rewrite IH.
  - unfold Qsum. simpl. ring.
  - by rewrite IH1.
Qed.

Lemma record_credit_of (recs : list (Z * string * list Q)) (b : nat) :
  (fun i => record_credit ((fun r => r.1.1) <$> recs)
              ((fun r => r.1.2) <$> recs) ((fun r => r.2) <$> recs) i b)
    <$> seq 0 (length recs)
  = (fun r => credit_of r b) <$> recs.
Proof.
  apply list_eq. intros i. rewrite !list_lookup_fmap.
  destruct (decide (i < length recs)%nat) as [Hi|Hi].
  - rewrite lookup_seq_lt by done. simpl.
    destruct (lookup_lt_is_Some_2 recs i Hi) as [[[pos rt] inc] Hrec].
    rewrite Hrec. simpl. unfold record_credit.
    by rewrite !list_lookup_fmap, Hrec.
  - rewrite lookup_seq_ge by lia. by rewrite lookup_ge_None_2 by lia.
Qed.

Lemma records_in_range (len : nat) (recs : list (Z * string * list Q)) :
  (forall pos rt inc,
     (pos, rt, inc) ∈ recs -> rt ∈ occ_classes ->
     0 <= pos /\ pos + Z.of_nat (length inc) <= Z.of_nat len) ->
  writes_in_range len ((fun r => r.1.1) <$> recs)
    ((fun r => r.1.2) <$> recs) ((fun r => r.2) <$> recs).
Proof.
  intros H i rt pos inc Hrt Hcls Hp Hi.
  rewrite list_lookup_fmap in Hrt. rewrite list_lookup_fmap in Hp.
  rewrite list_lookup_fmap in Hi.
  destruct (recs !! i) as [[[pos' rt'] inc']|] eqn:Hrec; [|done].
  simpl in *. injection Hrt as <-. injection Hp as <-. injection Hi as <-.
  apply (H pos' rt' inc'); [by eapply list_elem_of_lookup_2 | done].
Qed.

(** The occupancy does not depend on the order of the records: when every
    accumulated record writes inside the array, [update_occ] on the records
    in any other order returns an array with the same value in every bin (in
    exact arithmetic). *)
Theorem update_occ_order_independent (occ : list Q)
    (recs recs' : list (Z * string * list Q)) :
  recs ≡ₚ recs' ->
  (forall pos rt inc,
     (pos, rt, inc) ∈ recs -> rt ∈ occ_classes ->
     0 <= pos /\ pos + Z.of_nat (length inc) <= Z.of_nat (length occ)) ->
  exists occ1 occ2,
    update_occ occ ((fun r => r.1.1) <$> recs) ((fun r => r.1.2) <$> recs)
      ((fun r => r.2) <$> recs) = Ok occ1
    /\ update_occ occ ((fun r => r.1.1) <$> recs')
         ((fun r => r.1.2) <$> recs') ((fun r => r.2) <$> recs') = Ok occ2
    /\ length occ1 = length occ2
    /\ forall b, (default 0 (occ1 !! b) == default 0 (occ2 !! b))%Q.
Proof.
  intros Hperm Hrange.
  destruct (update_occ_credits_loop ((fun r => r.1.1) <$> recs)
              ((fun r => r.1.2) <$> recs) ((fun r => r.2) <$> recs)
              (length occ) (seq 0 (length recs)) occ)
    as (occ1 & Hrun1 & Hlen1 & Hb1);
    [by rewrite !length_fmap | by rewrite !length_fmap
     | by apply records_in_range
     | apply Forall_forall; intros i Hi%elem_of_seq;
       rewrite length_fmap; lia
     | done |].
  destruct (update_occ_credits_loop ((fun r => r.1.1) <$> recs')
              ((fun r => r.1.2) <$> recs') ((fun r => r.2) <$> recs')
              (length occ) (seq 0 (length recs')) occ)
    as (occ2 & Hrun2 & Hlen2 & Hb2);
    [by rewrite !length_fmap | by rewrite !length_fmap
     | apply records_in_range; intros pos rt inc Hin; apply Hrange;
       by rewrite Hperm
     | apply Forall_forall; intros i Hi%elem_of_seq;
       rewrite length_fmap; lia
     | done |].
  exists occ1, occ2. unfold update_occ, for_range.
  rewrite !length_fmap. split; [done|]. split; [done|].
  split; [congruence|]. intros b.
  rewrite Hb1, Hb2, !record_credit_of.
  apply Qplus_inj_l. apply Qsum_Permutation. by apply fmap_Permutation.
Qed.

Lemma update_occ_order_independent_witness :
  exists occ1 occ2,
    update_occ [0; 0; 0]%Q [0; 1] ["inner"; "right"]
      [[1 # 2; 1 # 3]; [1 # 4]]%Q = Ok occ1
    /\ update_occ [0; 0; 0]%Q [1; 0] ["right"; "inner"]
         [[1 # 4]; [1 # 2; 1 # 3]]%Q = Ok occ2
    /\ length occ1 = length occ2
    /\ forall b, (default 0 (occ1 !! b) == default 0 (occ2 !! b))%Q.
Proof.
  apply (update_occ_order_independent [0; 0; 0]%Q
           [(0, "inner", [1 # 2; 1 # 3]%Q); (1, "right", [1 # 4]%Q)]
           [(1, "right", [1 # 4]%Q); (0, "inner", [1 # 2; 1 # 3]%Q)]).
  - apply perm_swap.
  - intros pos rt inc Hin _.
    apply elem_of_cons in Hin as [Hin|Hin]; [injection Hin as -> -> ->; simpl; lia|].
    apply elem_of_cons in Hin as [Hin|Hin]; [injection Hin as -> -> ->; simpl; lia|].
    by apply elem_of_nil in Hin.
Defined.

(** ** The engine: categories, exclusions and counts *)

Lemma filter_ext_in {A} (P1 P2 : A -> Prop) `{!forall x, Decision (P1 x)}
    `{!forall x, Decision (P2 x)} (l : list A) :
  (forall x, x ∈ l -> P1 x <-> P2 x) -> filter P1 l = filter P2 l.
Proof.
  induction l as [|x l IH]; intros Hext; [done|].
  rewrite !filter_cons.
  rewrite IH by (intros y Hy; apply Hext; by right).
  destruct (decide (P1 x)) as [Hp1|Hp1];
    destruct (decide (P2 x)) as [Hp2|Hp2];
    try done; exfalso; [apply Hp2 | apply Hp1];
    by apply (Hext x); [left|].
Qed.

Lemma elem_of_unique (l : list string) (x : string) : x ∈ unique l <-> x ∈ l.
Proof.
  split; [apply unique_from_subset|].
  intros Hx. apply unique_from_complete; [done | by intros ?%elem_of_nil].
Qed.

Lemma elem_of_categories_of (stops_df : list StopRec)
    (cat_to_exclude : option (list string)) (c : string) :
  c ∈ categories_of stops_df cat_to_exclude
  <-> (exists r, r ∈ stops_df /\ Cat r = c)
      /\ forall excl, cat_to_exclude = Some excl -> c ∉ excl.
Proof.
  assert (c ∈ Cat <$> stops_df <-> exists r, r ∈ stops_df /\ Cat r = c) as Hf.
  { rewrite list_elem_of_fmap. split; intros (r & H1 & H2); by exists r. }
  unfold categories_of. destruct cat_to_exclude as [excl|].
  - rewrite list_elem_of_filter, elem_of_unique, Hf. split.
    + intros [Hn Hr]. split; [done|]. by intros ? [= <-].
    + intros [Hr Hn]. split; [by apply Hn | done].
  - rewrite elem_of_unique, Hf. split; [|by intros [? _]].
    intros Hr. split; [done|]. by intros ? [=].
Qed.

(** Elements outside [P] that were seen do not change what [P] keeps. *)
Lemma filter_unique_from_seen (P : string -> Prop)
    `{!forall x, Decision (P x)} (seen seen' l : list string) :
  (forall y, P y -> y ∈ seen <-> y ∈ seen') ->
  filter P (unique_from seen l) = filter P (unique_from seen' l).
Proof.
  revert seen seen'. induction l as [|x l IH]; intros seen seen' Hs; [done|].
  simpl. destruct (decide (P x)) as [Hx|Hx].
  - destruct (decide (x ∈ seen)) as [Hin|Hin].
    + rewrite decide_True by (by apply Hs). by apply IH.
    + rewrite decide_False by (by rewrite <- Hs). rewrite !filter_cons.
      rewrite !decide_True by done. f_equal. apply IH.
      intros y Hy. rewrite !elem_of_cons. by rewrite Hs.
  - assert (forall s, filter P (if decide (x ∈ s) then unique_from s l
                                else x :: unique_from (x :: s) l)
                      = filter P (unique_from s l)) as Hdrop.
    { intros s. case_decide; [done|]. rewrite filter_cons, decide_False by done.
      apply IH. intros y Hy. rewrite elem_of_cons. split; [|by right].
      intros [->|?]; [done|done]. }
    rewrite !Hdrop. by apply IH.
Qed.

Lemma unique_from_filter (P : string -> Prop) `{!forall x, Decision (P x)}
    (seen l : list string) :
  unique_from seen (filter P l) = filter P (unique_from seen l).
Proof.
  revert seen. induction l as [|x l IH]; intros seen; [done|].
  rewrite filter_cons. simpl. destruct (decide (P x)) as [Hx|Hx].
  - simpl. case_decide; [apply IH|].
    rewrite filter_cons, decide_True by done. f_equal. apply IH.
  - rewrite IH. case_decide; [done|].
    rewrite filter_cons, decide_False by done.
    apply filter_unique_from_seen. intros y Hy. rewrite elem_of_cons.
    split; [by right|]. intros [->|?]; done.
Qed.

Lemma fmap_Cat_filter (P : string -> Prop) `{!forall x, Decision (P x)}
    (l : list StopRec) :
  Cat <$> filter (fun r => P (Cat r)) l = filter P (Cat <$> l).
Proof.
  induction l as [|r l IH]; [done|].
  rewrite fmap_cons, !filter_cons. case_decide; [|done].
  by rewrite fmap_cons, IH.
Qed.

Lemma update_occ_incs_body_lengths (rec_types : list string) (num_bins : Z)
    (i : nat) (s s' : clip_state) :
  update_occ_incs_body rec_types num_bins i s = Ok s' ->
  length (in_bins s') = length (in_bins s)
  /\ length (out_bins s') = length (out_bins s).
Proof.
  intros H. unfold update_occ_incs_body in H. inv_bind H.
  repeat case_decide; repeat inv_bind H; injection H as <-; simpl;
    by rewrite ?length_insert.
Qed.

Lemma update_occ_incs_lengths (in_bins0 out_bins0 : list Z)
    (incs0 : list (list Q)) (rec_types : list string) (num_bins : Z)
    (st : clip_state) :
  update_occ_incs in_bins0 out_bins0 incs0 rec_types num_bins = Ok st ->
  length (in_bins st) = length in_bins0
  /\ length (out_bins st) = length out_bins0.
Proof.
  unfold update_occ_incs, for_range.
  apply (for_in_invariant
           (fun s => length (in_bins s) = length in_bins0
                     /\ length (out_bins s) = length out_bins0)); [|done].
  intros i t t' _ [H1 H2] Hbody.
  apply update_occ_incs_body_lengths in Hbody as [-> ->]. done.
Qed.

(** ** Records inside the window *)

Lemma map_result_total {A B} (f : A -> result B) (xs : list A) :
  (forall x, x ∈ xs -> exists y, f x = Ok y) ->
  exists ys, map_result f xs = Ok ys.
Proof.
  induction xs as [|x xs IH]; intros Hf; [by exists []|].
  destruct (Hf x) as [y Hy]; [by left|].
  destruct IH as [ys Hys]; [intros z Hz; apply Hf; by right|].
  exists (y :: ys). simpl. by rewrite Hy, Hys.
Qed.

Lemma foldr_max_le (x : list Z) (m : Z) :
  -1 <= m -> Forall (fun v => v <= m) x -> foldr Z.max (-1) x <= m.
Proof.
  intros Hm. induction 1 as [|v x Hv _ IH]; simpl; lia.
Qed.

(** [np.bincount] of values inside [0 .. n-1] returns [n] cells. *)
Lemma np_bincount_in_range (x : list Z) (n : Z) :
  0 <= n -> Forall (fun v => 0 <= v < n) x ->
  exists arr, np_bincount x n = Ok arr /\ length arr = Z.to_nat n.
Proof.
  intros Hn Hx. unfold np_bincount. rewrite decide_False.
  - eexists. split; [reflexivity|]. rewrite length_fmap, length_seq.
    assert (foldr Z.max (-1) x <= n - 1) as Hmax.
    { apply foldr_max_le; [lia|]. eapply Forall_impl; [exact Hx|].
      simpl. intros v ?. lia. }
    lia.
  - intros (v & Hv & Hneg)%Exists_exists.
    rewrite Forall_forall in Hx. specialize (Hx v Hv). lia.
Qed.

Section EngineLaws.

Variable bin_of_span : Timestamp -> Timestamp -> Z -> result Z.
Variable stoprec_analysis_rltnshp :
  Timestamp -> Timestamp -> Timestamp -> Timestamp -> string.
Variables start_analysis end_analysis : Timestamp.
Variable bin_size_minutes : Z.

Local Abbreviation engine :=
  (make_bydatetime bin_of_span stoprec_analysis_rltnshp
     start_analysis end_analysis bin_size_minutes).
Local Abbreviation num_bins_of_window :=
  (analysis_num_bins bin_of_span start_analysis end_analysis
     bin_size_minutes).

(** With nothing to analyse the engine still answers.  If a category field
    is given and every record's category is excluded (in particular if
    there is no record), the result is the totals entry alone, all zeros;
    without a category field and without records it is the empty dict.
    The window is still evaluated: an exception of [bin_of_span] is passed
    on, and a negative bin count is rejected by [np.zeros] when the totals
    are built. *)
Theorem make_bydatetime_nothing_to_analyze (stops_df : list StopRec)
    (field : string) (excl : list string)
    (cat_to_exclude : option (list string)) (totals edge_bins : Z) :
  ((forall r, r ∈ stops_df -> Cat r ∈ excl) ->
   engine stops_df (Some field) (Some excl) totals edge_bins
   = num_bins ← num_bins_of_window;
     zero ← np_zeros3 num_bins;
     Ok {[ totals_key := zero ]})
  /\ engine [] (Some field) cat_to_exclude totals edge_bins
     = (num_bins ← num_bins_of_window;
        zero ← np_zeros3 num_bins;
        Ok {[ totals_key := zero ]})
  /\ engine [] None cat_to_exclude totals edge_bins
     = (num_bins ← num_bins_of_window; Ok ∅).
Proof.
  assert (forall c, categories_of [] c = []) as Hnil.
  { intros [e|]; done. }
  split; [|split].
  - intros Hall. unfold make_bydatetime. cbn [with_catfield].
    assert (categories_of stops_df (Some excl) = []) as ->.
    { apply elem_of_nil_inv. intros c Hc.
      apply elem_of_categories_of in Hc as [(r & Hr & <-) Hn].
      by apply (Hn excl eq_refl), Hall. }
    assert (forall l : list StopRec,
              filter (fun r => Cat r ∈ @nil string) l = []) as ->.
    { induction l as [|r l IH]; [done|].
      rewrite filter_cons, decide_False; [done | by intros ?%elem_of_nil]. }
    destruct num_bins_of_window as [nb|e]; simpl; [|done].
    destruct (np_zeros3 nb) as [zero|e]; simpl; [|done].
    unfold sum_results. by rewrite map_fold_empty.
  - unfold make_bydatetime. cbn [with_catfield]. rewrite Hnil. simpl.
    destruct num_bins_of_window as [nb|e]; simpl; [|done].
    destruct (np_zeros3 nb) as [zero|e]; simpl; [|done].
    unfold sum_results. by rewrite map_fold_empty.
  - unfold make_bydatetime. cbn [with_catfield fmap list_fmap].
    rewrite Hnil. simpl.
    by destruct num_bins_of_window.
Qed.

(** The keys of a returned dict.  With a category field they are the
    category values that occur in the data and are not excluded, and the
    totals key ['datetime']; without one, the single key ['total'], and
    only if there is a record and ['total'] is not excluded. *)
Theorem make_bydatetime_keys (stops_df : list StopRec)
    (catfield : option string) (cat_to_exclude : option (list string))
    (totals edge_bins : Z) (results : gmap string (list oad_row)) :
  engine stops_df catfield cat_to_exclude totals edge_bins = Ok results ->
  forall key,
    is_Some (results !! key) <->
    (is_Some catfield /\ key = totals_key)
    \/ ((exists r, r ∈ stops_df
                   /\ key = match catfield with
                         | Some _ => Cat r
                         | None => total_str
                         end)
        /\ forall excl, cat_to_exclude = Some excl -> key ∉ excl).
Proof.
  intros H key. apply make_bydatetime_inv in H. simpl in H.
  destruct H as (num_bins & percat & _ & Hpc & _ & ->).
  assert (is_Some (percat !! key)
          <-> key ∈ categories_of (with_catfield stops_df catfield)
                      cat_to_exclude) as Hper.
  { destruct (category_results_lookup _ _ _ _ _ _ _ _ _ key Hpc)
      as [Hin Hout].
    split.
    - intros Hs. destruct (decide (key ∈ categories_of
        (with_catfield stops_df catfield) cat_to_exclude)) as [|Hn];
        [done|]. rewrite (Hout Hn) in Hs. by destruct Hs.
    - intros Hk. destruct (Hin Hk) as (oad & _ & ->). by eexists. }
  assert (key ∈ categories_of (with_catfield stops_df catfield)
                  cat_to_exclude
          <-> (exists r, r ∈ stops_df
                         /\ key = match catfield with
                         | Some _ => Cat r
                         | None => total_str
                         end)
              /\ forall excl, cat_to_exclude = Some excl -> key ∉ excl)
    as Hcat.
  { rewrite elem_of_categories_of.
    assert ((exists r, r ∈ with_catfield stops_df catfield /\ Cat r = key)
            <-> exists r, r ∈ stops_df
                  /\ key = match catfield with
                         | Some _ => Cat r
                         | None => total_str
                         end) as ->;
      [|done].
    destruct catfield as [f|]; simpl.
    - split; intros (r & Hr & Hk); by exists r.
    - split.
      + intros (r & Hr & <-). apply list_elem_of_fmap in Hr as (r0 & -> & Hr0).
        by exists r0.
      + intros (r & Hr & ->).
        exists (mkStopRec (InTS r) (OutTS r) total_str).
        split; [|done]. apply list_elem_of_fmap. by exists r. }
  rewrite <- Hcat, <- Hper. case_bool_decide as Hcf.
  - rewrite lookup_insert_is_Some. split.
    + intros [<-|[_ Hs]]; [by left | by right].
    + intros [[_ ->]|Hs]; [by left|].
      destruct (decide (totals_key = key)); [by left | by right].
  - split; [by right|]. by intros [[? _]|?].
Qed.

(** Excluding categories is the same as deleting their records before the
    analysis: the two runs return the same dict or raise the same
    exception.  ([cat_to_exclude[0]] is a list of category values.) *)
Theorem exclusion_is_prefiltering (stops_df : list StopRec) (field : string)
    (excl : list string) (totals edge_bins : Z) :
  engine stops_df (Some field) (Some excl) totals edge_bins
  = engine (filter (fun r => Cat r ∉ excl) stops_df) (Some field) None
      totals edge_bins.
Proof.
  unfold make_bydatetime. cbn [with_catfield].
  assert (categories_of (filter (fun r => Cat r ∉ excl) stops_df) None
          = categories_of stops_df (Some excl)) as Hcats.
  { unfold categories_of, unique.
    pose proof (fmap_Cat_filter (fun c => c ∉ excl) stops_df) as Hf.
    cbv beta in Hf. rewrite Hf. apply unique_from_filter. }
  rewrite Hcats.
  assert (filter (fun r => Cat r ∈ categories_of stops_df (Some excl))
            (filter (fun r => Cat r ∉ excl) stops_df)
          = filter (fun r => Cat r ∈ categories_of stops_df (Some excl))
              stops_df) as ->; [|done].
  apply list_filter_filter_l. intros r Hr.
  apply elem_of_categories_of in Hr as [_ Hn]. by apply Hn.
Qed.

(** Conservation of the counts: in a returned dict the arrivals column of a
    category adds up to the number of records of that category, and so does
    its departures column.  (The entry under ['datetime'] is the totals
    entry, also when a category has that name.) *)
Theorem arrivals_and_departures_conserved (stops_df : list StopRec)
    (catfield : option string) (cat_to_exclude : option (list string))
    (totals edge_bins : Z) (results : gmap string (list oad_row))
    (cat : string) :
  engine stops_df catfield cat_to_exclude totals edge_bins = Ok results ->
  let df := with_catfield stops_df catfield in
  cat ∈ categories_of df cat_to_exclude ->
  (is_Some catfield -> cat <> totals_key) ->
  exists m,
    results !! cat = Some m
    /\ (Qsum (arrivals m)
        == inject_Z (Z.of_nat (length (filter (fun r => Cat r = cat) df))))%Q
    /\ (Qsum (departures m)
        == inject_Z (Z.of_nat (length (filter (fun r => Cat r = cat) df))))%Q.
Proof.
  intros H df Hcat Hkey. apply make_bydatetime_inv in H. simpl in H.
  destruct H as (num_bins & percat & _ & Hpc & _ & ->). fold df in Hpc.
  destruct (category_results_lookup _ _ _ _ _ _ _ _ _ cat Hpc) as [Hin _].
  destruct (Hin Hcat) as (oad & Harr & Hlook).
  exists oad. split.
  { case_bool_decide as Hcf; [|done].
    rewrite lookup_insert_ne; [done|]. intros Heq. by apply Hkey. }
  apply counts_on_return in Harr.
  destruct Harr as (entry_bin & exit_bin & incs & st & Hraw & Hst & _ & _ & _
                    & Ha & Hd).
  apply update_occ_incs_lengths in Hst as [Hl1 Hl2].
  unfold raw_inc_arrays in Hraw.
  inv_bind Hraw as eb Heb. inv_bind Hraw as xb Hxb.
  inv_bind Hraw as ef Hef. inv_bind Hraw as xf Hxf.
  inv_bind Hraw as li Hli. injection Hraw as <- <- <-.
  apply map_result_length in Heb, Hxb.
  rewrite Ha, Hd, Hl1, Hl2, Heb, Hxb.
  rewrite list_filter_filter_l; [done|]. by intros r ->.
Qed.

(** One pass of the main loop returns when every record of the frame lies
    inside the window and is tagged [inner]. *)
Lemma category_arrays_inner (num_bins : Z) (df : list StopRec)
    (cat : string) :
  bin_size_minutes <> 0 -> 0 <= num_bins ->
  (forall r, r ∈ df ->
     stoprec_analysis_rltnshp (InTS r) (OutTS r) start_analysis end_analysis
     = "inner"
     /\ exists e x,
          bin_of_span (InTS r) start_analysis bin_size_minutes = Ok e
          /\ bin_of_span (OutTS r) start_analysis bin_size_minutes = Ok x
          /\ 0 <= e <= x /\ x < num_bins) ->
  exists oad,
    category_arrays bin_of_span stoprec_analysis_rltnshp start_analysis
      end_analysis bin_size_minutes num_bins df cat = Ok oad.
Proof.
  intros Hbin Hnb Hin. unfold category_arrays.
  set (cat_df := filter (fun r => Cat r = cat) df).
  assert (forall r, r ∈ cat_df -> r ∈ df) as Hsub.
  { intros r Hr. by apply list_elem_of_filter in Hr as [_ ?]. }
  (* the raw arrays *)
  unfold raw_inc_arrays.
  destruct (map_result_total
              (fun x => bin_of_span (InTS x) start_analysis bin_size_minutes)
              cat_df) as [eb Heb].
  { intros r Hr. destruct (Hin r (Hsub r Hr)) as (_ & e & x & He & _).
    by exists e. }
  destruct (map_result_total
              (fun x => bin_of_span (OutTS x) start_analysis bin_size_minutes)
              cat_df) as [xb Hxb].
  { intros r Hr. destruct (Hin r (Hsub r Hr)) as (_ & e & x & _ & Hx & _).
    by exists x. }
  destruct (map_result_total
              (fun x => in_bin_occ_frac (InTS x) bin_size_minutes 1) df)
    as [ef Hef].
  { intros r _. unfold in_bin_occ_frac. simpl.
    rewrite (proj2 (Z.eqb_neq _ _) Hbin). by eexists. }
  destruct (map_result_total
              (fun x => out_bin_occ_frac (OutTS x) bin_size_minutes 1) df)
    as [xf Hxf].
  { intros r _. unfold out_bin_occ_frac. simpl.
    rewrite (proj2 (Z.eqb_neq _ _) Hbin). by eexists. }
  pose proof (map_result_length _ _ _ Heb) as Hleb.
  pose proof (map_result_length _ _ _ Hxb) as Hlxb.
  pose proof (map_result_length _ _ _ Hef) as Hlef.
  pose proof (map_result_length _ _ _ Hxf) as Hlxf.
  assert (length cat_df <= length df)%nat as Hle by apply length_filter.
  destruct (map_result_total
              (fun i =>
                 e ← getitem eb i; x ← getitem xb i;
                 fe ← getitem ef i; fx ← getitem xf i;
                 Ok (make_occ_incs e x fe fx))
              (seq 0 (length cat_df))) as [incs Hincs].
  { intros i Hi%elem_of_seq.
    destruct (getitem_lt eb i) as (e & -> & _); [lia|].
    destruct (getitem_lt xb i) as (x & -> & _); [lia|].
    destruct (getitem_lt ef i) as (fe & -> & _); [lia|].
    destruct (getitem_lt xf i) as (fx & -> & _); [lia|].
    by eexists. }
  pose proof (map_result_length _ _ _ Hincs) as Hlincs.
  rewrite length_seq in Hlincs.
  rewrite Heb, Hxb, Hef, Hxf. simpl. rewrite Hincs. simpl.
  set (rec_type := (fun x => stoprec_analysis_rltnshp (InTS x) (OutTS x)
                               start_analysis end_analysis) <$> cat_df).
  (* what the arrays hold *)
  assert (forall i rt, rec_type !! i = Some rt -> rt = "inner") as Hrt.
  { intros i rt. unfold rec_type. rewrite list_lookup_fmap.
    destruct (cat_df !! i) as [r|] eqn:Hr; [|done]. intros [= <-].
    apply list_elem_of_lookup_2 in Hr. by destruct (Hin r (Hsub r Hr)). }
  assert (forall i e x inc,
            eb !! i = Some e -> xb !! i = Some x -> incs !! i = Some inc ->
            0 <= e /\ e <= x /\ x < num_bins
            /\ Z.of_nat (length inc) = x - e + 1) as Hrec.
  { intros i e x inc He Hx Hi.
    destruct (map_result_lookup_inv _ _ _ _ _ Heb He) as (r & Hr & Hre).
    destruct (map_result_lookup_inv _ _ _ _ _ Hxb Hx) as (r' & Hr' & Hrx).
    assert (r' = r) as -> by congruence.
    apply list_elem_of_lookup_2 in Hr.
    destruct (Hin r (Hsub r Hr)) as (_ & e' & x' & He' & Hx' & Hb1 & Hb2).
    assert (e' = e) as -> by congruence. assert (x' = x) as -> by congruence.
    destruct (map_result_lookup_inv _ _ _ _ _ Hincs Hi) as (j & Hj & Hmk).
    apply lookup_seq in Hj as [-> _]. simpl in Hmk.
    apply getitem_Ok in He, Hx. rewrite He, Hx in Hmk. simpl in Hmk.
    inv_bind Hmk as fe Hfe. inv_bind Hmk as fx Hfx. injection Hmk as <-.
    rewrite make_occ_incs_length. lia. }
  (* the clipping *)
  destruct (update_occ_incs_spec eb xb incs rec_type num_bins)
    as (st & Hst & (Hl1 & Hl2 & Hl3) & Hat);
    [lia | lia | unfold rec_type; rewrite length_fmap; lia |].
  rewrite Hst. simpl.
  assert (forall i e x inc,
            rec_at st i = Some (e, x, inc) ->
            0 <= e /\ e <= x /\ x < num_bins
            /\ Z.of_nat (length inc) = x - e + 1) as Hclip.
  { intros i e x inc Hi.
    assert (i < length eb)%nat as Hlt.
    { apply rec_at_Some in Hi as (Hi & _). apply lookup_lt_Some in Hi. lia. }
    destruct (lookup_lt_is_Some_2 eb i Hlt) as [e0 He0].
    destruct (lookup_lt_is_Some_2 xb i) as [x0 Hx0]; [lia|].
    destruct (lookup_lt_is_Some_2 incs i) as [inc0 Hi0]; [lia|].
    destruct (lookup_lt_is_Some_2 rec_type i) as [rt Hr];
      [unfold rec_type; rewrite length_fmap; lia|].
    rewrite (Hat i e0 x0 inc0 rt He0 Hx0 Hi0 Hr) in Hi.
    rewrite (Hrt i rt Hr) in Hi. injection Hi as <- <- <-.
    by eapply Hrec. }
  (* the occupancy *)
  unfold np_zeros. rewrite (proj2 (Z.ltb_ge _ _) Hnb). simpl.
  destruct (update_occ_credits_loop (in_bins st) rec_type
              (list_of_inc_arrays st) (Z.to_nat num_bins)
              (seq 0 (length (in_bins st)))
              (replicate (Z.to_nat num_bins) 0%Q))
    as (occ & Hocc & Hlocc & _).
  { unfold rec_type. rewrite length_fmap. lia. }
  { lia. }
  { intros i rt pos inc _ _ Hp Hi.
    destruct (lookup_lt_is_Some_2 (out_bins st) i) as [x Hx].
    { apply lookup_lt_Some in Hp. lia. }
    destruct (Hclip i pos x inc) as (H0 & H1 & H2 & H3).
    { apply rec_at_Some. by repeat split. }
    lia. }
  { apply Forall_forall. intros i Hi%elem_of_seq. lia. }
  { by rewrite length_replicate. }
  unfold update_occ, for_range. rewrite Hocc. simpl.
  (* the counts *)
  destruct (np_bincount_in_range (in_bins st) num_bins Hnb)
    as (arr & Harr & Hlarr).
  { apply Forall_lookup. intros i e He.
    destruct (lookup_lt_is_Some_2 (out_bins st) i) as [x Hx].
    { apply lookup_lt_Some in He. lia. }
    destruct (lookup_lt_is_Some_2 (list_of_inc_arrays st) i) as [inc Hi].
    { apply lookup_lt_Some in He. lia. }
    destruct (Hclip i e x inc) as (H0 & H1 & H2 & _).
    { apply rec_at_Some. by repeat split. }
    lia. }
  destruct (np_bincount_in_range (out_bins st) num_bins Hnb)
    as (dep & Hdep & Hldep).
  { apply Forall_lookup. intros i x Hx.
    destruct (lookup_lt_is_Some_2 (in_bins st) i) as [e He].
    { apply lookup_lt_Some in Hx. lia. }
    destruct (lookup_lt_is_Some_2 (list_of_inc_arrays st) i) as [inc Hi].
    { apply lookup_lt_Some in Hx. lia. }
    destruct (Hclip i e x inc) as (H0 & H1 & H2 & _).
    { apply rec_at_Some. by repeat split. }
    lia. }
  rewrite Harr, Hdep. simpl. unfold np_column_stack.
  rewrite decide_True by (split; congruence). by eexists.
Qed.

(** Clean data never fails.  With a nonzero bin size and a window of
    [num_bins >= 0] bins, if every record is tagged [inner] and its bins
    satisfy [0 <= entry_bin <= exit_bin < num_bins], the engine returns a
    dict, whatever the category field and the exclusions. *)
Theorem make_bydatetime_returns_on_inner_records (stops_df : list StopRec)
    (catfield : option string) (cat_to_exclude : option (list string))
    (totals edge_bins : Z) (num_bins : Z) :
  bin_size_minutes <> 0 ->
  num_bins_of_window = Ok num_bins -> 0 <= num_bins ->
  (forall r, r ∈ stops_df ->
     stoprec_analysis_rltnshp (InTS r) (OutTS r) start_analysis end_analysis
     = "inner"
     /\ exists e x,
          bin_of_span (InTS r) start_analysis bin_size_minutes = Ok e
          /\ bin_of_span (OutTS r) start_analysis bin_size_minutes = Ok x
          /\ 0 <= e <= x /\ x < num_bins) ->
  exists results,
    engine stops_df catfield cat_to_exclude totals edge_bins = Ok results.
Proof.
  intros Hbin Hwin Hnb Hin. unfold make_bydatetime. rewrite Hwin. simpl.
  set (df := with_catfield stops_df catfield).
  set (categories := categories_of df cat_to_exclude).
  set (df' := filter (fun r => Cat r ∈ categories) df).
  assert (forall r, r ∈ df' ->
     stoprec_analysis_rltnshp (InTS r) (OutTS r) start_analysis end_analysis
     = "inner"
     /\ exists e x,
          bin_of_span (InTS r) start_analysis bin_size_minutes = Ok e
          /\ bin_of_span (OutTS r) start_analysis bin_size_minutes = Ok x
          /\ 0 <= e <= x /\ x < num_bins) as Hin'.
  { intros r Hr. apply list_elem_of_filter in Hr as [_ Hr].
    unfold df, with_catfield in Hr. destruct catfield as [f|].
    - by apply Hin.
    - apply list_elem_of_fmap in Hr as (r0 & -> & Hr0). simpl.
      by apply Hin. }
  destruct (for_in_total (fun _ => True)
              (fun cat results =>
                 occ_arr_dep ← category_arrays bin_of_span
                                 stoprec_analysis_rltnshp start_analysis
                                 end_analysis bin_size_minutes num_bins df'
                                 cat;
                 Ok (<[cat := occ_arr_dep]> results))
              categories (∅ : gmap string (list oad_row)))
    as [percat Hper]; [|done|].
  { intros cat t _ _.
    destruct (category_arrays_inner num_bins df' cat Hbin Hnb Hin')
      as [oad ->].
    by eexists. }
  unfold category_results. rewrite Hper. simpl.
  unfold np_zeros3. rewrite (proj2 (Z.ltb_ge _ _) Hnb). simpl.
  case_bool_decide; by eexists.
Qed.

End EngineLaws.

Lemma make_bydatetime_nothing_to_analyze_witness :
  HmlibSpec.make_bydatetime (at_time 0 0 0) (at_time 3 0 0) 60
    [mkStopRec (at_time 0 30 0) (at_time 1 15 0) "A"]
    (Some "PatientType") (Some ["A"; "B"]) 1 1
  = (num_bins ← analysis_num_bins HmlibSpec.bin_of_span (at_time 0 0 0)
                  (at_time 3 0 0) 60;
     zero ← np_zeros3 num_bins;
     Ok {[ totals_key := zero ]}).
Proof.
  destruct (make_bydatetime_nothing_to_analyze HmlibSpec.bin_of_span
              (HmlibSpec.stoprec_analysis_rltnshp 60) (at_time 0 0 0)
              (at_time 3 0 0) 60
              [mkStopRec (at_time 0 30 0) (at_time 1 15 0) "A"]
              "PatientType" ["A"; "B"] None 1 1) as [Hall _].
  apply Hall. intros r Hr. apply list_elem_of_singleton in Hr as ->. simpl.
  apply (bool_decide_unpack _). exact I.
Defined.

Lemma make_bydatetime_keys_witness :
  let run :=
    HmlibSpec.make_bydatetime (at_time 0 0 0) (at_time 3 0 0) 60
      [mkStopRec (at_time 0 30 0) (at_time 1 15 0) "A";
       mkStopRec (at_time 1 30 0) (at_time 2 15 0) "B"]
      (Some "PatientType") (Some ["B"]) 1 1 in
  exists results,
    run = Ok results
    /\ is_Some (results !! "A") /\ ~ is_Some (results !! "B").
Proof.
  intros run.
  destruct run as [results|err] eqn:Hrun;
    [|vm_compute in Hrun; discriminate Hrun].
  exists results. split; [reflexivity|].
  unfold run, HmlibSpec.make_bydatetime in Hrun.
  pose proof (make_bydatetime_keys _ _ _ _ _ _ _ _ _ _ _ Hrun) as Hkeys.
  split.
  - apply Hkeys. right. split.
    + eexists. split; [by left | reflexivity].
    + intros excl [= <-]. apply (bool_decide_unpack _). exact I.
  - intros Hs. apply Hkeys in Hs as [[_ Hk]|[_ Hn]]; [discriminate Hk|].
    apply (Hn ["B"] eq_refl). by left.
Defined.

Lemma arrivals_and_departures_conserved_witness :
  let stops_df := [mkStopRec (at_time 0 30 0) (at_time 1 15 0) "A";
                   mkStopRec (at_time 1 30 0) (at_time 2 15 0) "B";
                   mkStopRec (at_time 1 40 0) (at_time 1 50 0) "A"] in
  let run :=
    HmlibSpec.make_bydatetime (at_time 0 0 0) (at_time 3 0 0) 60 stops_df
      (Some "PatientType") None 1 1 in
  exists results m,
    run = Ok results /\ results !! "A" = Some m
    /\ (Qsum (arrivals m) == 2)%Q /\ (Qsum (departures m) == 2)%Q.
Proof.
  intros stops_df run.
  destruct run as [results|err] eqn:Hrun;
    [|vm_compute in Hrun; discriminate Hrun].
  unfold run, HmlibSpec.make_bydatetime in Hrun.
  destruct (arrivals_and_departures_conserved _ _ _ _ _ _ _ _ _ _ _ "A" Hrun)
    as (m & Hm & Ha & Hd).
  - apply (bool_decide_unpack _). exact I.
  - intros _. discriminate.
  - exists results, m. split; [reflexivity|]. split; [exact Hm|].
    split; [exact Ha | exact Hd].
Defined.

Lemma make_bydatetime_returns_on_inner_records_witness :
  exists results,
    HmlibSpec.make_bydatetime (at_time 0 0 0) (at_time 3 0 0) 60
      [mkStopRec (at_time 0 30 0) (at_time 1 15 0) "A";
       mkStopRec (at_time 1 30 0) (at_time 3 15 0) "B"]
      (Some "PatientType") None 1 1 = Ok results.
Proof.
  apply (make_bydatetime_returns_on_inner_records HmlibSpec.bin_of_span
           (HmlibSpec.stoprec_analysis_rltnshp 60) (at_time 0 0 0)
           (at_time 3 0 0) 60
           [mkStopRec (at_time 0 30 0) (at_time 1 15 0) "A";
            mkStopRec (at_time 1 30 0) (at_time 3 15 0) "B"]
           (Some "PatientType") None 1 1 4).
  - lia.
  - reflexivity.
  - lia.
  - intros r Hr.
    apply elem_of_cons in Hr as [->|Hr];
      [|apply list_elem_of_singleton in Hr as ->].
    + split; [reflexivity|]. exists 0, 1. repeat split; lia.
    + split; [reflexivity|]. exists 1, 3. repeat split; lia.
Defined.

(** ** The totals entry counts every analysed record once *)

Lemma Qsum_fmap_ext {A} (f g : A -> Q) (l : list A) :
  (forall x, x ∈ l -> (f x == g x)%Q) -> (Qsum (f <$> l) == Qsum (g <$> l))%Q.
Proof.
  induction l as [|x l IH]; intros Hfg; [reflexivity|].
  rewrite !fmap_cons. unfold Qsum in *. simpl.
  rewrite (Hfg x) by (by left). rewrite IH; [reflexivity|].
  intros y Hy. apply Hfg. by right.
Qed.

Lemma row_add_columns (t m : list oad_row) :
  arrivals (zip_with row_add t m) = zip_with Qplus (arrivals t) (arrivals m)
  /\ departures (zip_with row_add t m)
     = zip_with Qplus (departures t) (departures m).
Proof.
  unfold arrivals, departures. revert m.
  induction t as [|[[a1 d1] o1] t IH]; intros [|[[a2 d2] o2] m]; try done.
  destruct (IH m) as [IHa IHd].
  split; simpl; f_equal; [exact IHa | exact IHd].
Qed.

(** The column sums of the folded matrix are the sums of the column sums. *)
Lemma foldr_row_add_columns (n : nat) (ms : list (string * list oad_row)) :
  Forall (fun km => length km.2 = n) ms ->
  let total :=
    foldr (uncurry (fun (_ : string) oad_array total =>
                      zip_with row_add total oad_array))
      (replicate n (0%Q, 0%Q, 0%Q)) ms in
  length total = n
  /\ (Qsum (arrivals total)
      == Qsum ((fun km => Qsum (arrivals km.2)) <$> ms))%Q
  /\ (Qsum (departures total)
      == Qsum ((fun km => Qsum (departures km.2)) <$> ms))%Q.
Proof.
  induction 1 as [|[k m] ms Hm Hms IH]; simpl.
  - split; [by rewrite length_replicate|].
    assert (forall c : Q * Q * Q -> Q,
              c (0%Q, 0%Q, 0%Q) = 0%Q ->
              (Qsum (c <$> replicate n (0%Q, 0%Q, 0%Q)) == 0)%Q) as Hz.
    { intros c Hc. induction n as [|n' IHn]; [reflexivity|].
      simpl. unfold Qsum in *. simpl. rewrite Hc, IHn. reflexivity. }
    split; by apply Hz.
  - simpl in Hm. destruct IH as (Hlen & Ha & Hd).
    set (total := foldr _ _ ms) in *.
    destruct (row_add_columns total m) as [-> ->].
    destruct (column_lengths total) as (Hla & Hld & _).
    destruct (column_lengths m) as (Hma & Hmd & _).
    split; [rewrite length_zip_with; lia|].
    rewrite !Qsum_zip_with_plus by congruence.
    change (Qsum (?f <$> (k, m) :: ms)) with (f (k, m) + Qsum (f <$> ms))%Q.
    simpl. rewrite Ha, Hd. split; apply Qplus_comm.
Qed.

Lemma sum_list_with_indicator (cs : list string) (x : string) :
  NoDup cs -> x ∈ cs ->
  sum_list_with (fun c => if decide (x = c) then 1%nat else 0%nat) cs = 1%nat.
Proof.
  induction 1 as [|c cs Hc Hnd IH]; [by intros ?%elem_of_nil|].
  intros Hx. simpl. destruct (decide (x = c)) as [->|Hne].
  - assert (sum_list_with (fun c' => if decide (c = c') then 1%nat else 0%nat)
              cs = 0%nat) as ->; [|done].
    clear IH Hnd Hx. induction cs as [|c' cs IH]; [done|].
    simpl. rewrite decide_False.
    + apply IH. intros Hin. apply Hc. by right.
    + intros ->. apply Hc. by left.
  - apply elem_of_cons in Hx as [?|Hx]; [done|]. by rewrite IH.
Qed.

(** Every record of a frame belongs to exactly one of its categories. *)
Lemma partition_by_category (cs : list string) (l : list StopRec) :
  NoDup cs -> (forall r, r ∈ l -> Cat r ∈ cs) ->
  sum_list_with (fun c => length (filter (fun r => Cat r = c) l)) cs
  = length l.
Proof.
  intros Hnd. induction l as [|r l IH]; intros Hall.
  - clear. induction cs as [|c cs IHc]; [done|]. simpl. exact IHc.
  - assert (sum_list_with
              (fun c => length (filter (fun r0 => Cat r0 = c) (r :: l))) cs
            = (sum_list_with
                 (fun c => if decide (Cat r = c) then 1%nat else 0%nat) cs
               + sum_list_with
                   (fun c => length (filter (fun r0 => Cat r0 = c) l)) cs)%nat)
      as ->.
    { clear. induction cs as [|c cs IHc]; [done|]. simpl.
      rewrite filter_cons, IHc. destruct (decide (Cat r = c)); simpl; lia. }
    rewrite sum_list_with_indicator by (done || apply Hall; by left).
    rewrite IH by (intros r' Hr'; apply Hall; by right). done.
Qed.

Section EngineTotals.

Variable bin_of_span : Timestamp -> Timestamp -> Z -> result Z.
Variable stoprec_analysis_rltnshp :
  Timestamp -> Timestamp -> Timestamp -> Timestamp -> string.
Variables start_analysis end_analysis : Timestamp.
Variable bin_size_minutes : Z.

(** The totals entry counts every analysed record exactly once: in a
    returned dict the arrivals column under ['datetime'] adds up to the
    number of records whose category is not excluded, and so does the
    departures column.  This holds also when a category is itself named
    ['datetime']. *)
Theorem totals_count_every_record (stops_df : list StopRec) (field : string)
    (cat_to_exclude : option (list string)) (totals edge_bins : Z)
    (results : gmap string (list oad_row)) :
  make_bydatetime bin_of_span stoprec_analysis_rltnshp start_analysis
    end_analysis bin_size_minutes stops_df (Some field) cat_to_exclude
    totals edge_bins = Ok results ->
  let analysed :=
    filter (fun r => Cat r ∉ default [] cat_to_exclude) stops_df in
  exists total,
    results !! totals_key = Some total
    /\ (Qsum (arrivals total) == inject_Z (Z.of_nat (length analysed)))%Q
    /\ (Qsum (departures total) == inject_Z (Z.of_nat (length analysed)))%Q.
Proof.
  intros H analysed. apply make_bydatetime_inv in H. simpl in H.
  destruct H as (num_bins & percat & _ & Hpc & _ & ->).
  set (categories := categories_of stops_df cat_to_exclude) in *.
  set (df' := filter (fun r => Cat r ∈ categories) stops_df) in *.
  eexists. split; [apply lookup_insert_eq|].
  (* the frame the loop runs over *)
  assert (df' = analysed) as Hdf.
  { apply filter_ext_in. intros r Hr. unfold categories.
    rewrite elem_of_categories_of. split.
    - intros [_ Hn]. destruct cat_to_exclude as [excl|]; simpl.
      + by apply Hn.
      + by intros ?%elem_of_nil.
    - intros Hn. split; [by exists r|]. by intros excl ->. }
  (* one matrix per category, with its counts *)
  assert (forall k m, (k, m) ∈ map_to_list percat ->
            k ∈ categories /\ length m = Z.to_nat num_bins
            /\ (Qsum (arrivals m)
                == inject_Z (Z.of_nat
                     (length (filter (fun r => Cat r = k) df'))))%Q
            /\ (Qsum (departures m)
                == inject_Z (Z.of_nat
                     (length (filter (fun r => Cat r = k) df'))))%Q) as Hcat.
  { intros k m Hkm%elem_of_map_to_list.
    destruct (category_results_lookup _ _ _ _ _ _ _ _ _ k Hpc) as [Hin Hout].
    destruct (decide (k ∈ categories)) as [Hk|Hk];
      [|rewrite (Hout Hk) in Hkm; discriminate].
    destruct (Hin Hk) as (oad & Harr & Hlook).
    assert (oad = m) as -> by congruence.
    split; [done|]. split.
    { by destruct (category_results_rows _ _ _ _ _ _ _ _ _ _ _ Hpc Hkm). }
    apply counts_on_return in Harr.
    destruct Harr as (entry_bin & exit_bin & incs & st & Hraw & Hst & _ & _
                      & _ & Ha & Hd).
    apply update_occ_incs_lengths in Hst as [Hl1 Hl2].
    unfold raw_inc_arrays in Hraw.
    inv_bind Hraw as eb Heb. inv_bind Hraw as xb Hxb.
    inv_bind Hraw as ef Hef. inv_bind Hraw as xf Hxf.
    inv_bind Hraw as li Hli. injection Hraw as <- <- <-.
    apply map_result_length in Heb, Hxb.
    by rewrite Ha, Hd, Hl1, Hl2, Heb, Hxb. }
  (* the keys of the dict are the categories *)
  assert ((map_to_list percat).*1 ≡ₚ categories) as Hkeys.
  { apply NoDup_Permutation.
    - apply NoDup_fst_map_to_list.
    - apply categories_of_NoDup.
    - intros k. rewrite list_elem_of_fmap. split.
      + intros ([k' m] & -> & Hkm). by destruct (Hcat k' m Hkm).
      + intros Hk.
        destruct (category_results_lookup _ _ _ _ _ _ _ _ _ k Hpc)
          as [Hin _].
        destruct (Hin Hk) as (oad & _ & Hlook).
        exists (k, oad). split; [done|]. by apply elem_of_map_to_list. }
  assert (Qsum ((fun k => inject_Z (Z.of_nat
                   (length (filter (fun r => Cat r = k) df'))))
                <$> (map_to_list percat).*1)
          == inject_Z (Z.of_nat (length analysed)))%Q as Hsum.
  { rewrite (Qsum_Permutation _ _ (fmap_Permutation _ _ _ Hkeys)).
    rewrite Qsum_inject, partition_by_category, Hdf; [reflexivity| |].
    - apply categories_of_NoDup.
    - intros r Hr. by apply list_elem_of_filter in Hr as [? _]. }
  unfold sum_results. rewrite map_fold_foldr.
  destruct (foldr_row_add_columns (Z.to_nat num_bins) (map_to_list percat))
    as (_ & Ha & Hd).
  { apply Forall_forall. intros [k m] Hkm.
    by destruct (Hcat k m Hkm) as (_ & ? & _). }
  rewrite Ha, Hd, <- Hsum, <- !list_fmap_compose.
  split; apply Qsum_fmap_ext; intros [k m] Hkm; simpl;
    by destruct (Hcat k m Hkm) as (_ & _ & ? & ?).
Qed.

End EngineTotals.

Lemma totals_count_every_record_witness :
  let stops_df := [mkStopRec (at_time 0 30 0) (at_time 1 15 0) "datetime";
                   mkStopRec (at_time 1 30 0) (at_time 2 15 0) "B";
                   mkStopRec (at_time 1 40 0) (at_time 1 50 0) "C"] in
  let run :=
    HmlibSpec.make_bydatetime (at_time 0 0 0) (at_time 3 0 0) 60 stops_df
      (Some "PatientType") (Some ["C"]) 1 1 in
  exists results total,
    run = Ok results /\ results !! totals_key = Some total
    /\ (Qsum (arrivals total) == 2)%Q /\ (Qsum (departures total) == 2)%Q.
Proof.
  intros stops_df run.
  destruct run as [results|err] eqn:Hrun;
    [|vm_compute in Hrun; discriminate Hrun].
  unfold run, HmlibSpec.make_bydatetime in Hrun.
  destruct (totals_count_every_record _ _ _ _ _ _ _ _ _ _ _ Hrun)
    as (total & Hm & Ha & Hd).
  exists results, total. split; [reflexivity|]. split; [exact Hm|].
  split; [exact Ha | exact Hd].
Defined.

(** ** The keys of [get_occstats] *)

Lemma list_ascii_of_string_app (s1 s2 : string) :
  String.list_ascii_of_string (s1 +:+ s2)
  = String.list_ascii_of_string s1 ++ String.list_ascii_of_string s2.
Proof. induction s1 as [|c s1 IH]; simpl; [done | by rewrite IH]. Qed.

Lemma list_ascii_of_string_inj (s1 s2 : string) :
  String.list_ascii_of_string s1 = String.list_ascii_of_string s2 -> s1 = s2.
Proof.
  intros H. rewrite <- (String.string_of_list_ascii_of_string s1).
  rewrite <- (String.string_of_list_ascii_of_string s2). by rewrite H.
Qed.

Lemma append_inj_l (s1 s2 k : string) : s1 +:+ k = s2 +:+ k -> s1 = s2.
Proof.
  intros H. apply list_ascii_of_string_inj.
  apply (f_equal String.list_ascii_of_string) in H.
  rewrite !list_ascii_of_string_app in H. by apply app_inv_tail in H.
Qed.

(** A long enough suffix decides the ending. *)
Lemma ending_append (n : nat) (s k : string) :
  (n <= length (String.list_ascii_of_string k))%nat ->
  ending n (s +:+ k) = ending n k.
Proof.
  intros Hn. unfold ending. rewrite list_ascii_of_string_app.
  rewrite drop_app_ge by (rewrite length_app; lia).
  f_equal. rewrite length_app. lia.
Qed.

Lemma NoDup_fmap_eq {A B} (f : A -> B) (l : list A) (x y : A) :
  NoDup (f <$> l) -> x ∈ l -> y ∈ l -> f x = f y -> x = y.
Proof.
  induction l as [|a l IH]; [by intros _ ?%elem_of_nil|].
  rewrite fmap_cons. intros [Ha Hnd]%NoDup_cons Hx Hy Hf.
  apply elem_of_cons in Hx as [->|Hx]; apply elem_of_cons in Hy as [->|Hy].
  - done.
  - exfalso. apply Ha. rewrite Hf. apply list_elem_of_fmap. by exists y.
  - exfalso. apply Ha. rewrite <- Hf. apply list_elem_of_fmap. by exists x.
  - by apply IH.
Qed.

Lemma dict_display_lookup {V} (items : list (string * V))
    (m : gmap string V) (k : string) :
  NoDup items.*1 ->
  foldl (fun d kv => <[kv.1 := kv.2]> d) m items !! k
  = match list_find (fun kv => kv.1 = k) items with
    | Some (_, kv) => Some kv.2
    | None => m !! k
    end.
Proof.
  revert m. induction items as [|[k0 v0] items IH]; intros m Hnd; [done|].
  rewrite fmap_cons in Hnd. apply NoDup_cons in Hnd as [Hk0 Hnd].
  simpl. rewrite IH by done. destruct (decide (k0 = k)) as [->|Hne].
  - simpl. destruct (list_find _ items) as [[i [k' v']]|] eqn:Hfind.
    + apply list_find_Some in Hfind as (Hi & Hk & _). simpl in Hk. subst k'.
      exfalso. apply Hk0. apply list_elem_of_fmap. exists (k, v').
      split; [done|]. by eapply list_elem_of_lookup_2.
    + simpl. by rewrite lookup_insert_eq.
  - destruct (list_find _ items) as [[i [k' v']]|] eqn:Hfind; simpl.
    + done.
    + by rewrite lookup_insert_ne.
Qed.

Lemma dict_display_size {V} (items : list (string * V))
    (m : gmap string V) :
  NoDup items.*1 -> (forall k, k ∈ items.*1 -> m !! k = None) ->
  size (foldl (fun d kv => <[kv.1 := kv.2]> d) m items)
  = (size m + length items)%nat.
Proof.
  revert m. induction items as [|[k0 v0] items IH]; intros m Hnd Hm;
    simpl; [lia|].
  rewrite fmap_cons in Hnd, Hm. apply NoDup_cons in Hnd as [Hk0 Hnd].
  rewrite IH; [|done|].
  - rewrite map_size_insert_None by (apply Hm; by left). simpl. lia.
  - intros k Hk. rewrite lookup_insert_ne; [apply Hm; by right|].
    by intros ->.
Qed.

Lemma occstats_keys {Stat} (group : Summarize.Group Stat) (stub : string) :
  (Summarize.occstats_items group stub).*1
  = column_key stub <$> occstats_columns.
Proof. reflexivity. Qed.

Lemma NoDup_occstats_endings :
  NoDup ((fun c : bool * string => ending 3 c.2) <$> occstats_columns).
Proof. apply (bool_decide_unpack _). vm_compute. exact I. Qed.

Lemma ending_column_key (stub : string) (c : bool * string) :
  c ∈ occstats_columns -> ending 3 (column_key stub c) = ending 3 c.2.
Proof.
  intros Hc. unfold column_key. destruct c as [[|] name]; simpl; [|done].
  apply ending_append.
  assert (Forall (fun c : bool * string =>
                    (3 <= length (String.list_ascii_of_string c.2))%nat)
            occstats_columns) as Hlen.
  { apply (bool_decide_unpack _). vm_compute. exact I. }
  rewrite Forall_forall in Hlen. exact (Hlen _ Hc).
Qed.

(** Two columns with the same key, under any two stubs, are the same
    column. *)
Lemma column_key_eq (stub1 stub2 : string) (c1 c2 : bool * string) :
  c1 ∈ occstats_columns -> c2 ∈ occstats_columns ->
  column_key stub1 c1 = column_key stub2 c2 -> c1 = c2.
Proof.
  intros H1 H2 Hk.
  apply (NoDup_fmap_eq (fun c : bool * string => ending 3 c.2)
           occstats_columns); [apply NoDup_occstats_endings|done|done|].
  simpl. rewrite <- (ending_column_key stub1 c1 H1).
  rewrite <- (ending_column_key stub2 c2 H2). by rewrite Hk.
Qed.

Lemma NoDup_occstats_keys (stub : string) :
  NoDup (column_key stub <$> occstats_columns).
Proof.
  apply NoDup_fmap_2_strong.
  - intros c1 c2 H1 H2. by apply column_key_eq.
  - apply (NoDup_fmap_1 (fun c : bool * string => ending 3 c.2)).
    apply NoDup_occstats_endings.
Qed.

Lemma get_occstats_lookup {Stat} (group : Summarize.Group Stat)
    (stub key : string) (v : Stat) :
  (key, v) ∈ Summarize.occstats_items group stub ->
  Summarize.get_occstats group stub !! key = Some v.
Proof.
  intros Hin. unfold Summarize.get_occstats, Summarize.dict_display.
  rewrite dict_display_lookup
    by (rewrite occstats_keys; apply NoDup_occstats_keys).
  destruct (list_find _ _) as [[i [k' v']]|] eqn:Hfind.
  - apply list_find_Some in Hfind as (Hi & Hk & _). simpl in Hk. subst k'.
    simpl. f_equal.
    apply list_elem_of_lookup_2 in Hi.
    pose proof (NoDup_occstats_keys stub) as Hnd.
    rewrite <- (occstats_keys group) in Hnd.
    apply list_elem_of_lookup_1 in Hin as [j Hj].
    apply list_elem_of_lookup_1 in Hi as [i' Hi'].
    assert (i' = j) as ->.
    { eapply NoDup_lookup; [exact Hnd| |];
        rewrite list_lookup_fmap; [rewrite Hi'|rewrite Hj]; done. }
    congruence.
  - apply list_find_None in Hfind. rewrite Forall_forall in Hfind.
    by destruct (Hfind _ Hin).
Qed.

Lemma get_occstats_is_Some {Stat} (group : Summarize.Group Stat)
    (stub key : string) :
  is_Some (Summarize.get_occstats group stub !! key)
  <-> exists c, c ∈ occstats_columns /\ key = column_key stub c.
Proof.
  unfold Summarize.get_occstats, Summarize.dict_display.
  rewrite dict_display_lookup
    by (rewrite occstats_keys; apply NoDup_occstats_keys).
  destruct (list_find _ _) as [[i [k' v']]|] eqn:Hfind.
  - apply list_find_Some in Hfind as (Hi & Hk & _). simpl in Hk. subst k'.
    split; [intros _|by eexists].
    apply list_elem_of_lookup_2 in Hi.
    apply (list_elem_of_fmap_2 fst) in Hi. rewrite occstats_keys in Hi.
    apply list_elem_of_fmap in Hi as (c & Hc & Hin). by exists c.
  - rewrite lookup_empty. split; [by intros [? ?]|].
    intros (c & Hc & ->). exfalso.
    apply list_find_None in Hfind. rewrite Forall_forall in Hfind.
    assert (column_key stub c ∈ (Summarize.occstats_items group stub).*1)
      as Hin.
    { rewrite occstats_keys. apply list_elem_of_fmap. by exists c. }
    apply list_elem_of_fmap in Hin as ([k v] & Hk & Hin). simpl in Hk.
    by apply (Hfind _ Hin).
Qed.

(** The dict of [get_occstats] has 17 entries for every [stub]: no prefix
    can make two of its keys coincide.  Each statistic is stored under
    [stub] followed by its name, except the standard deviation, which is
    stored under ['stdev'] without the prefix; with a nonempty [stub] there
    is no entry under [stub + 'stdev']. *)
Theorem get_occstats_entries {Stat} (group : Summarize.Group Stat)
    (stub : string) :
  let d := Summarize.get_occstats group stub in
  size d = 17%nat
  /\ d !! "stdev" = Some (Summarize.std group)
  /\ d !! (stub +:+ "count") = Some (Summarize.count group)
  /\ d !! (stub +:+ "mean") = Some (Summarize.mean group)
  /\ d !! (stub +:+ "min") = Some (Summarize.min group)
  /\ d !! (stub +:+ "max") = Some (Summarize.max group)
  /\ (forall name q,
        (name, q) ∈ [("p50", 0.5); ("p55", 0.55); ("p60", 0.6);
                     ("p65", 0.65); ("p70", 0.7); ("p75", 0.75);
                     ("p80", 0.8); ("p85", 0.85); ("p90", 0.9);
                     ("p95", 0.95); ("p975", 0.975); ("p99", 0.99)]%Q ->
        d !! (stub +:+ name) = Some (Summarize.quantile group q))
  /\ (stub <> "" -> d !! (stub +:+ "stdev") = None).
Proof.
  intros d. subst d. split.
  { unfold Summarize.get_occstats, Summarize.dict_display.
    rewrite dict_display_size; [done| |by intros; apply lookup_empty].
    rewrite occstats_keys. apply NoDup_occstats_keys. }
  assert (forall key v,
            (key, v) ∈ Summarize.occstats_items group stub ->
            Summarize.get_occstats group stub !! key = Some v) as Hget.
  { intros key v. apply get_occstats_lookup. }
  unfold Summarize.occstats_items in Hget.
  do 5 (split; [apply Hget; by repeat first [by left | right]|]).
  split.
  - intros name q Hin. apply Hget.
    repeat (apply elem_of_cons in Hin as [[= -> ->]|Hin];
            [by repeat first [by left | right]|]).
    by apply elem_of_nil in Hin.
  - intros Hstub.
    destruct (Summarize.get_occstats group stub !! (stub +:+ "stdev"))
      as [v|] eqn:Hv; [|done].
    exfalso. assert (is_Some (Summarize.get_occstats group stub
                                !! (stub +:+ "stdev"))) as Hs by by eexists.
    apply get_occstats_is_Some in Hs as (c & Hc & Hk).
    assert (c = (false, "stdev")) as ->.
    { apply (NoDup_fmap_eq (fun c : bool * string => ending 3 c.2)
               occstats_columns);
        [apply NoDup_occstats_endings | done
         | by apply (bool_decide_unpack _) |].
      cbv beta. rewrite <- (ending_column_key stub c Hc), <- Hk.
      apply ending_append. simpl. lia. }
    apply Hstub. symmetry. by apply (append_inj_l "" stub "stdev").
Qed.

Lemma get_occstats_entries_witness :
  let group := Summarize.Build_Group Q 24%Q 3%Q 0%Q 9%Q 2%Q (fun q => q * 9)%Q in
  let d := Summarize.get_occstats group "occ_" in
  size d = 17%nat
  /\ d !! "occ_p975" = Some (0.975 * 9)%Q
  /\ d !! "stdev" = Some 2%Q
  /\ d !! "occ_stdev" = None.
Proof.
  intros group d.
  destruct (get_occstats_entries group "occ_")
    as (Hsize & Hstd & _ & _ & _ & _ & Hq & Hnone).
  split; [exact Hsize|]. split.
  - apply (Hq "p975" 0.975%Q). by repeat first [by left | right].
  - split; [exact Hstd|]. apply Hnone. discriminate.
Defined.

(** The standard deviation is the one statistic that dicts built with
    different prefixes have in common: for two different stubs, a key is in
    both dicts exactly when it is ['stdev'].  Merging such dicts keeps one
    standard deviation only. *)
Theorem get_occstats_stubs_share_stdev {Stat}
    (group1 group2 : Summarize.Group Stat) (stub1 stub2 key : string) :
  stub1 <> stub2 ->
  is_Some (Summarize.get_occstats group1 stub1 !! key)
  /\ is_Some (Summarize.get_occstats group2 stub2 !! key)
  <-> key = "stdev".
Proof.
  intros Hne. rewrite !get_occstats_is_Some. split.
  - intros [(c1 & Hc1 & Hk1) (c2 & Hc2 & Hk2)].
    assert (c1 = c2) as <- by (apply (column_key_eq stub1 stub2);
                               [done | done | congruence]).
    destruct c1 as [[|] name]; unfold column_key in *; simpl in *.
    + exfalso. apply Hne. apply (append_inj_l _ _ name). congruence.
    + rewrite Hk1.
      assert (Forall (fun c : bool * string => c.1 = false -> c.2 = "stdev")
                occstats_columns) as Hcols.
      { apply (bool_decide_unpack _). vm_compute. exact I. }
      rewrite Forall_forall in Hcols. exact (Hcols _ Hc1 eq_refl).
  - intros ->.
    split; exists (false, "stdev");
      (split; [by apply (bool_decide_unpack _) | done]).
Qed.

Lemma get_occstats_stubs_share_stdev_witness :
  let occ := Summarize.Build_Group Q 24%Q 3%Q 0%Q 9%Q 2%Q (fun q => q * 9)%Q in
  let arr := Summarize.Build_Group Q 24%Q 1%Q 0%Q 4%Q 1%Q (fun q => q * 4)%Q in
  is_Some (Summarize.get_occstats occ "occ_" !! "stdev")
  /\ is_Some (Summarize.get_occstats arr "arr_" !! "stdev").
Proof.
  intros occ arr.
  apply (get_occstats_stubs_share_stdev occ arr "occ_" "arr_" "stdev");
    [discriminate | reflexivity].
Defined.

(** ** The files of [export_summaries] *)

Lemma files_written_then {DF} (t1 t2 : Hills.trace DF) :
  Hills.files_written (Hills.then_ t1 t2)
  = Hills.files_written t1
    ++ (if Hills.returns t1 then Hills.files_written t2 else []).
Proof.
  induction t1 as [|[p|p f df ix] rest IH|key]; simpl;
    [done | done | by rewrite IH | done].
Qed.

Lemma returns_then {DF} (t1 t2 : Hills.trace DF) :
  Hills.returns (Hills.then_ t1 t2) = Hills.returns t1 && Hills.returns t2.
Proof. induction t1 as [|c rest IH|key]; simpl; done. Qed.

(** A loop writes a prefix of what its iterations would write in full, and
    all of it when it returns. *)
Lemma for_each_files {A DF} (xs : list A) (body : A -> Hills.trace DF)
    (full : A -> list string) :
  (forall x, x ∈ xs ->
     Hills.files_written (body x) `prefix_of` full x
     /\ (Hills.returns (body x) = true ->
         Hills.files_written (body x) = full x)) ->
  Hills.files_written (Hills.for_each xs body)
    `prefix_of` concat (full <$> xs)
  /\ (Hills.returns (Hills.for_each xs body) = true ->
      Hills.files_written (Hills.for_each xs body) = concat (full <$> xs)).
Proof.
  induction xs as [|x xs IH]; intros Hbody; [done|].
  destruct (Hbody x) as [Hpre Hfull]; [by left|].
  destruct IH as [IHpre IHfull]; [intros y Hy; apply Hbody; by right|].
  unfold Hills.for_each in *. simpl.
  rewrite files_written_then, returns_then.
  destruct (Hills.returns (body x)) eqn:Hret; simpl.
  - rewrite (Hfull eq_refl). split.
    + by apply prefix_app.
    + intros Hr. by rewrite (IHfull Hr).
  - rewrite app_nil_r. split; [|done]. by apply prefix_app_r.
Qed.

Lemma elem_of_concat {A} (x : A) (ls : list (list A)) :
  x ∈ concat ls <-> exists l, x ∈ l /\ l ∈ ls.
Proof.
  induction ls as [|l0 ls IH]; simpl.
  - split; [by intros ?%elem_of_nil | by intros (l & _ & ?%elem_of_nil)].
  - rewrite elem_of_app, IH. split.
    + intros [H0|(l & Hx & Hl)]; [exists l0; split; [done | by left]|].
      exists l. split; [done | by right].
    + intros (l & Hx & [->|Hl]%elem_of_cons); [by left|].
      right. by exists l.
Qed.

Lemma for_each_returns {A DF} (xs : list A) (body : A -> Hills.trace DF) :
  (forall x, x ∈ xs -> Hills.returns (body x) = true) ->
  Hills.returns (Hills.for_each xs body) = true.
Proof.
  induction xs as [|x xs IH]; intros Hbody; [done|].
  unfold Hills.for_each in *. simpl. rewrite returns_then.
  rewrite (Hbody x) by (by left). apply IH.
  intros y Hy. apply Hbody. by right.
Qed.

Lemma summary_file_chars (scenario_name metric d : string) :
  String.list_ascii_of_string (summary_file scenario_name metric d)
  = String.list_ascii_of_string scenario_name
    ++ String.list_ascii_of_string "_"
    ++ String.list_ascii_of_string metric
    ++ (if (0 <? String.length d)%nat
        then String.list_ascii_of_string "_"
             ++ String.list_ascii_of_string d
             ++ String.list_ascii_of_string ".csv"
        else String.list_ascii_of_string ".csv").
Proof.
  unfold summary_file. destruct (0 <? String.length d)%nat;
    rewrite !list_ascii_of_string_app; by rewrite <- !app_assoc.
Qed.

(** Different metrics or different keys give different file names. *)
Lemma summary_file_inj (scenario_name m1 m2 d1 d2 : string) :
  m1 ∈ summary_metrics -> m2 ∈ summary_metrics ->
  summary_file scenario_name m1 d1 = summary_file scenario_name m2 d2 ->
  m1 = m2 /\ d1 = d2.
Proof.
  intros H1 H2 Heq.
  apply (f_equal String.list_ascii_of_string) in Heq.
  rewrite !summary_file_chars in Heq.
  apply app_inv_head in Heq. apply app_inv_head in Heq.
  assert (m1 = m2) as <-.
  { unfold summary_metrics in H1, H2.
    repeat (apply elem_of_cons in H1 as [->|H1]);
      try (by apply elem_of_nil in H1);
      repeat (apply elem_of_cons in H2 as [->|H2]);
      try (by apply elem_of_nil in H2);
      first [done | simpl in Heq; discriminate Heq]. }
  split; [done|]. apply app_inv_head in Heq.
  destruct d1 as [|c1 d1]; destruct d2 as [|c2 d2]; simpl in Heq;
    try done; try discriminate Heq.
  injection Heq as -> Heq. apply app_inv_tail in Heq.
  apply list_ascii_of_string_inj in Heq. by rewrite Heq.
Qed.

(** The files of one key. *)
Lemma export_key_files {DF} (index_name0 : DF -> option string)
    (scenario_name export_path temporal_key d : string)
    (df_dict : gmap string DF) :
  let body := fun metric : string =>
    match df_dict !! metric with
    | None => Hills.RaiseKeyError metric
    | Some df =>
        if bool_decide (temporal_key = "nonstationary"
                        \/ is_Some (index_name0 df))
        then Hills.Call (Hills.Mkdir export_path)
               (Hills.Call (Hills.ToCsv export_path
                              (summary_file scenario_name metric d) df true)
                  Hills.Return)
        else Hills.Call (Hills.Mkdir export_path)
               (Hills.Call (Hills.ToCsv export_path
                              (summary_file scenario_name metric d) df false)
                  Hills.Return)
    end in
  Hills.files_written (Hills.for_each summary_metrics body)
    `prefix_of` ((fun m => summary_file scenario_name m d)
                   <$> summary_metrics)
  /\ (Hills.returns (Hills.for_each summary_metrics body) = true ->
      Hills.files_written (Hills.for_each summary_metrics body)
      = (fun m => summary_file scenario_name m d) <$> summary_metrics).
Proof.
  intros body.
  destruct (for_each_files summary_metrics body
              (fun m => [summary_file scenario_name m d])) as [Hpre Hfull].
  { intros m _. unfold body. destruct (df_dict !! m) as [df|]; simpl.
    - case_bool_decide; simpl; done.
    - split; [apply prefix_nil | done]. }
  assert (concat ((fun m => [summary_file scenario_name m d])
                    <$> summary_metrics)
          = (fun m => summary_file scenario_name m d) <$> summary_metrics)
    as Hc by done.
  by rewrite Hc in Hpre, Hfull.
Qed.

(** One call of [export_summaries] never writes a file twice: the file
    names of its [to_csv] calls are pairwise different, whatever the
    scenario name and the keys of the summary dict (which, as dict keys,
    are distinct).  When every key has its three metrics the call returns,
    having written three files per key; the file names do not depend on
    [temporal_key]. *)
Theorem export_summaries_files {DF} (index_name0 : DF -> option string)
    (summary_all_dfs : gmap string (list (string * gmap string DF)))
    (scenario_name export_path temporal_key : string)
    (summary_dfs : list (string * gmap string DF)) :
  summary_all_dfs !! temporal_key = Some summary_dfs ->
  NoDup summary_dfs.*1 ->
  let t := Hills.export_summaries DF index_name0 summary_all_dfs
             scenario_name export_path temporal_key in
  NoDup (Hills.files_written t)
  /\ ((forall d df_dict metric,
         (d, df_dict) ∈ summary_dfs -> metric ∈ summary_metrics ->
         is_Some (df_dict !! metric)) ->
      Hills.returns t = true
      /\ Hills.files_written t
         = concat ((fun d => (fun m => summary_file scenario_name m d)
                               <$> summary_metrics) <$> summary_dfs.*1)).
Proof.
  intros Hkey Hnd t. subst t. unfold Hills.export_summaries. rewrite Hkey.
  set (body := fun '(d, df_dict) => Hills.for_each _ _).
  destruct (for_each_files summary_dfs body
              (fun kd => (fun m => summary_file scenario_name m kd.1)
                           <$> summary_metrics)) as [Hpre Hfull].
  { intros [d df_dict] _. unfold body.
    apply (export_key_files index_name0 scenario_name export_path
             temporal_key d df_dict). }
  assert ((fun kd : string * gmap string DF =>
             (fun m => summary_file scenario_name m kd.1) <$> summary_metrics)
            <$> summary_dfs
          = (fun d => (fun m => summary_file scenario_name m d)
                        <$> summary_metrics) <$> summary_dfs.*1) as Hc.
  { by rewrite <- list_fmap_compose. }
  rewrite Hc in Hpre, Hfull. split.
  - destruct Hpre as [k Hk].
    assert (NoDup (concat ((fun d => (fun m => summary_file scenario_name m d)
                                       <$> summary_metrics)
                             <$> summary_dfs.*1))) as Hall.
    { clear -Hnd. induction Hnd as [|d ds Hd Hnd IH]; [constructor|].
      rewrite fmap_cons. cbn [concat]. apply NoDup_app. split; [|split; [|done]].
      - apply NoDup_fmap_2_strong;
          [|by apply (bool_decide_unpack _)].
        intros m1 m2 H1 H2 Hf.
        by destruct (summary_file_inj _ _ _ _ _ H1 H2 Hf).
      - intros f Hf Hin.
        apply list_elem_of_fmap in Hf as (m1 & -> & Hm1).
        apply elem_of_concat in Hin as (l & Hf & Hl).
        apply list_elem_of_fmap in Hl as (d' & -> & Hd').
        apply list_elem_of_fmap in Hf as (m2 & Hf & Hm2).
        destruct (summary_file_inj _ _ _ _ _ Hm1 Hm2 Hf) as [_ <-].
        by apply Hd. }
    rewrite Hk in Hall. by apply NoDup_app in Hall as [? _].
  - intros Hmetrics.
    assert (Hills.returns (Hills.for_each summary_dfs body) = true) as Hret.
    { apply for_each_returns. intros [d df_dict] Hin. unfold body.
      apply for_each_returns. intros metric Hm.
      destruct (Hmetrics d df_dict metric Hin Hm) as [df ->].
      by case_bool_decide. }
    split; [done|]. by apply Hfull.
Qed.

Lemma export_summaries_files_witness :
  let dfs : gmap string (list (string * gmap string nat)) :=
    {[ "nonstationary" :=
         [("dow_binofday",
           {[ "occupancy" := 1%nat; "arrivals" := 2%nat;
              "departures" := 3%nat ]});
          ("", {[ "occupancy" := 4%nat ]})] ]} in
  let t := Hills.export_summaries nat (fun _ => None) dfs "ss" "out"
             "nonstationary" in
  NoDup (Hills.files_written t)
  /\ Hills.files_written t
     = ["ss_occupancy_dow_binofday.csv"; "ss_arrivals_dow_binofday.csv";
        "ss_departures_dow_binofday.csv"; "ss_occupancy.csv"]
  /\ Hills.returns t = false.
Proof.
  intros dfs t. split; [|split; reflexivity].
  apply (export_summaries_files (fun _ : nat => None) dfs "ss" "out"
           "nonstationary"
           [("dow_binofday",
             {[ "occupancy" := 1%nat; "arrivals" := 2%nat;
                "departures" := 3%nat ]});
            ("", {[ "occupancy" := 4%nat ]})]).
  - reflexivity.
  - apply (bool_decide_unpack _). vm_compute. exact I.
Defined.
